(** * Sentinel-AI: detection and mitigation core

    A shallow embedding of the Python sources under [model/app]
    ([app.py], [network_slicing.py], [performance_cache.py],
    [ml_detection.py], [sdn_controller.py], [mitigation_engine.py]) and
    the properties of the design document that concern them.

    Conventions of the embedding.
    - Python [float] and [int] values that are mixed in arithmetic are
      rationals ([Q]); comparisons and the four operations are exact, and
      there is no NaN and no infinity. (The comparisons with integer
      constants are exact on floats too, and so is the difference of two
      timestamps that lie within a factor two of each other, as epoch
      timestamps do.) The timestamps that [RateTracker.add] subtracts can
      be any floats a caller sends, so their difference is rounded to
      double precision ([float_sub]). Packet sizes and counters that stay
      integers are [Z] or [nat].
    - A Python [dict] is an insertion-ordered association list ([Dict]),
      because iteration order is observable ([min] over keys, the sweep
      over [blocked_ips.items()]).
    - Every reading of the wall clock ([time.time()], [datetime.now()])
      is the next value of a clock [nat -> Q]; the number of readings so
      far is part of the [World].
    - The HTTP requests sent to the Ryu controller are recorded in the
      [World]; the controller's answer is given by an oracle.
    - Exceptions are the [Raise] results of the monad [M]. An object is
      passed to its method and returned by it; a method that raises
      returns no object, only the world it reached.
    - Logging is not modelled. The two calls of [print], in the wrapper
      of [performance_monitor], are calls of a function that returns or
      raises; the decorated functions run in a process whose standard
      output takes every line. Threads run one operation at a time (the
      operations are modelled as atomic steps). *)

From Stdlib Require Import List String Ascii Bool ZArith QArith Qround Qpower.
From Stdlib Require Import Lia Lqa.
From Stdlib Require Import DecimalString.
Import ListNotations.

Local Open Scope string_scope.
Local Open Scope list_scope.
Local Open Scope Q_scope.

Set Implicit Arguments.

(** ** Numbers *)

(** [x < y] on floats, as a boolean. *)
Definition Qlt_bool (x y : Q) : bool := negb (Qle_bool y x).

(** [x >= y]. *)
Definition Qge_bool (x y : Q) : bool := Qle_bool y x.

(** [len(l)] as a float operand. *)
Definition Qlen {A} (l : list A) : Q := inject_Z (Z.of_nat (List.length l)).

(** ** Double precision *)

(** A float is the rational it stands for. Where the code subtracts two
    floats that a caller supplies, the result is the exact difference
    rounded to the nearest double, ties to the even significand. *)

(** The nearest integer, ties to even. *)
Definition round_half_even (x : Q) : Z :=
  let n := Qfloor x in
  match Qcompare (x - inject_Z n) (1 # 2) with
  | Lt => n
  | Eq => if Z.even n then n else (n + 1)%Z
  | Gt => (n + 1)%Z
  end.

(** The floor of the binary logarithm of a positive rational. *)
Definition Qlog2 (x : Q) : Z :=
  let k := (Z.log2 (Qnum x) - Z.log2 (Zpos (Qden x)))%Z in
  if Qle_bool (2 ^ k) x then k else (k - 1)%Z.

(** The exponent of the last place of the doubles around a positive [x]:
    53 significant bits, and no exponent below that of the subnormal
    numbers. *)
Definition ulp_exponent (x : Q) : Z := Z.max (Qlog2 x - 52) (-1074).

Definition round64_pos (x : Q) : Q :=
  let e := ulp_exponent x in
  inject_Z (round_half_even (x / 2 ^ e)) * 2 ^ e.

(** The double nearest to [x]. A value beyond the largest double, which
    the code holds as [inf], is left as a rational larger than every
    double: it compares with a double as [inf] does. *)
Definition round64 (x : Q) : Q :=
  match Qnum x with
  | Z0 => 0
  | Zpos _ => round64_pos x
  | Zneg _ => - round64_pos (- x)
  end.

(** [x - y] on two floats. *)
Definition float_sub (x y : Q) : Q := round64 (x - y).

(** ** Exceptions and results *)

Inductive Exn : Type :=
| ValueError
| KeyError
| ZeroDivisionError
| OtherError.

Inductive Res (A : Type) : Type :=
| Ok (a : A)
| Raise (e : Exn).

Arguments Ok {A} a.
Arguments Raise {A} e.

(** Python's [/] on floats. *)
Definition py_div (x y : Q) : Res Q :=
  if Qeq_bool y 0 then Raise ZeroDivisionError else Ok (x / y).

(** ** Insertion-ordered dictionaries *)

Module Dict.

Definition t (V : Type) : Type := list (string * V).

Definition empty {V} : t V := [].

Fixpoint get {V} (d : t V) (k : string) : option V :=
  match d with
  | [] => None
  | (k', v) :: d' => if String.eqb k' k then Some v else get d' k
  end.

(** [k in d] *)
Definition mem {V} (d : t V) (k : string) : bool :=
  match get d k with Some _ => true | None => false end.

(** [d[k] = v]: an existing key keeps its position, a new key goes last. *)
Fixpoint set {V} (d : t V) (k : string) (v : V) : t V :=
  match d with
  | [] => [(k, v)]
  | (k', v') :: d' =>
      if String.eqb k' k then (k', v) :: d' else (k', v') :: set d' k v
  end.

(** [del d[k]] once [k in d] is known. *)
Definition remove {V} (d : t V) (k : string) : t V :=
  filter (fun kv => negb (String.eqb (fst kv) k)) d.

(** [del d[k]]: raises [KeyError] on a missing key. *)
Definition del {V} (d : t V) (k : string) : Res (t V) :=
  if mem d k then Ok (remove d k) else Raise KeyError.

(** [d[k]]: raises [KeyError] on a missing key. *)
Definition item {V} (d : t V) (k : string) : Res V :=
  match get d k with Some v => Ok v | None => Raise KeyError end.

Definition keys {V} (d : t V) : list string := map fst d.

Definition items {V} (d : t V) : list (string * V) := d.

Definition len {V} (d : t V) : nat := List.length d.

End Dict.

(** [min(ks, key=f)]: the first element of [ks] whose key is minimal;
    [ValueError] on an empty sequence. *)
Fixpoint min_from {A} (f : A -> Res Q) (best : A) (fbest : Q) (l : list A)
  : Res A :=
  match l with
  | [] => Ok best
  | x :: l' =>
      match f x with
      | Ok fx => if Qlt_bool fx fbest then min_from f x fx l'
                 else min_from f best fbest l'
      | Raise e => Raise e
      end
  end.

Definition py_min {A} (l : list A) (f : A -> Res Q) : Res A :=
  match l with
  | [] => Raise ValueError
  | x :: l' =>
      match f x with
      | Ok fx => min_from f x fx l'
      | Raise e => Raise e
      end
  end.

(** [max(l)] / [l.max()] of a sequence of floats. *)
Definition py_max (l : list Q) : Res Q :=
  match l with
  | [] => Raise ValueError
  | x :: l' => Ok (fold_left (fun m y => if Qlt_bool m y then y else m) l' x)
  end.

(** [l[i:]]: a negative [i] counts from the end, and an index out of range
    is clipped. *)
Definition slice_from {A} (i : Z) (l : list A) : list A :=
  if (0 <=? i)%Z then skipn (Z.to_nat i) l
  else skipn (Z.to_nat (Z.of_nat (List.length l) + i)) l.

(** [s.lower()] on ASCII text. *)
Definition lower_ascii (c : ascii) : ascii :=
  let n := nat_of_ascii c in
  if (andb (Nat.leb 65 n) (Nat.leb n 90)) then ascii_of_nat (n + 32) else c.

Fixpoint lower (s : string) : string :=
  match s with
  | EmptyString => EmptyString
  | String c s' => String (lower_ascii c) (lower s')
  end.

(** ** Values exchanged between the components *)

(** The dict returned by [MLDetectionEngine.detect_ddos], which is also the
    [detection_result] read by [MitigationEngine.execute_mitigation]; a key
    that is absent is [None]. *)
Module Detection.
Record t : Type := {
  prediction : option string;
  confidence : option Q;
  threat_level : option string;
  timestamp : option Q;
  model_version : option string;
  error : option Exn
}.
End Detection.

(** ** performance_cache.py: the cache object *)

Record PerformanceCache (V : Type) : Type := {
  cache : Dict.t V;
  access_times : Dict.t Q;
  max_size : Z;
  ttl : Q;
  metrics : Dict.t (list (Q * Q))
}.

Arguments Build_PerformanceCache {V}.

(** [PerformanceCache.__init__] *)
Definition new_cache {V} (max_size : Z) (ttl : Q) : PerformanceCache V :=
  {| cache := Dict.empty; access_times := Dict.empty;
     max_size := max_size; ttl := ttl; metrics := Dict.empty |}.

(** ** The world outside the objects *)

(** What [sdn_controller.py] posts to Ryu. *)
Inductive Request : Type :=
| PostBlock (ip : string)      (* POST /simpleswitch/block/1 *)
| PostUnblock (ip : string).   (* POST /simpleswitch/unblock/1 *)

(** What [requests.post] gives back: a response with its status code, or an
    exception (connection error, timeout). *)
Inductive HttpOutcome : Type :=
| Response (status_code : Z)
| Failed.

Record World : Type := {
  clock : nat -> Q;                       (* the successive clock readings *)
  ticks : nat;                            (* readings taken so far *)
  ryu : nat -> Request -> HttpOutcome;    (* answer to the n-th request *)
  requests : list Request;                (* requests sent so far *)
  performance_cache : PerformanceCache Detection.t
                                          (* the module-level instance *)
}.

(** The state monad with exceptions in which the methods run. The world
    reached when an exception is raised is kept. *)
Definition M (A : Type) : Type := World -> Res A * World.

Definition ret {A} (a : A) : M A := fun w => (Ok a, w).

Definition bind {A B} (m : M A) (f : A -> M B) : M B :=
  fun w =>
    match m w with
    | (Ok a, w') => f a w'
    | (Raise e, w') => (Raise e, w')
    end.

Definition raise {A} (e : Exn) : M A := fun w => (Raise e, w).

(** [try: m except Exception as e: h e] *)
Definition try_except {A} (m : M A) (h : Exn -> M A) : M A :=
  fun w =>
    match m w with
    | (Ok a, w') => (Ok a, w')
    | (Raise e, w') => h e w'
    end.

Definition lift {A} (r : Res A) : M A := fun w => (r, w).

Declare Scope m_scope.
Delimit Scope m_scope with m.
Notation "x <- m ;; k" := (bind m (fun x => k))
  (at level 100, m at next level, right associativity) : m_scope.
Notation "' p <- m ;; k" := (bind m (fun x => match x with p => k end))
  (at level 100, p pattern, m at next level, right associativity) : m_scope.
Notation "m ;;; k" := (bind m (fun _ => k))
  (at level 100, right associativity) : m_scope.
Local Open Scope m_scope.

(** [time.time()], and [datetime.now()] as well. *)
Definition time_time : M Q :=
  fun w => (Ok (clock w (ticks w)),
            {| clock := clock w; ticks := S (ticks w); ryu := ryu w;
               requests := requests w;
               performance_cache := performance_cache w |}).

(** [requests.post(url, json=data, timeout=5)] to the controller. *)
Definition requests_post (r : Request) : M HttpOutcome :=
  fun w => (Ok (ryu w (List.length (requests w)) r),
            {| clock := clock w; ticks := ticks w; ryu := ryu w;
               requests := requests w ++ [r];
               performance_cache := performance_cache w |}).

(** Run a method on the module-level [performance_cache]. *)
Definition on_performance_cache {A}
    (f : PerformanceCache Detection.t -> M (A * PerformanceCache Detection.t))
  : M A :=
  fun w =>
    match f (performance_cache w) w with
    | (Ok (a, c), w') =>
        (Ok a, {| clock := clock w'; ticks := ticks w'; ryu := ryu w';
                  requests := requests w'; performance_cache := c |})
    | (Raise e, w') => (Raise e, w')
    end.

(** ** performance_cache.py: the methods *)

Section Cache.
Context {V : Type}.

Definition with_cache (self : PerformanceCache V)
    (c : Dict.t V) (a : Dict.t Q) : PerformanceCache V :=
  {| cache := c; access_times := a; max_size := max_size self;
     ttl := ttl self; metrics := metrics self |}.

Definition with_metrics (self : PerformanceCache V)
    (m : Dict.t (list (Q * Q))) : PerformanceCache V :=
  {| cache := cache self; access_times := access_times self;
     max_size := max_size self; ttl := ttl self; metrics := m |}.

Definition get (self : PerformanceCache V) (key : string)
  : M (option V * PerformanceCache V) :=
  match Dict.get (cache self) key with
  | Some v =>
      now <- time_time ;;
      stored <- lift (Dict.item (access_times self) key) ;;
      if Qlt_bool (now - stored) (ttl self) then ret (Some v, self)
      else
        a <- lift (Dict.del (access_times self) key) ;;
        ret (None, with_cache self (Dict.remove (cache self) key) a)
  | None => ret (None, self)
  end.

Definition set (self : PerformanceCache V) (key : string) (value : V)
  : M (PerformanceCache V) :=
  self1 <-
    (if (max_size self <=? Z.of_nat (Dict.len (cache self)))%Z then
       oldest_key <- lift (py_min (Dict.keys (access_times self))
                             (fun k => Dict.item (access_times self) k)) ;;
       c <- lift (Dict.del (cache self) oldest_key) ;;
       a <- lift (Dict.del (access_times self) oldest_key) ;;
       ret (with_cache self c a)
     else ret self) ;;
  now <- time_time ;;
  ret (with_cache self1 (Dict.set (cache self1) key value)
                        (Dict.set (access_times self1) key now)).

(** [self.metrics[endpoint]] on the [defaultdict(deque)]. *)
Definition metrics_of (self : PerformanceCache V) (endpoint : string)
  : list (Q * Q) :=
  match Dict.get (metrics self) endpoint with
  | Some q => q
  | None => []
  end.

Definition add_metric (self : PerformanceCache V) (endpoint : string)
    (duration : Q) : M (unit * PerformanceCache V) :=
  now <- time_time ;;
  let q := metrics_of self endpoint ++ [(now, duration)] in
  let q := if Nat.ltb 100 (List.length q) then tl q else q in
  ret (tt, with_metrics self (Dict.set (metrics self) endpoint q)).

End Cache.

(** ** performance_cache.py: the decorators *)

(** [@cache_result(ttl)]: [name] is [func.__name__], [cache_key] is the key
    built from the name and the hash of the arguments, [func] is the call
    being wrapped. The [ttl] argument is not used by the wrapper: expiry is
    decided by the [ttl] of the module-level cache. *)
Definition cache_result (ttl : Q) (name cache_key : string)
    (func : M Detection.t) : M Detection.t :=
  cached_result <- on_performance_cache (fun c => get c cache_key) ;;
  match cached_result with
  | Some r => ret r
  | None =>
      start_time <- time_time ;;
      result <- func ;;
      end_time <- time_time ;;
      let duration := (end_time - start_time) * 1000 in
      on_performance_cache
        (fun c => c' <- set c cache_key result ;; ret (tt, c')) ;;;
      on_performance_cache (fun c => add_metric c name duration) ;;;
      ret result
  end.

(** The lines that the wrapper of [performance_monitor] prints. *)
Inductive Notice : Type :=
| SlowOperation (name : string) (duration : Q)
| FastOperation (name : string) (duration : Q).

(** [@performance_monitor]. [print] is the call of [print] on the
    standard output of the process: it returns, or it raises, as it does
    when the encoding of the standard output lacks a character of the
    line. *)
Definition performance_monitor_on {A} (print : Notice -> Res unit)
    (name : string) (func : M A) : M A :=
  start_time <- time_time ;;
  try_except
    (result <- func ;;
     end_time <- time_time ;;
     let duration := (end_time - start_time) * 1000 in
     on_performance_cache (fun c => add_metric c name duration) ;;;
     (if Qlt_bool 200 duration
      then lift (print (SlowOperation name duration))
      else if Qlt_bool duration 50
      then lift (print (FastOperation name duration))
      else ret tt) ;;;
     ret result)
    (fun e =>
       end_time <- time_time ;;
       let duration := (end_time - start_time) * 1000 in
       on_performance_cache
         (fun c => add_metric c (name ++ "_error")%string duration) ;;;
       raise e).

(** [@performance_monitor] in a process whose standard output takes every
    line: the decorated functions below are wrapped in this one. *)
Definition performance_monitor {A} (name : string) (func : M A) : M A :=
  performance_monitor_on (fun _ => Ok tt) name func.

(** ** network_slicing.py *)

Module NetworkSlicing.

Record SliceInfo : Type := {
  description : string;
  priority : Z;
  bandwidth_weight : Q;
  ideal_use : string
}.

Definition SLICE_DEFINITIONS : Dict.t SliceInfo :=
  [ ("eMBB", {| description := "Enhanced Mobile Broadband";
                priority := 2;
                bandwidth_weight := 0.50;
                ideal_use := "High-speed data, streaming, big packets" |});
    ("URLLC", {| description := "Ultra Reliable Low Latency Communications";
                 priority := 1;
                 bandwidth_weight := 0.30;
                 ideal_use := "Critical real-time traffic, low latency" |});
    ("mMTC", {| description := "Massive Machine Type Communications";
                priority := 3;
                bandwidth_weight := 0.20;
                ideal_use := "IoT sensors, small frequent packets" |}) ].

Definition classify_slice (packet_size : Z) (protocol : string) (pps : Q)
  : string :=
  if orb (Qlt_bool 200 pps) (String.eqb protocol "ICMP") then "URLLC"
  else if andb (packet_size <? 200)%Z (Qlt_bool pps 20) then "mMTC"
  else "eMBB".

(** The dict returned by [apply_slice_policy]. *)
Record SlicePolicy : Type := {
  slice : string;
  policy_priority : Z;
  policy_bandwidth_weight : Q;
  policy_description : string;
  policy_ideal_use : string;
  timestamp : Q
}.

Definition apply_slice_policy (slice_name : string) : M SlicePolicy :=
  default <- lift (Dict.item SLICE_DEFINITIONS "eMBB") ;;
  let slice_info :=
    match Dict.get SLICE_DEFINITIONS slice_name with
    | Some i => i
    | None => default
    end in
  now <- time_time ;;
  ret {| slice := slice_name;
         policy_priority := priority slice_info;
         policy_bandwidth_weight := bandwidth_weight slice_info;
         policy_description := description slice_info;
         policy_ideal_use := ideal_use slice_info;
         timestamp := now |}.

Definition get_network_slice (packet_size : Z) (protocol : string)
    (pps : Q) : M SlicePolicy :=
  let slice_name := classify_slice packet_size protocol pps in
  apply_slice_policy slice_name.

End NetworkSlicing.

(** ** The scoring model

    A fitted scikit-learn classifier, seen through the three members the
    code uses. A call that raises is a [Raise] result. [predict] and
    [predict_proba] take one sample (the code passes a batch of one and
    reads row [0]). *)
Record Model : Type := {
  n_features_in_ : nat;
  predict : list Q -> Res Z;
  predict_proba : list Q -> Res (list Q)
}.

(** ** app.py *)

Module App.

(** *** RateTracker *)

Record RateTracker : Type := {
  window : Q;
  timestamps : Dict.t (list Q)      (* a [defaultdict(deque)] *)
}.

(** [RateTracker.__init__] *)
Definition new_tracker (window : Q) : RateTracker :=
  {| window := window; timestamps := Dict.empty |}.

(** [self.timestamps[src_ip]]: the deque of the source; the key is
    created with an empty deque when it is missing. *)
Definition deque_of (self : RateTracker) (src_ip : string) : list Q :=
  match Dict.get (timestamps self) src_ip with
  | Some q => q
  | None => []
  end.

(** [while q and ts - q[0] > self.window: q.popleft()] *)
Fixpoint purge (window ts : Q) (q : list Q) : list Q :=
  match q with
  | [] => []
  | q0 :: q' =>
      if Qlt_bool window (float_sub ts q0) then purge window ts q' else q
  end.

Definition add (self : RateTracker) (src_ip : string) (ts : Q)
  : RateTracker :=
  let q := deque_of self src_ip ++ [ts] in
  {| window := window self;
     timestamps := Dict.set (timestamps self) src_ip
                     (purge (window self) ts q) |}.

Definition pps (self : RateTracker) (src_ip : string)
  : Res Q * RateTracker :=
  let q := deque_of self src_ip in
  let self' := {| window := window self;
                  timestamps := Dict.set (timestamps self) src_ip q |} in
  match q with
  | [] => (Ok 0.0, self')
  | _ => (py_div (Qlen q) (window self), self')
  end.

(** *** ML / fallback detector *)

Section Detector.
(** The module-level [model]: [None] when loading the pickle failed. *)
Variable model : option Model.

Definition EXPECTED_FEATURES : nat :=
  match model with
  | Some m => n_features_in_ m
  | None => O
  end.

Definition build_features (pkt_size : Z) (pps : Q) : list Q :=
  let base := [ 1; pps; inject_Z pkt_size / 100; 0.5; 0.3; 10.0;
                1; 1; 1 ] in
  if Nat.ltb EXPECTED_FEATURES (List.length base) then
    firstn EXPECTED_FEATURES base
  else if Nat.ltb (List.length base) EXPECTED_FEATURES then
    base ++ repeat 0.0 (EXPECTED_FEATURES - List.length base)
  else base.

(** The body of the [try] block: an exception of the model is a
    [Raise] result. *)
Definition model_verdict (m : Model) (pkt_size : Z) (pps : Q) : Res bool :=
  let feats := build_features pkt_size pps in
  match predict m feats with
  | Raise e => Raise e
  | Ok pred =>
      match predict_proba m feats with
      | Raise e => Raise e
      | Ok proba =>
          match py_max proba with
          | Raise e => Raise e
          | Ok prob => Ok (andb (pred =? 1)%Z (Qlt_bool 0.7 prob))
          end
      end
  end.

Definition is_ddos_attack (pkt_size : Z) (pps : Q) : bool :=
  match model with
  | Some m =>
      match model_verdict m pkt_size pps with
      | Ok b => b
      | Raise _ => false        (* except Exception: return False *)
      end
  | None => Qlt_bool 50 pps     (* fallback: > 50 pps is DDoS *)
  end.

(** [FORCE_MALICIOUS_IPS] is the module-level set. *)
Definition is_ddos_attack_for_ip (FORCE_MALICIOUS_IPS : list string)
    (src_ip : string) (pkt_size : Z) (pps : Q) (simulated : bool)
  : bool :=
  if simulated then true
  else if existsb (String.eqb src_ip) FORCE_MALICIOUS_IPS then true
  else is_ddos_attack pkt_size pps.

End Detector.

End App.

(** ** ml_detection.py *)

(** [round(x, 4)]: to the nearest multiple of 1/10000, ties to even. *)
Definition round4 (x : Q) : Q :=
  let y := x * 10000 in
  let n := Qfloor y in
  let r := y - inject_Z n in
  let up := if Qlt_bool r 0.5 then false
            else if Qlt_bool 0.5 r then true
            else Z.odd n in
  inject_Z (if up then n + 1 else n)%Z / 10000.

Module MLDetection.

Record MLDetectionEngine : Type := {
  model : Model;
  scaler_transform : list Q -> Res (list Q);   (* [self.scaler.transform] *)
  feature_columns : list string
}.

(** The single row of the data frame, in the order of
    [feature_columns]; a missing column is filled with [0]. *)
Definition preprocess_features (self : MLDetectionEngine)
    (flow_features : Dict.t Q) : list Q :=
  map (fun col => match Dict.get flow_features col with
                  | Some v => v
                  | None => 0
                  end) (feature_columns self).

(** The function under the two decorators. *)
Definition detect_ddos_body (self : MLDetectionEngine)
    (flow_features : Dict.t Q) : M Detection.t :=
  try_except
    (let X := preprocess_features self flow_features in
     X_scaled <- lift (scaler_transform self X) ;;
     proba <- lift (predict_proba (model self) X_scaled) ;;
     pred <- lift (predict (model self) X_scaled) ;;
     confidence <- lift (py_max proba) ;;
     let prediction := if (pred =? 1)%Z then "ddos" else "normal" in
     let threat := if Qlt_bool 0.85 confidence then "HIGH"
                   else if Qlt_bool 0.6 confidence then "MEDIUM"
                   else "LOW" in
     now <- time_time ;;
     ret {| Detection.prediction := Some prediction;
            Detection.confidence := Some (round4 confidence);
            Detection.threat_level := Some threat;
            Detection.timestamp := Some now;
            Detection.model_version := Some "3.0.0";
            Detection.error := None |})
    (fun e =>
       ret {| Detection.prediction := Some "unknown";
              Detection.confidence := Some 0.0;
              Detection.threat_level := Some "UNKNOWN";
              Detection.timestamp := None;
              Detection.model_version := None;
              Detection.error := Some e |}).

(** [cache_key] is the key that [cache_result] builds from the hash of
    the printed arguments. *)
Definition detect_ddos (cache_key : Dict.t Q -> string)
    (self : MLDetectionEngine) (flow_features : Dict.t Q)
  : M Detection.t :=
  performance_monitor "detect_ddos"
    (cache_result 10 "detect_ddos" (cache_key flow_features)
       (detect_ddos_body self flow_features)).

End MLDetection.

(** ** sdn_controller.py *)

Module SDNController.

Definition status_ok (o : HttpOutcome) : bool :=
  match o with
  | Response code => orb (code =? 200)%Z (code =? 201)%Z
  | Failed => false
  end.

Definition block_ip (ip : string) : M bool :=
  r <- requests_post (PostBlock ip) ;;
  ret (status_ok r).

Definition unblock_ip (ip : string) : M bool :=
  r <- requests_post (PostUnblock ip) ;;
  ret (status_ok r).

End SDNController.

(** ** mitigation_engine.py *)

Module MitigationEngine.

Record Config : Type := {
  default_switch_id : Z;
  ddos_threshold : Q;
  block_duration : Q;
  max_history : Z;
  check_interval : Q
}.

(** A value of [self.blocked_ips]. *)
Module Block.
Record t : Type := {
  timestamp : Q;
  confidence : Q;
  packets_blocked : Z;
  reason : string;
  last_seen : Q
}.
End Block.

(** An item of [self.mitigation_history]. *)
Module Event.
Record t : Type := {
  timestamp : Q;
  ip : string;
  confidence : Q;
  action : string;
  details : Dict.t string
}.
End Event.

Record t : Type := {
  blocked_ips : Dict.t Block.t;
  mitigation_history : list Event.t;
  config : Config
}.

(** [MitigationEngine.__init__] *)
Definition new_engine : t :=
  {| blocked_ips := Dict.empty;
     mitigation_history := [];
     config := {| default_switch_id := 1;
                  ddos_threshold := 0.5;
                  block_duration := 3600;
                  max_history := 1000;
                  check_interval := 60 |} |}.

Definition with_blocked_ips (self : t) (b : Dict.t Block.t) : t :=
  {| blocked_ips := b;
     mitigation_history := mitigation_history self;
     config := config self |}.

Definition with_history (self : t) (h : list Event.t) : t :=
  {| blocked_ips := blocked_ips self;
     mitigation_history := h;
     config := config self |}.

(** The dict returned by [execute_mitigation], by its ["status"]. *)
Inductive Result : Type :=
| Error (message : string)
| AlreadyBlocked (ip : string) (since : Q) (packets_blocked : Z)
| Blocked (ip : string) (confidence : Q) (timestamp : Q)
| BlockFailed (ip : string)
| Normal (ip : string) (confidence : Q).

Definition status (r : Result) : string :=
  match r with
  | Error _ => "error"
  | AlreadyBlocked _ _ _ => "already_blocked"
  | Blocked _ _ _ => "blocked"
  | BlockFailed _ => "block_failed"
  | Normal _ _ => "normal"
  end.

Definition mitigation_applied (r : Result) : bool :=
  match r with
  | Blocked _ _ _ => true
  | _ => false
  end.

Definition is_ip_blocked (self : t) (ip : string) : M (bool * t) :=
  match Dict.get (blocked_ips self) ip with
  | Some d =>
      now <- time_time ;;
      let d1 := {| Block.timestamp := Block.timestamp d;
                   Block.confidence := Block.confidence d;
                   Block.packets_blocked := Block.packets_blocked d;
                   Block.reason := Block.reason d;
                   Block.last_seen := now |} in
      let d2 := {| Block.timestamp := Block.timestamp d1;
                   Block.confidence := Block.confidence d1;
                   Block.packets_blocked := (Block.packets_blocked d1 + 1)%Z;
                   Block.reason := Block.reason d1;
                   Block.last_seen := Block.last_seen d1 |} in
      ret (true, with_blocked_ips self (Dict.set (blocked_ips self) ip d2))
  | None => ret (false, self)
  end.

Definition invalid_ip (ip : string) : bool :=
  orb (String.eqb ip "0.0.0.0") (String.eqb ip "unknown").

Definition block_ip (self : t) (ip : string) (reason : string)
    (confidence : Q) : M (bool * t) :=
  if orb (String.eqb ip "") (invalid_ip ip) then ret (false, self)
  else
    success <- SDNController.block_ip ip ;;
    if success then
      t1 <- time_time ;;
      t2 <- time_time ;;
      ret (success,
           with_blocked_ips self
             (Dict.set (blocked_ips self) ip
                {| Block.timestamp := t1;
                   Block.confidence := confidence;
                   Block.packets_blocked := 0;
                   Block.reason := reason;
                   Block.last_seen := t2 |}))
    else ret (success, self).

Definition unblock_ip (self : t) (ip : string) : M (bool * t) :=
  if negb (Dict.mem (blocked_ips self) ip) then ret (false, self)
  else
    success <- SDNController.unblock_ip ip ;;
    if success then
      b <- lift (Dict.del (blocked_ips self) ip) ;;
      ret (success, with_blocked_ips self b)
    else ret (success, self).

(** [for ip in expired: self.unblock_ip(ip)] *)
Fixpoint unblock_all (self : t) (expired : list string) : M t :=
  match expired with
  | [] => ret self
  | ip :: rest =>
      ' (_, self1) <- unblock_ip self ip ;;
      unblock_all self1 rest
  end.

Definition is_expired (self : t) (now : Q) (d : Block.t) : bool :=
  Qlt_bool (block_duration (config self)) (now - Block.timestamp d).

Definition _cleanup_expired_blocks (self : t) : M t :=
  now <- time_time ;;
  let expired :=
    map fst (filter (fun kv => is_expired self now (snd kv))
               (Dict.items (blocked_ips self))) in
  self1 <- unblock_all self expired ;;
  if (max_history (config self1)
        <? Z.of_nat (List.length (mitigation_history self1)))%Z
  then ret (with_history self1
              (slice_from (- max_history (config self1))
                 (mitigation_history self1)))
  else ret self1.

(** The function under [@performance_monitor]. *)
Definition execute_mitigation_body (self : t)
    (detection_result : Detection.t) (flow_info : Dict.t string)
  : M (Result * t) :=
  let src_ip := match Dict.get flow_info "src_ip" with
                | Some s => s
                | None => "unknown"
                end in
  if orb (String.eqb src_ip "unknown") (String.eqb src_ip "0.0.0.0")
  then ret (Error "Invalid IP", self)
  else
    ' (blocked, self1) <- is_ip_blocked self src_ip ;;
    if blocked then
      d <- lift (Dict.item (blocked_ips self1) src_ip) ;;
      ret (AlreadyBlocked src_ip (Block.timestamp d)
             (Block.packets_blocked d), self1)
    else
      let is_ddos :=
        String.eqb
          (lower (match Detection.prediction detection_result with
                  | Some p => p
                  | None => ""
                  end)) "ddos" in
      let confidence := match Detection.confidence detection_result with
                        | Some c => c
                        | None => 0.0
                        end in
      if andb is_ddos
           (Qge_bool confidence (ddos_threshold (config self1)))
      then
        ' (ok, self2) <- block_ip self1 src_ip "DDoS detected" confidence ;;
        if ok then
          now <- time_time ;;
          let self3 :=
            with_history self2
              (mitigation_history self2 ++
                 [ {| Event.timestamp := now;
                      Event.ip := src_ip;
                      Event.confidence := confidence;
                      Event.action := "BLOCKED";
                      Event.details := flow_info |} ]) in
          stamp <- time_time ;;
          ret (Blocked src_ip confidence stamp, self3)
        else ret (BlockFailed src_ip, self2)
      else ret (Normal src_ip confidence, self1).

Definition execute_mitigation (self : t)
    (detection_result : Detection.t) (flow_info : Dict.t string)
  : M (Result * t) :=
  performance_monitor "execute_mitigation"
    (execute_mitigation_body self detection_result flow_info).

Definition get_mitigation_history (self : t) (limit : Z) : list Event.t :=
  slice_from (- limit) (mitigation_history self).

End MitigationEngine.

(** ** app.py: the module-level state, the Ryu calls and the capture loop

    The functions of [app.py] work on module-level variables and post to
    two servers, Ryu and the Node backend. The variables are the fields of
    [Live.State]; every post is recorded in [posts], and answered by the
    oracle [http]. The clock is that of the [world]. The text of a block
    reason is represented by the values it is formatted from. *)

Module Live.

(** The JSON sent to [NODE_LIVEPACKET] by the capture loop. *)
Record LivePayload : Type := {
  srcIP : string;
  dstIP : string;
  protocol : string;
  packetSize : Z;
  timestamp : Z;
  network_slice : string;
  slice_priority : Z
}.

(** The JSON sent to [NODE_URL] when a source was blocked. *)
Record BlockedPayload : Type := {
  ip : string;
  reason_pps : Q;
  reason_protocol : string;
  threatLevel : string;
  blocked_at : Q;
  isSimulated : bool;
  blocked_slice : string;
  blocked_priority : Z
}.

Inductive Post : Type :=
| FlowAdd (ip : string)         (* RYU_URL/stats/flowentry/add, a DROP rule *)
| FlowDelete (ip : string)      (* RYU_URL/stats/flowentry/delete *)
| EmitBlockedIp (p : BlockedPayload)   (* NODE_URL *)
| LivePacket (p : LivePayload).        (* NODE_LIVEPACKET *)

Record State : Type := {
  world : World;
  http : nat -> Post -> HttpOutcome;    (* answer to the n-th post *)
  posts : list Post;                    (* posts made so far *)
  BLOCKED_IPS : list string;            (* a set *)
  FORCE_MALICIOUS_IPS : list string;    (* a set *)
  running : bool;
  model : option Model;
  rate_tracker : App.RateTracker;
  last_live_ts : Q
}.

Definition with_world (st : State) (w : World) : State :=
  {| world := w; http := http st; posts := posts st;
     BLOCKED_IPS := BLOCKED_IPS st;
     FORCE_MALICIOUS_IPS := FORCE_MALICIOUS_IPS st; running := running st;
     model := model st; rate_tracker := rate_tracker st;
     last_live_ts := last_live_ts st |}.

Definition with_posts (st : State) (l : list Post) : State :=
  {| world := world st; http := http st; posts := l;
     BLOCKED_IPS := BLOCKED_IPS st;
     FORCE_MALICIOUS_IPS := FORCE_MALICIOUS_IPS st; running := running st;
     model := model st; rate_tracker := rate_tracker st;
     last_live_ts := last_live_ts st |}.

Definition with_blocked (st : State) (b : list string) : State :=
  {| world := world st; http := http st; posts := posts st;
     BLOCKED_IPS := b;
     FORCE_MALICIOUS_IPS := FORCE_MALICIOUS_IPS st; running := running st;
     model := model st; rate_tracker := rate_tracker st;
     last_live_ts := last_live_ts st |}.

Definition with_tracker (st : State) (tr : App.RateTracker) : State :=
  {| world := world st; http := http st; posts := posts st;
     BLOCKED_IPS := BLOCKED_IPS st;
     FORCE_MALICIOUS_IPS := FORCE_MALICIOUS_IPS st; running := running st;
     model := model st; rate_tracker := tr;
     last_live_ts := last_live_ts st |}.

Definition with_last_live (st : State) (ts : Q) : State :=
  {| world := world st; http := http st; posts := posts st;
     BLOCKED_IPS := BLOCKED_IPS st;
     FORCE_MALICIOUS_IPS := FORCE_MALICIOUS_IPS st; running := running st;
     model := model st; rate_tracker := rate_tracker st;
     last_live_ts := ts |}.

(** The state when the module has been loaded. *)
Definition initial (w : World) (http : nat -> Post -> HttpOutcome)
    (model : option Model) : State :=
  {| world := w; http := http; posts := [];
     BLOCKED_IPS := []; FORCE_MALICIOUS_IPS := []; running := false;
     model := model; rate_tracker := App.new_tracker 1.0;
     last_live_ts := 0.0 |}.

(** [ip in s], [s.add(ip)] and [s.discard(ip)] on a set of addresses. *)
Definition set_mem (ip : string) (s : list string) : bool :=
  existsb (String.eqb ip) s.

Definition set_add (ip : string) (s : list string) : list string :=
  if set_mem ip s then s else s ++ [ip].

Definition set_discard (ip : string) (s : list string) : list string :=
  filter (fun x => negb (String.eqb x ip)) s.

(** [time.time()] and [datetime.now()] *)
Definition time_now (st : State) : Q * State :=
  (clock (world st) (ticks (world st)),
   with_world st (snd (time_time (world st)))).

(** [requests.post(...)]: the outcome, and the post recorded. *)
Definition requests_post (st : State) (p : Post) : HttpOutcome * State :=
  (http st (List.length (posts st)) p, with_posts st (posts st ++ [p])).

(** [r.ok] of [requests]: [raise_for_status] would not raise, which it
    does for a status from 400 up to, and not including, 600. *)
Definition ok (status_code : Z) : bool :=
  negb ((400 <=? status_code)%Z && (status_code <? 600)%Z).

Definition block_ip (st : State) (ip : string) : bool * State :=
  if set_mem ip (BLOCKED_IPS st) then (true, st)
  else
    let '(r, st1) := requests_post st (FlowAdd ip) in
    match r with
    | Response code =>
        if ok code
        then (true, with_blocked st1 (set_add ip (BLOCKED_IPS st1)))
        else (false, st1)
    | Failed => (false, st1)
    end.

Definition unblock_ip (st : State) (ip : string) : bool * State :=
  if negb (set_mem ip (BLOCKED_IPS st)) then (true, st)
  else
    let '(r, st1) := requests_post st (FlowDelete ip) in
    match r with
    | Response code =>
        if ok code
        then (true, with_blocked st1 (set_discard ip (BLOCKED_IPS st1)))
        else (false, st1)
    | Failed => (false, st1)
    end.

Definition LIVE_POST_INTERVAL : Q := 0.1.

Definition throttled_live_post (st : State) (payload : LivePayload) : State :=
  let '(now, st1) := time_now st in
  if Qge_bool (now - last_live_ts st1) LIVE_POST_INTERVAL then
    let '(r, st2) := requests_post st1 (LivePacket payload) in
    match r with
    | Response _ => with_last_live st2 now
    | Failed => st2               (* except Exception: pass *)
    end
  else st1.

Definition PROTOCOL_MAP : list (Z * string) :=
  [ (1, "ICMP"); (2, "IGMP"); (6, "TCP"); (17, "UDP"); (89, "OSPF");
    (41, "IPv6"); (50, "ESP"); (51, "AH") ]%Z.

(** [PROTOCOL_MAP.get(proto, f"Proto {proto}")] *)
Definition protocol_name (proto : Z) : string :=
  match find (fun kv => (fst kv =? proto)%Z) PROTOCOL_MAP with
  | Some kv => snd kv
  | None => ("Proto " ++ NilZero.string_of_int (Z.to_int proto))%string
  end.

(** [int(x)] on a float: towards zero. *)
Definition py_int (x : Q) : Z :=
  if Qle_bool 0 x then Qfloor x else Qceiling x.

(** A captured packet: its IP layer, if it has one (source, destination,
    protocol number), and its length. *)
Record Packet : Type := {
  ip_layer : option (string * string * Z);
  len : Z
}.

(** The [packet_handler] of [capture_loop]. *)
Definition packet_handler (st : State) (pkt : Packet) : Res unit * State :=
  if negb (running st) then (Ok tt, st)
  else
    match ip_layer pkt with
    | None => (Ok tt, st)
    | Some (src_ip, dst_ip, proto) =>
        let size := len pkt in
        let '(now, st1) := time_now st in
        let st2 := with_tracker st1 (App.add (rate_tracker st1) src_ip now) in
        let '(r, tr) := App.pps (rate_tracker st2) src_ip in
        let st3 := with_tracker st2 tr in
        match r with
        | Raise e => (Raise e, st3)
        | Ok pps =>
            let name := protocol_name proto in
            let '(slice_info, w) :=
              NetworkSlicing.get_network_slice size name pps (world st3) in
            let st4 := with_world st3 w in
            let '(network_slice, slice_priority) :=
              match slice_info with
              | Ok info => (NetworkSlicing.slice info,
                            NetworkSlicing.policy_priority info)
              | Raise _ => ("eMBB", 2%Z)
              end in
            let st5 :=
              throttled_live_post st4
                {| srcIP := src_ip; dstIP := dst_ip; protocol := name;
                   packetSize := size; timestamp := py_int (now * 1000);
                   network_slice := network_slice;
                   slice_priority := slice_priority |} in
            if App.is_ddos_attack_for_ip (model st5) (FORCE_MALICIOUS_IPS st5)
                 src_ip size pps false
            then
              let '(blocked, st6) := block_ip st5 src_ip in
              if blocked then
                let '(stamp, st7) := time_now st6 in
                let '(_, st8) :=
                  requests_post st7
                    (EmitBlockedIp
                       {| ip := src_ip; reason_pps := pps;
                          reason_protocol := name; threatLevel := "high";
                          blocked_at := stamp; isSimulated := false;
                          blocked_slice := network_slice;
                          blocked_priority := slice_priority |}) in
                (Ok tt, st8)
              else (Ok tt, st6)
            else (Ok tt, st5)
        end
    end.

End Live.

(** * Definitions used to state the properties *)

(** ** Concrete inputs *)

(** A world whose clock reads 0, 1, 2, ... and whose controller accepts
    every request. *)
Definition world0 : World :=
  {| clock := fun n => inject_Z (Z.of_nat n);
     ticks := 0;
     ryu := fun _ _ => Response 200;
     requests := [];
     performance_cache := new_cache 1000 30 |}.

(** The same world with a controller that answers every request with a
    server error. *)
Definition world_down : World :=
  {| clock := fun n => inject_Z (Z.of_nat n);
     ticks := 0;
     ryu := fun _ _ => Response 500;
     requests := [];
     performance_cache := new_cache 1000 30 |}.

(** A model whose [predict] raises on every input. *)
Definition broken_model : Model :=
  {| n_features_in_ := 9;
     predict := fun _ => Raise OtherError;
     predict_proba := fun _ => Ok [0.1; 0.9] |}.

(** The verdict that [detect_ddos] returns from its [except] clause. *)
Definition unknown_verdict (e : Exn) : Detection.t :=
  {| Detection.prediction := Some "unknown";
     Detection.confidence := Some 0.0;
     Detection.threat_level := Some "UNKNOWN";
     Detection.timestamp := None;
     Detection.model_version := None;
     Detection.error := Some e |}.

(** A detection engine around [broken_model], with the identity as its
    scaler and one feature column. *)
Definition broken_engine : MLDetection.MLDetectionEngine :=
  {| MLDetection.model := broken_model;
     MLDetection.scaler_transform := fun x => Ok x;
     MLDetection.feature_columns := ["packets_per_second"] |}.

(** ** Slice rules, in the words of the design document *)

Inductive slice_rule (packet_size : Z) (protocol : string) (pps : Q)
  : string -> Z -> Q -> Prop :=
| rule_URLLC :
    200 < pps \/ protocol = "ICMP" ->
    slice_rule packet_size protocol pps "URLLC" 1 0.30
| rule_mMTC :
    ~ (200 < pps \/ protocol = "ICMP") ->
    (packet_size < 200)%Z /\ pps < 20 ->
    slice_rule packet_size protocol pps "mMTC" 3 0.20
| rule_eMBB :
    ~ (200 < pps \/ protocol = "ICMP") ->
    ~ ((packet_size < 200)%Z /\ pps < 20) ->
    slice_rule packet_size protocol pps "eMBB" 2 0.50.

(** ** Runs of the rate tracker *)

(** [add] called for one source with each timestamp in turn. *)
Definition add_all (self : App.RateTracker) (src_ip : string)
    (events : list Q) : App.RateTracker :=
  fold_left (fun tr ts => App.add tr src_ip ts) events self.

(** The value of a result that did not raise is [r], up to equality of
    rationals. *)
Definition returns (res : Res Q) (r : Q) : Prop :=
  match res with
  | Ok x => x == r
  | Raise _ => False
  end.

(** ** Inputs of the mitigation engine *)

(** The inputs for which [execute_mitigation] attempts a block: a usable
    source address, a verdict [ddos] (in any case of letters) and a
    confidence that reaches the threshold of the engine. *)
Record threat_for (self : MitigationEngine.t) (det : Detection.t)
    (flow_info : Dict.t string) (ip : string) (c : Q) : Prop := {
  threat_src : Dict.get flow_info "src_ip" = Some ip;
  threat_not_empty : ip <> "";
  threat_not_unknown : ip <> "unknown";
  threat_not_zero : ip <> "0.0.0.0";
  threat_ddos : exists p, Detection.prediction det = Some p
                          /\ lower p = "ddos";
  threat_confidence : Detection.confidence det = Some c;
  threat_threshold :
    MitigationEngine.ddos_threshold (MitigationEngine.config self) <= c
}.

(** An engine with one record, created at time 0, and nothing in its
    history. *)
Definition engine_one_block : MitigationEngine.t :=
  MitigationEngine.with_blocked_ips MitigationEngine.new_engine
    [ ("10.0.0.5",
       {| MitigationEngine.Block.timestamp := 0;
          MitigationEngine.Block.confidence := 0.9;
          MitigationEngine.Block.packets_blocked := 0;
          MitigationEngine.Block.reason := "DDoS detected";
          MitigationEngine.Block.last_seen := 0 |}) ].

(** A world whose clock always reads [now] and whose controller accepts
    every request. *)
Definition world_at (now : Q) : World :=
  {| clock := fun _ => now;
     ticks := 0;
     ryu := fun _ _ => Response 200;
     requests := [];
     performance_cache := new_cache 1000 30 |}.

(** A verdict [ddos] with confidence 0.9, and the flow of one source. *)
Definition ddos_verdict : Detection.t :=
  {| Detection.prediction := Some "ddos";
     Detection.confidence := Some 0.9;
     Detection.threat_level := Some "HIGH";
     Detection.timestamp := Some 0;
     Detection.model_version := Some "3.0.0";
     Detection.error := None |}.

Definition flow_of (ip : string) : Dict.t string := [("src_ip", ip)].

(** An engine whose history already holds [max_history] entries. *)
Definition engine_full_history : MitigationEngine.t :=
  MitigationEngine.with_history MitigationEngine.new_engine
    (repeat {| MitigationEngine.Event.timestamp := 0;
               MitigationEngine.Event.ip := "10.0.0.1";
               MitigationEngine.Event.confidence := 0.9;
               MitigationEngine.Event.action := "BLOCKED";
               MitigationEngine.Event.details := flow_of "10.0.0.1" |}
       1000).

(** ** Runs of the cache *)

(** [set] called with each key and value in turn. *)
Fixpoint set_all {V} (self : PerformanceCache V) (kvs : list (string * V))
  : M (PerformanceCache V) :=
  match kvs with
  | [] => ret self
  | (k, v) :: rest => self1 <- set self k v ;; set_all self1 rest
  end.

(** The access times of keys stored one after the other, the first at the
    [n]-th reading of the clock. *)
Fixpoint stamped (clock : nat -> Q) (n : nat) (ks : list string) : Dict.t Q :=
  match ks with
  | [] => []
  | k :: rest => (k, clock n) :: stamped clock (S n) rest
  end.

(** The two dicts of a cache hold the same keys, and no more entries than
    the capacity, which is positive. *)
Definition cache_inv {V} (c : PerformanceCache V) : Prop :=
  Dict.keys (cache c) = Dict.keys (access_times c)
  /\ (Z.of_nat (Dict.len (cache c)) <= max_size c)%Z
  /\ (1 <= max_size c)%Z.

(** ** Runs of the mitigation engine *)

(** [execute_mitigation] called for each verdict and flow in turn; the
    results are returned in the order of the calls. *)
Fixpoint execute_all (self : MitigationEngine.t)
    (calls : list (Detection.t * Dict.t string))
  : M (list MitigationEngine.Result * MitigationEngine.t) :=
  match calls with
  | [] => ret ([], self)
  | (det, flow_info) :: rest =>
      ' (r, self1) <- MitigationEngine.execute_mitigation self det flow_info ;;
      ' (rs, self2) <- execute_all self1 rest ;;
      ret (r :: rs, self2)
  end.

(** The addresses whose record the sweep finds expired at time [now], in
    the order of the registry. *)
Definition expired_at (self : MitigationEngine.t) (now : Q) : list string :=
  map fst (filter (fun kv => MitigationEngine.is_expired self now (snd kv))
             (Dict.items (MitigationEngine.blocked_ips self))).

(** A world whose clock always reads [now] and whose controller refuses
    every request. *)
Definition world_down_at (now : Q) : World :=
  {| clock := fun _ => now;
     ticks := 0;
     ryu := fun _ _ => Response 500;
     requests := [];
     performance_cache := new_cache 1000 30 |}.

(** ** Runs of the metrics *)

(** [add_metric] called for one endpoint with each duration in turn. *)
Fixpoint add_metrics {V} (self : PerformanceCache V) (endpoint : string)
    (durations : list Q) : M (PerformanceCache V) :=
  match durations with
  | [] => ret self
  | d :: rest =>
      ' (_, self1) <- add_metric self endpoint d ;;
      add_metrics self1 endpoint rest
  end.

(** The last [n] items of a list (all of them when there are fewer). *)
Definition last_n {A} (n : nat) (l : list A) : list A :=
  skipn (List.length l - n) l.

(** A call that returns [r] and changes nothing. *)
Definition returning (r : Detection.t) : M Detection.t := ret r.

(** ** Timestamps in order *)

(** Each timestamp is at most the ones after it. *)
Fixpoint nondecreasing (l : list Q) : Prop :=
  match l with
  | [] => True
  | t :: rest => (forall u, In u rest -> t <= u) /\ nondecreasing rest
  end.

(** The timestamp [t] is no more than [window] before [now], by the
    difference of the two floats as the code computes it. *)
Definition within (window now t : Q) : bool :=
  Qle_bool (float_sub now t) window.

(** A model that answers class 1 with probability 0.9, and a detection
    engine around it, with the identity as its scaler. *)
Definition sure_model : Model :=
  {| n_features_in_ := 1;
     predict := fun _ => Ok 1%Z;
     predict_proba := fun _ => Ok [0.1; 0.9] |}.

Definition sure_engine : MLDetection.MLDetectionEngine :=
  {| MLDetection.model := sure_model;
     MLDetection.scaler_transform := fun x => Ok x;
     MLDetection.feature_columns := ["packets_per_second"] |}.

(** ** Runs of the capture loop *)

(** A Ryu and a Node backend that answer every post with 200. *)
Definition http_accepting : nat -> Live.Post -> HttpOutcome :=
  fun _ _ => Response 200.

(** The state of [app.py] once loaded without a model, at time [now] on a
    clock that stands still, and with the capture started. *)
Definition live_at (now : Q) : Live.State :=
  {| Live.world := world_at now;
     Live.http := http_accepting;
     Live.posts := [];
     Live.BLOCKED_IPS := [];
     Live.FORCE_MALICIOUS_IPS := [];
     Live.running := true;
     Live.model := None;
     Live.rate_tracker := App.new_tracker 1.0;
     Live.last_live_ts := 0.0 |}.

(** A packet of 64 bytes, UDP, from [src_ip] to 10.0.0.1. *)
Definition udp_from (src_ip : string) : Live.Packet :=
  {| Live.ip_layer := Some (src_ip, "10.0.0.1", 17%Z); Live.len := 64 |}.

(** [packet_handler] called for each packet in turn, up to the first
    exception. *)
Fixpoint handle_all (st : Live.State) (pkts : list Live.Packet)
  : Res unit * Live.State :=
  match pkts with
  | [] => (Ok tt, st)
  | pkt :: rest =>
      match Live.packet_handler st pkt with
      | (Ok _, st1) => handle_all st1 rest
      | (Raise e, st1) => (Raise e, st1)
      end
  end.

(** The packet has an IP layer with source [src_ip]. *)
Definition from_source (src_ip : string) (pkt : Live.Packet) : Prop :=
  exists dst_ip proto, Live.ip_layer pkt = Some (src_ip, dst_ip, proto).

(** The post was answered, with a status for which [r.ok] holds. *)
Definition accepted (answer : HttpOutcome) : bool :=
  match answer with
  | Response code => Live.ok code
  | Failed => false
  end.

(** The post is a flow rule for Ryu. *)
Definition is_flow_rule (p : Live.Post) : bool :=
  match p with
  | Live.FlowAdd _ | Live.FlowDelete _ => true
  | _ => false
  end.

(** The state [st] of a capture that started in [st0] and has since seen
    [k] packets of the source [src_ip], none of which led to a flow rule:
    the capture is running without a model, the sets of addresses and the
    servers are those of [st0], and the deque of the source holds [k]
    readings of the clock. *)
Record seen (st0 st : Live.State) (src_ip : string) (k : nat) : Prop := {
  seen_running : Live.running st = true;
  seen_model : Live.model st = None;
  seen_forced : Live.FORCE_MALICIOUS_IPS st = Live.FORCE_MALICIOUS_IPS st0;
  seen_blocked : Live.BLOCKED_IPS st = Live.BLOCKED_IPS st0;
  seen_http : Live.http st = Live.http st0;
  seen_clock : clock (Live.world st) = clock (Live.world st0);
  seen_window : App.window (Live.rate_tracker st)
                = App.window (Live.rate_tracker st0);
  seen_count : List.length (App.deque_of (Live.rate_tracker st) src_ip) = k;
  seen_readings : forall t,
      In t (App.deque_of (Live.rate_tracker st) src_ip) ->
      exists n, t = clock (Live.world st0) n;
  seen_rules : filter is_flow_rule (Live.posts st)
               = filter is_flow_rule (Live.posts st0)
}.

(** * Properties *)

(** ** Numbers and dictionaries *)

Lemma Qlt_bool_iff (x y : Q) : Qlt_bool x y = true <-> x < y.
Proof.
  unfold Qlt_bool. rewrite negb_true_iff, <- not_true_iff_false, Qle_bool_iff.
  split; intro H; [apply Qnot_le_lt | apply Qlt_not_le]; exact H.
Qed.

Lemma Qlt_bool_false_iff (x y : Q) : Qlt_bool x y = false <-> y <= x.
Proof.
  unfold Qlt_bool. rewrite negb_false_iff. apply Qle_bool_iff.
Qed.

Lemma Qge_bool_iff (x y : Q) : Qge_bool x y = true <-> y <= x.
Proof. unfold Qge_bool. apply Qle_bool_iff. Qed.

(** ** Rounding to double precision *)

Module Rounding.

Lemma floor_bounds (x : Q) :
  inject_Z (Qfloor x) <= x /\ x < inject_Z (Qfloor x) + 1.
Proof.
  split; [apply Qfloor_le|].
  pose proof (Qlt_floor x) as H. rewrite inject_Z_plus in H. exact H.
Qed.

Lemma half_even_bounds (x : Q) :
  (Qfloor x <= round_half_even x <= Qfloor x + 1)%Z.
Proof.
  unfold round_half_even.
  destruct (Qcompare _ _); [destruct (Z.even _)| |]; lia.
Qed.

Lemma half_even_mono (x y : Q) :
  x <= y -> (round_half_even x <= round_half_even y)%Z.
Proof.
  intros Hxy.
  pose proof (Qfloor_resp_le _ _ Hxy) as Hf.
  destruct (Z.eq_dec (Qfloor x) (Qfloor y)) as [E|N].
  - unfold round_half_even. rewrite <- E.
    set (n := Qfloor x) in *.
    assert (Hcmp : forall z c, Qcompare (z - inject_Z n) (1 # 2) = c ->
                     match c with
                     | Eq => z - inject_Z n == 1 # 2
                     | Lt => z - inject_Z n < 1 # 2
                     | Gt => 1 # 2 < z - inject_Z n
                     end).
    { intros z c <-.
      destruct (Qcompare (z - inject_Z n) (1 # 2)) eqn:C.
      - now apply Qeq_alt.
      - now apply Qlt_alt.
      - now apply Qgt_alt. }
    destruct (Qcompare (x - inject_Z n) (1 # 2)) eqn:Cx;
      destruct (Qcompare (y - inject_Z n) (1 # 2)) eqn:Cy;
      apply Hcmp in Cx; apply Hcmp in Cy;
      try (destruct (Z.even n)); try lia; exfalso; lra.
  - pose proof (half_even_bounds x). pose proof (half_even_bounds y). lia.
Qed.

Lemma half_even_inject_Z (n : Z) : round_half_even (inject_Z n) = n.
Proof.
  unfold round_half_even. rewrite Qfloor_Z.
  assert (E : Qcompare (inject_Z n - inject_Z n) (1 # 2) = Lt)
    by (apply -> Qlt_alt; generalize (inject_Z n); intros q; lra).
  now rewrite E.
Qed.

Lemma pow2_pos (e : Z) : 0 < 2 ^ e.
Proof. apply Qpower_0_lt. reflexivity. Qed.

Lemma pow2_plus (a b : Z) : 2 ^ (a + b) == 2 ^ a * 2 ^ b.
Proof. apply Qpower_plus. discriminate. Qed.

Lemma pow2_le (a b : Z) : (a <= b)%Z -> 2 ^ a <= 2 ^ b.
Proof. intros H. apply Qpower_le_compat_l; [exact H | discriminate]. Qed.

Lemma pow2_inject_Z (a : Z) : (0 <= a)%Z -> 2 ^ a == inject_Z (2 ^ a).
Proof. intros H. symmetry. apply (Zpower_Qpower 2 a H). Qed.

Lemma pow2_minus (a b : Z) : 2 ^ (a - b) == 2 ^ a / 2 ^ b.
Proof.
  pose proof (pow2_plus (a - b) b) as H.
  replace (a - b + b)%Z with a in H by lia.
  pose proof (pow2_pos b). rewrite H. field. lra.
Qed.

Lemma div_le_div (a b c d : Q) :
  0 < b -> 0 < d -> a * d <= c * b -> a / b <= c / d.
Proof.
  intros Hb Hd H. apply Qle_shift_div_l; [exact Hd|].
  assert (E : a / b * d == a * d / b) by (field; lra).
  rewrite E. apply Qle_shift_div_r; [exact Hb | exact H].
Qed.

Lemma div_lt_div (a b c d : Q) :
  0 < b -> 0 < d -> a * d < c * b -> a / b < c / d.
Proof.
  intros Hb Hd H. apply Qlt_shift_div_l; [exact Hd|].
  assert (E : a / b * d == a * d / b) by (field; lra).
  rewrite E. apply Qlt_shift_div_r; [exact Hb | exact H].
Qed.

(** [Qlog2] is the floor of the binary logarithm. *)
Lemma Qlog2_spec (x : Q) :
  0 < x -> 2 ^ Qlog2 x <= x /\ x < 2 ^ (Qlog2 x + 1).
Proof.
  intros Hx. destruct x as [n d]. unfold Qlog2. cbn [Qnum Qden].
  assert (Hn : (0 < n)%Z).
  { unfold Qlt in Hx. cbn in Hx. lia. }
  destruct (Z.log2_spec n Hn) as [Hn1 Hn2].
  destruct (Z.log2_spec (Zpos d) (Pos2Z.is_pos d)) as [Hd1 Hd2].
  pose proof (Z.log2_nonneg n) as Ha.
  pose proof (Z.log2_nonneg (Zpos d)) as Hb.
  set (a := Z.log2 n) in *. set (b := Z.log2 (Zpos d)) in *.
  unfold Z.succ in Hn2, Hd2.
  assert (Hq : n # d == inject_Z n / inject_Z (Zpos d)) by apply Qmake_Qdiv.
  assert (Hdpos : 0 < inject_Z (Zpos d)) by reflexivity.
  assert (Hnpos : 0 < inject_Z n)
    by (change 0 with (inject_Z 0); rewrite <- Zlt_Qlt; lia).
  assert (Pa : 0 < inject_Z (2 ^ a))
    by (change 0 with (inject_Z 0); rewrite <- Zlt_Qlt; lia).
  assert (Pb : 0 < inject_Z (2 ^ b))
    by (change 0 with (inject_Z 0); rewrite <- Zlt_Qlt; lia).
  assert (Pb1 : 0 < inject_Z (2 ^ (b + 1)))
    by (change 0 with (inject_Z 0); rewrite <- Zlt_Qlt; lia).
  assert (Hlow : 2 ^ (a - b - 1) <= n # d).
  { rewrite Hq. replace (a - b - 1)%Z with (a - (b + 1))%Z by lia.
    rewrite pow2_minus. rewrite (pow2_inject_Z Ha).
    rewrite (@pow2_inject_Z (b + 1)) by lia.
    apply div_le_div; [exact Pb1 | exact Hdpos|].
    rewrite <- !inject_Z_mult, <- Zle_Qle. nia. }
  assert (Hhigh : n # d < 2 ^ (a - b + 1)).
  { rewrite Hq. replace (a - b + 1)%Z with (a + 1 - b)%Z by lia.
    rewrite pow2_minus. rewrite (pow2_inject_Z Hb).
    rewrite (@pow2_inject_Z (a + 1)) by lia.
    apply div_lt_div; [exact Hdpos | exact Pb|].
    rewrite <- !inject_Z_mult, <- Zlt_Qlt. nia. }
  destruct (Qle_bool (2 ^ (a - b)) (n # d)) eqn:E.
  - apply Qle_bool_iff in E. split; [exact E | exact Hhigh].
  - split; [exact Hlow|].
    replace (a - b - 1 + 1)%Z with (a - b)%Z by lia.
    apply Qnot_le_lt. intros H. apply Qle_bool_iff in H. congruence.
Qed.

Lemma Qlog2_mono (x y : Q) : 0 < x -> x <= y -> (Qlog2 x <= Qlog2 y)%Z.
Proof.
  intros Hx Hxy.
  destruct (Qlog2_spec Hx) as [H1 _].
  destruct (Qlog2_spec (x := y)) as [_ H2]; [lra|].
  destruct (Z_le_gt_dec (Qlog2 x) (Qlog2 y)) as [L|G]; [exact L|].
  exfalso. assert (H3 : 2 ^ (Qlog2 y + 1) <= 2 ^ Qlog2 x)
    by (apply pow2_le; lia).
  lra.
Qed.

Lemma round64_pos_nonneg (x : Q) : 0 <= x -> 0 <= round64_pos x.
Proof.
  intros Hx. unfold round64_pos.
  set (e := ulp_exponent x). pose proof (pow2_pos e) as He.
  assert (H : (0 <= round_half_even (x / 2 ^ e))%Z).
  { rewrite <- (half_even_inject_Z 0). apply half_even_mono.
    apply Qle_shift_div_l; [exact He|]. change (inject_Z 0) with 0. lra. }
  apply Qmult_le_0_compat; [|lra].
  change 0 with (inject_Z 0). now rewrite <- Zle_Qle.
Qed.

Lemma round64_pos_mono (x y : Q) :
  0 < x -> x <= y -> round64_pos x <= round64_pos y.
Proof.
  intros Hx Hxy. unfold round64_pos.
  pose proof (Qlog2_mono Hx Hxy) as Hlog.
  assert (Hy : 0 < y) by lra.
  destruct (Qlog2_spec Hx) as [_ Hx2]. destruct (Qlog2_spec Hy) as [Hy1 _].
  unfold ulp_exponent.
  set (ex := Z.max (Qlog2 x - 52) (-1074)).
  set (ey := Z.max (Qlog2 y - 52) (-1074)).
  pose proof (pow2_pos ex) as Hex. pose proof (pow2_pos ey) as Hey.
  destruct (Z.eq_dec ex ey) as [E|N].
  - rewrite <- E. apply Qmult_le_compat_r; [|lra].
    rewrite <- Zle_Qle. apply half_even_mono.
    apply Qle_shift_div_l; [exact Hex|].
    unfold Qdiv. rewrite <- Qmult_assoc, (Qmult_comm (/ _)), Qmult_inv_r; lra.
  - assert (Hlt : (ex + 1 <= ey)%Z) by lia.
    assert (Eey : ey = (Qlog2 y - 52)%Z) by lia.
    assert (Hbig : (2 ^ 52 <= round_half_even (y / 2 ^ ey))%Z).
    { rewrite <- (half_even_inject_Z (2 ^ 52)). apply half_even_mono.
      apply Qle_shift_div_l; [exact Hey|].
      rewrite <- (@pow2_inject_Z 52) by lia. rewrite <- pow2_plus.
      replace (52 + ey)%Z with (Qlog2 y) by lia. exact Hy1. }
    assert (Hsmall : (round_half_even (x / 2 ^ ex) <= 2 ^ 53)%Z).
    { rewrite <- (half_even_inject_Z (2 ^ 53)). apply half_even_mono.
      apply Qle_shift_div_r; [exact Hex|].
      rewrite <- (@pow2_inject_Z 53) by lia. rewrite <- pow2_plus.
      apply Qlt_le_weak. eapply Qlt_le_trans; [exact Hx2|].
      apply pow2_le. lia. }
    rewrite Zle_Qle in Hbig, Hsmall.
    rewrite <- (@pow2_inject_Z 52) in Hbig by lia.
    rewrite <- (@pow2_inject_Z 53) in Hsmall by lia.
    apply Qle_trans with (2 ^ 53 * 2 ^ ex).
    { apply Qmult_le_compat_r; [exact Hsmall | lra]. }
    apply Qle_trans with (2 ^ 52 * 2 ^ ey).
    { rewrite <- !pow2_plus. apply pow2_le. lia. }
    apply Qmult_le_compat_r; [exact Hbig | lra].
Qed.

Lemma sign_of (x : Q) :
  match Qnum x with
  | Z0 => x == 0
  | Zpos _ => 0 < x
  | Zneg _ => x < 0
  end.
Proof. destruct x as [[|p|p] d]; reflexivity. Qed.

Lemma round64_sign (x : Q) :
  (0 <= x -> 0 <= round64 x) /\ (x <= 0 -> round64 x <= 0).
Proof.
  pose proof (sign_of x) as S. unfold round64.
  destruct (Qnum x); split; intros H; try lra.
  - apply round64_pos_nonneg. lra.
  - assert (0 <= round64_pos (- x)) by (apply round64_pos_nonneg; lra). lra.
Qed.

(** Rounding to the nearest double is monotone. *)
Lemma round64_mono (x y : Q) : x <= y -> round64 x <= round64 y.
Proof.
  intros Hxy.
  destruct (Qlt_le_dec 0 x) as [Hx|Hx].
  - pose proof (sign_of x) as Sx. pose proof (sign_of y) as Sy.
    unfold round64. destruct (Qnum x); try lra. destruct (Qnum y); try lra.
    now apply round64_pos_mono.
  - destruct (Qlt_le_dec 0 y) as [Hy|Hy].
    + destruct (round64_sign x) as [_ H1]. destruct (round64_sign y) as [H2 _].
      specialize (H1 Hx). assert (0 <= round64 y) by (apply H2; lra). lra.
    + pose proof (sign_of x) as Sx. pose proof (sign_of y) as Sy.
      unfold round64. destruct (Qnum x) eqn:Ex; destruct (Qnum y) eqn:Ey;
        try lra.
      * assert (0 <= round64_pos (- x)) by (apply round64_pos_nonneg; lra).
        lra.
      * assert (round64_pos (- y) <= round64_pos (- x))
          by (apply round64_pos_mono; lra).
        lra.
Qed.

Lemma round64_zero (x : Q) : x == 0 -> round64 x = 0.
Proof.
  intros H. unfold round64. unfold Qeq in H. cbn in H.
  replace (Qnum x) with 0%Z by lia. reflexivity.
Qed.

Lemma float_sub_self (x : Q) : float_sub x x = 0.
Proof. apply round64_zero. ring. Qed.

Lemma float_sub_mono (x x' y y' : Q) :
  x <= x' -> y' <= y -> float_sub x y <= float_sub x' y'.
Proof. intros H1 H2. apply round64_mono. lra. Qed.

End Rounding.

Module DictFacts.

Lemma get_set_same {V} (d : Dict.t V) k v :
  Dict.get (Dict.set d k v) k = Some v.
Proof.
  induction d as [|[k' v'] d IH]; simpl.
  - now rewrite String.eqb_refl.
  - destruct (String.eqb k' k) eqn:E; simpl; rewrite E; auto.
Qed.

Lemma get_set_other {V} (d : Dict.t V) k k' v :
  k <> k' -> Dict.get (Dict.set d k v) k' = Dict.get d k'.
Proof.
  intros Hne. induction d as [|[k0 v0] d IH]; simpl.
  - destruct (String.eqb k k') eqn:E; auto.
    apply String.eqb_eq in E. contradiction.
  - destruct (String.eqb k0 k) eqn:E; simpl.
    + apply String.eqb_eq in E. subst k0.
      destruct (String.eqb k k') eqn:E'; auto.
      apply String.eqb_eq in E'. contradiction.
    + destruct (String.eqb k0 k'); auto.
Qed.

Lemma get_remove_same {V} (d : Dict.t V) k :
  Dict.get (Dict.remove d k) k = None.
Proof.
  induction d as [|[k' v'] d IH]; simpl; auto.
  destruct (String.eqb k' k) eqn:E; simpl; auto.
  now rewrite E.
Qed.

Lemma get_remove_other {V} (d : Dict.t V) k k' :
  k <> k' -> Dict.get (Dict.remove d k) k' = Dict.get d k'.
Proof.
  intros Hne. induction d as [|[k0 v0] d IH]; simpl; auto.
  destruct (String.eqb k0 k) eqn:E; simpl.
  - apply String.eqb_eq in E. subst k0.
    destruct (String.eqb k k') eqn:E'; auto.
    apply String.eqb_eq in E'. contradiction.
  - destruct (String.eqb k0 k'); auto.
Qed.

Lemma get_in_keys {V} (d : Dict.t V) k :
  In k (Dict.keys d) <-> Dict.get d k <> None.
Proof.
  induction d as [|[k' v'] d IH]; simpl.
  - split; [tauto | congruence].
  - destruct (String.eqb k' k) eqn:E.
    + apply String.eqb_eq in E. split; [congruence | auto].
    + apply String.eqb_neq in E. rewrite <- IH. tauto.
Qed.

Lemma keys_set_mem {V} (d : Dict.t V) k v :
  In k (Dict.keys d) -> Dict.keys (Dict.set d k v) = Dict.keys d.
Proof.
  induction d as [|[k' v'] d IH]; simpl; [tauto|].
  intros H. destruct (String.eqb k' k) eqn:E; simpl; auto.
  apply String.eqb_neq in E. f_equal. apply IH. tauto.
Qed.

Lemma keys_set_new {V} (d : Dict.t V) k v :
  ~ In k (Dict.keys d) -> Dict.keys (Dict.set d k v) = Dict.keys d ++ [k].
Proof.
  induction d as [|[k' v'] d IH]; simpl; auto.
  intros H. destruct (String.eqb k' k) eqn:E; simpl.
  - apply String.eqb_eq in E. tauto.
  - f_equal. apply IH. tauto.
Qed.

Lemma keys_remove {V} (d : Dict.t V) k :
  Dict.keys (Dict.remove d k)
  = filter (fun k' => negb (String.eqb k' k)) (Dict.keys d).
Proof.
  induction d as [|[k' v'] d IH]; simpl; auto.
  destruct (String.eqb k' k); simpl; now rewrite <- IH.
Qed.

Lemma mem_true {V} (d : Dict.t V) k :
  Dict.mem d k = true <-> In k (Dict.keys d).
Proof.
  rewrite get_in_keys. unfold Dict.mem.
  destruct (Dict.get d k); split; congruence.
Qed.

(** [set] and [remove] keep the keys of a dict distinct. *)
Lemma NoDup_keys_set {V} (d : Dict.t V) k v :
  NoDup (Dict.keys d) -> NoDup (Dict.keys (Dict.set d k v)).
Proof.
  intros H. destruct (in_dec string_dec k (Dict.keys d)) as [Hin | Hout].
  - now rewrite keys_set_mem.
  - rewrite keys_set_new by assumption.
    apply NoDup_app; [exact H | repeat constructor; intros [] |].
    intros x Hx [<- | []]. contradiction.
Qed.

Lemma NoDup_keys_remove {V} (d : Dict.t V) k :
  NoDup (Dict.keys d) -> NoDup (Dict.keys (Dict.remove d k)).
Proof.
  intros H. rewrite keys_remove. now apply NoDup_filter.
Qed.

End DictFacts.

(** ** The detector of app.py *)

(** C1. With no model configured the decision is the fallback rule:
    [is_ddos_attack(pkt_size, pps)] is true exactly when [pps > 50], for
    every packet size and every rate, and in particular at the rates 0, 50,
    50.0001, 51 and 1000. *)
Theorem fallback_without_model (pkt_size : Z) (pps : Q) :
  (App.is_ddos_attack None pkt_size pps = true <-> 50 < pps)
  /\ App.is_ddos_attack None pkt_size 0 = false
  /\ App.is_ddos_attack None pkt_size 50 = false
  /\ App.is_ddos_attack None pkt_size 50.0001 = true
  /\ App.is_ddos_attack None pkt_size 51 = true
  /\ App.is_ddos_attack None pkt_size 1000 = true.
Proof.
  split; [|repeat split; reflexivity].
  unfold App.is_ddos_attack. apply Qlt_bool_iff.
Qed.

(** C3, as stated, fails: with a model whose [predict] raises, a source at
    1000 packets per second is not reported as a threat, although
    [1000 > 50]. *)
Lemma model_failure_is_not_fallback :
  ~ (App.is_ddos_attack (Some broken_model) 64 1000 = true <-> 50 < 1000).
Proof.
  intros [_ H]. assert (L : 50 < 1000) by reflexivity.
  apply H in L. vm_compute in L. discriminate L.
Qed.

(** ** Slice classification *)

Lemma slice_rule_functional packet_size protocol pps s p b s' p' b' :
  slice_rule packet_size protocol pps s p b ->
  slice_rule packet_size protocol pps s' p' b' ->
  s = s' /\ p = p' /\ b = b'.
Proof.
  intros H H'. destruct H; destruct H'; auto; tauto.
Qed.

Lemma classify_slice_rule packet_size protocol pps :
  exists i,
    Dict.get NetworkSlicing.SLICE_DEFINITIONS
      (NetworkSlicing.classify_slice packet_size protocol pps) = Some i
    /\ slice_rule packet_size protocol pps
         (NetworkSlicing.classify_slice packet_size protocol pps)
         (NetworkSlicing.priority i) (NetworkSlicing.bandwidth_weight i).
Proof.
  unfold NetworkSlicing.classify_slice.
  destruct (Qlt_bool 200 pps) eqn:Hpps;
    [|destruct (String.eqb protocol "ICMP") eqn:Hproto];
    simpl orb; cbv iota.
  - eexists. split; [reflexivity|].
    constructor. left. now apply Qlt_bool_iff.
  - eexists. split; [reflexivity|].
    constructor. right. now apply String.eqb_eq.
  - assert (Hno : ~ (200 < pps \/ protocol = "ICMP")).
    { intros [H | H].
      - apply Qlt_bool_iff in H. congruence.
      - apply String.eqb_eq in H. congruence. }
    destruct (packet_size <? 200)%Z eqn:Hsize;
      [destruct (Qlt_bool pps 20) eqn:Hlow|]; simpl andb; cbv iota.
    + eexists. split; [reflexivity|].
      apply rule_mMTC; auto. split.
      * now apply Z.ltb_lt.
      * now apply Qlt_bool_iff.
    + eexists. split; [reflexivity|].
      apply rule_eMBB; auto. intros [_ H].
      apply Qlt_bool_iff in H. congruence.
    + eexists. split; [reflexivity|].
      apply rule_eMBB; auto. intros [H _].
      apply Z.ltb_lt in H. congruence.
Qed.

(** C7. For every packet size, protocol and rate, [get_network_slice]
    returns one policy, and its slice, priority and bandwidth weight are
    the ones the rules give: URLLC (1, 0.30) when [pps > 200] or the
    protocol is ICMP; otherwise mMTC (3, 0.20) when [packet_size < 200] and
    [pps < 20]; otherwise eMBB (2, 0.50). The rules admit one answer only,
    so URLLC wins over mMTC; a packet of 50 bytes at 250 packets per second
    is URLLC. *)
Theorem slice_classification
    (packet_size : Z) (protocol : string) (pps : Q) (w : World) :
  (exists policy,
      fst (NetworkSlicing.get_network_slice packet_size protocol pps w)
      = Ok policy
      /\ NetworkSlicing.slice policy
         = NetworkSlicing.classify_slice packet_size protocol pps
      /\ slice_rule packet_size protocol pps
           (NetworkSlicing.slice policy)
           (NetworkSlicing.policy_priority policy)
           (NetworkSlicing.policy_bandwidth_weight policy))
  /\ (forall s p b s' p' b',
        slice_rule packet_size protocol pps s p b ->
        slice_rule packet_size protocol pps s' p' b' ->
        s = s' /\ p = p' /\ b = b')
  /\ NetworkSlicing.classify_slice 50 protocol 250 = "URLLC".
Proof.
  split; [|split].
  - destruct (classify_slice_rule packet_size protocol pps)
      as (i & Hget & Hrule).
    unfold NetworkSlicing.get_network_slice, NetworkSlicing.apply_slice_policy.
    unfold bind. rewrite Hget. simpl.
    eexists. split; [reflexivity|]. split; [reflexivity | exact Hrule].
  - intros. eapply slice_rule_functional; eauto.
  - reflexivity.
Qed.

(** ** The rate tracker *)

Module RateFacts.

Lemma purge_keeps (w ts : Q) (q : list Q) :
  (forall a, In a q -> float_sub ts a <= w) -> App.purge w ts q = q.
Proof.
  destruct q as [|q0 q]; simpl; auto.
  intros H. assert (L : float_sub ts q0 <= w) by (apply H; auto).
  apply Qlt_bool_false_iff in L. now rewrite L.
Qed.

Lemma purge_drops (w ts : Q) (old : list Q) :
  0 <= w -> (forall a, In a old -> w < float_sub ts a) ->
  App.purge w ts (old ++ [ts]) = [ts].
Proof.
  intros Hw. induction old as [|a old IH]; simpl; intros H.
  - assert (L : float_sub ts ts <= w)
      by (rewrite Rounding.float_sub_self; exact Hw).
    apply Qlt_bool_false_iff in L. now rewrite L.
  - assert (L : w < float_sub ts a) by (apply H; auto).
    apply Qlt_bool_iff in L. rewrite L. apply IH. auto.
Qed.

Lemma deque_of_add (tr : App.RateTracker) src ts :
  App.deque_of (App.add tr src ts) src
  = App.purge (App.window tr) ts (App.deque_of tr src ++ [ts]).
Proof.
  unfold App.add, App.deque_of at 1. simpl.
  now rewrite DictFacts.get_set_same.
Qed.

Lemma window_add_all (tr : App.RateTracker) src events :
  App.window (add_all tr src events) = App.window tr.
Proof.
  revert tr. induction events as [|ts events IH]; intros tr; auto.
  change (add_all tr src (ts :: events))
    with (add_all (App.add tr src ts) src events).
  now rewrite IH.
Qed.

Lemma deque_of_add_all (tr : App.RateTracker) src events :
  (forall a b, In a (App.deque_of tr src ++ events) ->
               In b (App.deque_of tr src ++ events) ->
               float_sub a b <= App.window tr) ->
  App.deque_of (add_all tr src events) src = App.deque_of tr src ++ events.
Proof.
  revert tr. induction events as [|ts events IH]; intros tr H.
  - simpl. now rewrite app_nil_r.
  - assert (Hadd : App.deque_of (App.add tr src ts) src
                   = App.deque_of tr src ++ [ts]).
    { rewrite deque_of_add. apply purge_keeps.
      intros a Ha. apply H.
      - apply in_or_app. right. now left.
      - apply in_app_or in Ha. apply in_or_app.
        destruct Ha as [Ha | [Ha | []]]; [now left | right; now left]. }
    change (add_all tr src (ts :: events))
      with (add_all (App.add tr src ts) src events).
    rewrite IH; rewrite Hadd, <- app_assoc; [reflexivity|].
    exact H.
Qed.

Lemma pps_value (tr : App.RateTracker) src :
  0 < App.window tr ->
  returns (fst (App.pps tr src))
          (Qlen (App.deque_of tr src) / App.window tr).
Proof.
  intros Hw. unfold App.pps.
  destruct (App.deque_of tr src) as [|q0 q] eqn:E; simpl.
  - unfold Qlen. simpl. unfold Qdiv. ring.
  - unfold py_div.
    destruct (Qeq_bool (App.window tr) 0) eqn:Z.
    + apply Qeq_bool_iff in Z. rewrite Z in Hw. discriminate Hw.
    + simpl. reflexivity.
Qed.

Lemma deque_of_pps (tr : App.RateTracker) src :
  App.deque_of (snd (App.pps tr src)) src = App.deque_of tr src
  /\ App.window (snd (App.pps tr src)) = App.window tr.
Proof.
  unfold App.pps.
  destruct (App.deque_of tr src) as [|q0 q] eqn:E; simpl;
    unfold App.deque_of; simpl; rewrite DictFacts.get_set_same; auto.
Qed.

End RateFacts.

(** C4, as stated, fails in its second half: [pps] takes no time and purges
    nothing, so one event recorded at time 0 with a window of 1 still reads
    as a rate of 1, not 0, however late the reading is made. *)
Lemma rate_not_zero_after_window :
  ~ returns (fst (App.pps (add_all (App.new_tracker 1) "10.0.0.5" [0])
                    "10.0.0.5")) 0.
Proof.
  vm_compute. discriminate.
Qed.

(** C4, amended. For a source with no earlier entries and a positive
    window, after recording N events whose timestamps all lie within one
    window duration, [pps] returns N/window. [pps] does not look at the
    clock and purges nothing: a later reading, with no further event
    recorded for the source, returns N/window again. Old entries are purged
    only by the next [add]: once an event is recorded more than a window
    after all of them, the rate is 1/window. The distance between two
    timestamps is their difference as [add] computes it, rounded to double
    precision. *)
Theorem rate_window
    (tr0 : App.RateTracker) (src_ip : string) (events : list Q) (late : Q)
    (Hwindow : 0 < App.window tr0)
    (Hfresh : App.deque_of tr0 src_ip = [])
    (Hspan : forall a b, In a events -> In b events ->
                         float_sub a b <= App.window tr0)
    (Hlate : forall a, In a events ->
                       App.window tr0 < float_sub late a) :
  let tr := add_all tr0 src_ip events in
  returns (fst (App.pps tr src_ip)) (Qlen events / App.window tr0)
  /\ returns (fst (App.pps (snd (App.pps tr src_ip)) src_ip))
             (Qlen events / App.window tr0)
  /\ returns (fst (App.pps (App.add tr src_ip late) src_ip))
             (1 / App.window tr0).
Proof.
  intros tr.
  assert (Hw : App.window tr = App.window tr0)
    by apply RateFacts.window_add_all.
  assert (Hq : App.deque_of tr src_ip = events).
  { unfold tr. rewrite RateFacts.deque_of_add_all; rewrite Hfresh; auto. }
  split; [|split].
  - rewrite <- Hq, <- Hw. apply RateFacts.pps_value. now rewrite Hw.
  - destruct (RateFacts.deque_of_pps tr src_ip) as [Hq' Hw'].
    rewrite <- Hq, <- Hw, <- Hq', <- Hw'.
    apply RateFacts.pps_value. now rewrite Hw', Hw.
  - assert (Hq' : App.deque_of (App.add tr src_ip late) src_ip = [late]).
    { rewrite RateFacts.deque_of_add, Hq, Hw.
      apply RateFacts.purge_drops; auto. now apply Qlt_le_weak. }
    assert (Hw' : App.window (App.add tr src_ip late) = App.window tr0)
      by (simpl; exact Hw).
    change 1 with (Qlen [late]). rewrite <- Hq', <- Hw'.
    apply RateFacts.pps_value. now rewrite Hw'.
Qed.

(** The amended C4 for the doubles 0.1 and 1.1 in a window of 1.0, whose
    difference in double precision is 1.0, and one event much later. *)
Lemma rate_window_witness :
  returns (fst (App.pps (add_all (App.new_tracker 1) "10.0.0.5"
                           [round64 0.1; round64 1.1]) "10.0.0.5")) (2 / 1)
  /\ returns (fst (App.pps
                     (snd (App.pps (add_all (App.new_tracker 1) "10.0.0.5"
                                      [round64 0.1; round64 1.1])
                             "10.0.0.5"))
                     "10.0.0.5")) (2 / 1)
  /\ returns (fst (App.pps
                     (App.add (add_all (App.new_tracker 1) "10.0.0.5"
                                 [round64 0.1; round64 1.1]) "10.0.0.5" 10)
                     "10.0.0.5")) (1 / 1).
Proof.
  apply (@rate_window (App.new_tracker 1) "10.0.0.5"
           [round64 0.1; round64 1.1] 10).
  - reflexivity.
  - reflexivity.
  - simpl. intros a b Ha Hb.
    destruct Ha as [<- | [<- | []]];
      destruct Hb as [<- | [<- | []]]; vm_compute; discriminate.
  - simpl. intros a Ha.
    destruct Ha as [<- | [<- | []]]; vm_compute; reflexivity.
Defined.

(** ** The decorators *)

(** [performance_monitor] returns what the wrapped call returns, and
    leaves the controller's side of the world as the call left it. *)
Lemma performance_monitor_run {A} (name : string) (func : M A) (w : World) :
  exists w',
    performance_monitor name func w = (fst (func (snd (time_time w))), w')
    /\ requests w' = requests (snd (func (snd (time_time w))))
    /\ ryu w' = ryu (snd (func (snd (time_time w))))
    /\ clock w' = clock (snd (func (snd (time_time w)))).
Proof.
  unfold performance_monitor, performance_monitor_on, bind, try_except.
  cbn [time_time fst snd].
  destruct (func _) as [[a | e] w1]; [|cbn; eexists; repeat split].
  unfold on_performance_cache, add_metric, bind, ret, lift, time_time.
  cbn [fst snd clock ticks ryu requests performance_cache].
  destruct (Qlt_bool 200 _); [|destruct (Qlt_bool _ 50)];
    eexists; repeat split.
Qed.

(** ** The mitigation engine *)

Module EngineFacts.
Import MitigationEngine.

Lemma is_ip_blocked_unseen (self : t) ip w :
  Dict.get (blocked_ips self) ip = None ->
  is_ip_blocked self ip w = (Ok (false, self), w).
Proof. intros H. unfold is_ip_blocked. now rewrite H. Qed.

Lemma is_ip_blocked_seen (self : t) ip d w :
  Dict.get (blocked_ips self) ip = Some d ->
  is_ip_blocked self ip w
  = (Ok (true,
         with_blocked_ips self
           (Dict.set (blocked_ips self) ip
              {| Block.timestamp := Block.timestamp d;
                 Block.confidence := Block.confidence d;
                 Block.packets_blocked := (Block.packets_blocked d + 1)%Z;
                 Block.reason := Block.reason d;
                 Block.last_seen := clock w (ticks w) |})),
     snd (time_time w)).
Proof. intros H. unfold is_ip_blocked. now rewrite H. Qed.

Lemma unblock_ip_unseen (self : t) ip w :
  Dict.get (blocked_ips self) ip = None ->
  unblock_ip self ip w = (Ok (false, self), w).
Proof.
  intros H. unfold unblock_ip, Dict.mem. now rewrite H.
Qed.

Lemma unblock_ip_seen (self : t) ip d w :
  Dict.get (blocked_ips self) ip = Some d ->
  unblock_ip self ip w
  = (Ok (if SDNController.status_ok
              (ryu w (List.length (requests w)) (PostUnblock ip))
         then (true, with_blocked_ips self
                       (Dict.remove (blocked_ips self) ip))
         else (false, self)),
     snd (requests_post (PostUnblock ip) w)).
Proof.
  intros H. unfold unblock_ip, Dict.del, Dict.mem. rewrite H.
  unfold SDNController.unblock_ip, bind, ret, lift. cbn.
  destruct (SDNController.status_ok _); reflexivity.
Qed.

Lemma block_ip_run (self : t) ip reason c w :
  ip <> "" -> ip <> "0.0.0.0" -> ip <> "unknown" ->
  block_ip self ip reason c w
  = if SDNController.status_ok
         (ryu w (List.length (requests w)) (PostBlock ip))
    then (Ok (true,
              with_blocked_ips self
                (Dict.set (blocked_ips self) ip
                   {| Block.timestamp := clock w (ticks w);
                      Block.confidence := c;
                      Block.packets_blocked := 0;
                      Block.reason := reason;
                      Block.last_seen := clock w (S (ticks w)) |})),
          snd (time_time (snd (time_time
                                 (snd (requests_post (PostBlock ip) w))))))
    else (Ok (false, self), snd (requests_post (PostBlock ip) w)).
Proof.
  intros H1 H2 H3. unfold block_ip, invalid_ip.
  apply String.eqb_neq in H1, H2, H3. rewrite H1, H2, H3. cbn [orb].
  unfold SDNController.block_ip, bind, ret. cbn.
  destruct (SDNController.status_ok _); reflexivity.
Qed.

End EngineFacts.

(** C10. For a source address that has no BlockRecord, [unblock_ip]
    returns [False], sends nothing to the controller, and leaves the
    registry of blocked addresses and the history as they were: the engine
    and the world are unchanged. *)
Theorem unblock_unknown_source
    (self : MitigationEngine.t) (ip : string) (w : World)
    (Hunseen : Dict.get (MitigationEngine.blocked_ips self) ip = None) :
  MitigationEngine.unblock_ip self ip w = (Ok (false, self), w).
Proof.
  now apply EngineFacts.unblock_ip_unseen.
Qed.

(** C10 on a fresh engine. *)
Lemma unblock_unknown_source_witness :
  MitigationEngine.unblock_ip MitigationEngine.new_engine "10.0.0.5" world0
  = (Ok (false, MitigationEngine.new_engine), world0).
Proof.
  apply (@unblock_unknown_source MitigationEngine.new_engine "10.0.0.5"
           world0).
  reflexivity.
Defined.

Module MitigationFacts.
Import MitigationEngine.

Lemma body_threat (self : t) det flow_info ip c w :
  threat_for self det flow_info ip c ->
  Dict.get (blocked_ips self) ip = None ->
  execute_mitigation_body self det flow_info w
  = if SDNController.status_ok
         (ryu w (List.length (requests w)) (PostBlock ip))
    then
      (Ok (Blocked ip c (clock w (3 + ticks w)),
           with_history
             (with_blocked_ips self
                (Dict.set (blocked_ips self) ip
                   {| Block.timestamp := clock w (ticks w);
                      Block.confidence := c;
                      Block.packets_blocked := 0;
                      Block.reason := "DDoS detected";
                      Block.last_seen := clock w (1 + ticks w) |}))
             (mitigation_history self ++
                [ {| Event.timestamp := clock w (2 + ticks w);
                     Event.ip := ip;
                     Event.confidence := c;
                     Event.action := "BLOCKED";
                     Event.details := flow_info |} ])),
       {| clock := clock w; ticks := 4 + ticks w; ryu := ryu w;
          requests := requests w ++ [PostBlock ip];
          performance_cache := performance_cache w |})
    else (Ok (BlockFailed ip, self), snd (requests_post (PostBlock ip) w)).
Proof.
  intros [Hsrc He Hu Hz (p & Hp & Hlow) Hc Hthr] Hunseen.
  unfold execute_mitigation_body. rewrite Hsrc.
  pose proof Hu as Hu'. pose proof Hz as Hz'.
  apply String.eqb_neq in Hu', Hz'. rewrite Hu', Hz'. cbn [orb].
  unfold bind at 1. rewrite (EngineFacts.is_ip_blocked_unseen _ _ _ Hunseen).
  rewrite Hp, Hlow, Hc. cbn [String.eqb Ascii.eqb Bool.eqb andb].
  apply Qge_bool_iff in Hthr. rewrite Hthr.
  unfold bind at 1. rewrite EngineFacts.block_ip_run by assumption.
  destruct (SDNController.status_ok _); reflexivity.
Qed.

Lemma body_already_blocked (self : t) det flow_info ip d w :
  Dict.get flow_info "src_ip" = Some ip ->
  ip <> "unknown" -> ip <> "0.0.0.0" ->
  Dict.get (blocked_ips self) ip = Some d ->
  execute_mitigation_body self det flow_info w
  = (Ok (AlreadyBlocked ip (Block.timestamp d)
           (Block.packets_blocked d + 1),
         with_blocked_ips self
           (Dict.set (blocked_ips self) ip
              {| Block.timestamp := Block.timestamp d;
                 Block.confidence := Block.confidence d;
                 Block.packets_blocked := (Block.packets_blocked d + 1)%Z;
                 Block.reason := Block.reason d;
                 Block.last_seen := clock w (ticks w) |})),
     snd (time_time w)).
Proof.
  intros Hsrc Hu Hz Hseen.
  unfold execute_mitigation_body. rewrite Hsrc.
  apply String.eqb_neq in Hu, Hz. rewrite Hu, Hz. cbn [orb].
  unfold bind at 1. rewrite (EngineFacts.is_ip_blocked_seen _ _ _ Hseen).
  unfold bind, lift, Dict.item. cbn [blocked_ips with_blocked_ips].
  rewrite DictFacts.get_set_same. reflexivity.
Qed.

(** Unfold the decorator around a known run of the body. *)
Lemma execute_mitigation_run (self : t) det flow_info w r self' w1 :
  execute_mitigation_body self det flow_info (snd (time_time w))
  = (Ok (r, self'), w1) ->
  exists w',
    execute_mitigation self det flow_info w = (Ok (r, self'), w')
    /\ requests w' = requests w1
    /\ ryu w' = ryu w1
    /\ clock w' = clock w1.
Proof.
  intros H. unfold execute_mitigation.
  destruct (performance_monitor_run "execute_mitigation"
              (execute_mitigation_body self det flow_info) w)
    as (w' & Hrun & Hreq & Hryu & Hclock).
  rewrite H in *. exists w'. auto.
Qed.

End MitigationFacts.

(** C6. When the controller refuses the block of a source that has no
    BlockRecord, [execute_mitigation] (called with a verdict [ddos] whose
    confidence reaches the threshold) returns the result [block_failed];
    no BlockRecord is created and no history event is appended: the engine
    is returned unchanged. The one request made is the refused block. *)
Theorem block_failure_leaves_engine
    (self : MitigationEngine.t) (det : Detection.t)
    (flow_info : Dict.t string) (ip : string) (c : Q) (w : World)
    (Hthreat : threat_for self det flow_info ip c)
    (Hunseen : Dict.get (MitigationEngine.blocked_ips self) ip = None)
    (Hfail : SDNController.status_ok
               (ryu w (List.length (requests w)) (PostBlock ip)) = false) :
  exists w',
    MitigationEngine.execute_mitigation self det flow_info w
    = (Ok (MitigationEngine.BlockFailed ip, self), w')
    /\ MitigationEngine.status (MitigationEngine.BlockFailed ip)
       = "block_failed"
    /\ requests w' = requests w ++ [PostBlock ip].
Proof.
  pose proof (MitigationFacts.body_threat (snd (time_time w)) Hthreat Hunseen)
    as Hbody.
  cbn [time_time snd requests ryu] in Hbody. rewrite Hfail in Hbody.
  apply MitigationFacts.execute_mitigation_run in Hbody.
  destruct Hbody as (w' & Hrun & Hreq & _).
  exists w'. repeat split; auto.
Qed.

(** C6 on a fresh engine whose controller answers with a server error. *)
Lemma block_failure_leaves_engine_witness :
  exists w',
    MitigationEngine.execute_mitigation MitigationEngine.new_engine
      ddos_verdict (flow_of "10.0.0.5") world_down
    = (Ok (MitigationEngine.BlockFailed "10.0.0.5",
           MitigationEngine.new_engine), w')
    /\ MitigationEngine.status (MitigationEngine.BlockFailed "10.0.0.5")
       = "block_failed"
    /\ requests w' = requests world_down ++ [PostBlock "10.0.0.5"].
Proof.
  apply (@block_failure_leaves_engine MitigationEngine.new_engine
           ddos_verdict (flow_of "10.0.0.5") "10.0.0.5" 0.9 world_down).
  - constructor;
      [ reflexivity | discriminate | discriminate | discriminate
      | exists "ddos"; split; reflexivity | reflexivity
      | vm_compute; discriminate ].
  - reflexivity.
  - reflexivity.
Defined.

(** C2. Mitigation is idempotent. When a first [execute_mitigation] for a
    source with a [ddos] verdict at or above the threshold blocks it, a
    second call for the same source sends nothing to the controller and
    appends nothing to the history; it returns [already_blocked] with the
    counter of the record raised from 0 to 1. Over the two calls the
    controller receives one block request and the history gains one
    BLOCKED entry. *)
Theorem mitigation_idempotent
    (self : MitigationEngine.t) (det det' : Detection.t)
    (flow_info flow_info' : Dict.t string) (ip : string) (c : Q) (w : World)
    (Hthreat : threat_for self det flow_info ip c)
    (Hunseen : Dict.get (MitigationEngine.blocked_ips self) ip = None)
    (Hok : SDNController.status_ok
             (ryu w (List.length (requests w)) (PostBlock ip)) = true)
    (Hsame : Dict.get flow_info' "src_ip" = Some ip) :
  exists stamp self1 w1 since self2 w2 ev d1 d2,
    MitigationEngine.execute_mitigation self det flow_info w
    = (Ok (MitigationEngine.Blocked ip c stamp, self1), w1)
    /\ MitigationEngine.execute_mitigation self1 det' flow_info' w1
       = (Ok (MitigationEngine.AlreadyBlocked ip since 1, self2), w2)
    /\ MitigationEngine.status (MitigationEngine.AlreadyBlocked ip since 1)
       = "already_blocked"
    /\ requests w1 = requests w ++ [PostBlock ip]
    /\ requests w2 = requests w1
    /\ MitigationEngine.mitigation_history self1
       = MitigationEngine.mitigation_history self ++ [ev]
    /\ MitigationEngine.Event.ip ev = ip
    /\ MitigationEngine.Event.action ev = "BLOCKED"
    /\ MitigationEngine.mitigation_history self2
       = MitigationEngine.mitigation_history self1
    /\ Dict.get (MitigationEngine.blocked_ips self1) ip = Some d1
    /\ MitigationEngine.Block.packets_blocked d1 = 0%Z
    /\ Dict.get (MitigationEngine.blocked_ips self2) ip = Some d2
    /\ MitigationEngine.Block.packets_blocked d2 = 1%Z.
Proof.
  pose proof (MitigationFacts.body_threat (snd (time_time w)) Hthreat Hunseen)
    as Hbody.
  cbn [time_time snd requests ryu] in Hbody. rewrite Hok in Hbody.
  apply MitigationFacts.execute_mitigation_run in Hbody.
  destruct Hbody as (w1 & Hrun1 & Hreq1 & _).
  destruct Hthreat as [_ _ Hu Hz _ _ _].
  match type of Hrun1 with
  | _ = (Ok (_, ?s1), _) => set (self1 := s1) in *
  end.
  assert (Hget1 : exists d1,
             Dict.get (MitigationEngine.blocked_ips self1) ip = Some d1
             /\ MitigationEngine.Block.packets_blocked d1 = 0%Z).
  { eexists. split; [apply DictFacts.get_set_same | reflexivity]. }
  destruct Hget1 as (d1 & Hget1 & Hcount1).
  pose proof (@MitigationFacts.body_already_blocked self1 det' flow_info' ip
                d1 (snd (time_time w1)) Hsame Hu Hz Hget1) as Hbody2.
  apply MitigationFacts.execute_mitigation_run in Hbody2.
  destruct Hbody2 as (w2 & Hrun2 & Hreq2 & _).
  rewrite Hcount1 in Hrun2. cbn [Z.add Pos.add] in Hrun2.
  do 7 eexists. exists d1. eexists.
  split; [exact Hrun1|]. split; [exact Hrun2|].
  split; [reflexivity|]. split; [exact Hreq1|]. split; [exact Hreq2|].
  split; [reflexivity|]. split; [reflexivity|]. split; [reflexivity|].
  split; [reflexivity|]. split; [exact Hget1|]. split; [exact Hcount1|].
  split; [apply DictFacts.get_set_same | reflexivity].
Qed.

(** C2 on a fresh engine: the end-to-end scenario of the design document,
    where the repeated observation of 10.0.0.5 reads a counter of 1. *)
Lemma mitigation_idempotent_witness :
  exists stamp self1 w1 since self2 w2 ev d1 d2,
    MitigationEngine.execute_mitigation MitigationEngine.new_engine
      ddos_verdict (flow_of "10.0.0.5") world0
    = (Ok (MitigationEngine.Blocked "10.0.0.5" 0.9 stamp, self1), w1)
    /\ MitigationEngine.execute_mitigation self1 ddos_verdict
         (flow_of "10.0.0.5") w1
       = (Ok (MitigationEngine.AlreadyBlocked "10.0.0.5" since 1, self2), w2)
    /\ MitigationEngine.status
         (MitigationEngine.AlreadyBlocked "10.0.0.5" since 1)
       = "already_blocked"
    /\ requests w1 = requests world0 ++ [PostBlock "10.0.0.5"]
    /\ requests w2 = requests w1
    /\ MitigationEngine.mitigation_history self1
       = MitigationEngine.mitigation_history MitigationEngine.new_engine
           ++ [ev]
    /\ MitigationEngine.Event.ip ev = "10.0.0.5"
    /\ MitigationEngine.Event.action ev = "BLOCKED"
    /\ MitigationEngine.mitigation_history self2
       = MitigationEngine.mitigation_history self1
    /\ Dict.get (MitigationEngine.blocked_ips self1) "10.0.0.5" = Some d1
    /\ MitigationEngine.Block.packets_blocked d1 = 0%Z
    /\ Dict.get (MitigationEngine.blocked_ips self2) "10.0.0.5" = Some d2
    /\ MitigationEngine.Block.packets_blocked d2 = 1%Z.
Proof.
  apply (@mitigation_idempotent MitigationEngine.new_engine
           ddos_verdict ddos_verdict (flow_of "10.0.0.5")
           (flow_of "10.0.0.5") "10.0.0.5" 0.9 world0).
  - constructor;
      [ reflexivity | discriminate | discriminate | discriminate
      | exists "ddos"; split; reflexivity | reflexivity
      | vm_compute; discriminate ].
  - reflexivity.
  - reflexivity.
  - reflexivity.
Defined.

(** ** The periodic sweep *)

Module SweepFacts.
Import MitigationEngine.

Lemma get_In {V} (d : Dict.t V) k v : Dict.get d k = Some v -> In (k, v) d.
Proof.
  induction d as [|[k' v'] d IH]; simpl; [discriminate|].
  destruct (String.eqb k' k) eqn:E.
  - apply String.eqb_eq in E. intros [= ->]. subst. now left.
  - intros H. right. auto.
Qed.

Lemma In_get {V} (d : Dict.t V) k v :
  NoDup (Dict.keys d) -> In (k, v) d -> Dict.get d k = Some v.
Proof.
  induction d as [|[k' v'] d IH]; simpl; [tauto|].
  intros Hnd [H | H].
  - injection H as -> ->. now rewrite String.eqb_refl.
  - inversion Hnd as [|? ? Hnotin Hnd']; subst.
    destruct (String.eqb k' k) eqn:E.
    + apply String.eqb_eq in E. subst k'.
      exfalso. apply Hnotin. unfold Dict.keys.
      change k with (fst (k, v)). now apply in_map.
    + auto.
Qed.

Lemma get_remove_none {V} (d : Dict.t V) k k' :
  Dict.get d k' = None -> Dict.get (Dict.remove d k) k' = None.
Proof.
  intros H. destruct (String.eqb k k') eqn:E.
  - apply String.eqb_eq in E. subst. apply DictFacts.get_remove_same.
  - apply String.eqb_neq in E. now rewrite DictFacts.get_remove_other.
Qed.

(** What the loop over the expired addresses does: it never raises,
    touches neither history nor configuration, only removes records, and
    removes each listed address whose unblock the controller accepts. *)
Lemma unblock_all_run (expired : list string) :
  forall (self : t) (w : World),
  exists self' w',
    unblock_all self expired w = (Ok self', w')
    /\ mitigation_history self' = mitigation_history self
    /\ config self' = config self
    /\ ryu w' = ryu w
    /\ (forall ip, Dict.get (blocked_ips self) ip = None ->
                   Dict.get (blocked_ips self') ip = None)
    /\ (forall ip, ~ In ip expired ->
                   Dict.get (blocked_ips self') ip
                   = Dict.get (blocked_ips self) ip)
    /\ (forall ip, In ip expired ->
                   (forall n, SDNController.status_ok
                                (ryu w n (PostUnblock ip)) = true) ->
                   Dict.get (blocked_ips self') ip = None)
    /\ (NoDup (Dict.keys (blocked_ips self)) ->
        NoDup (Dict.keys (blocked_ips self'))).
Proof.
  induction expired as [|ip0 rest IH]; intros self w.
  - exists self, w. simpl. repeat split; auto. intros ip [].
  - cbn [unblock_all]. unfold bind at 1.
    destruct (Dict.get (blocked_ips self) ip0) as [d|] eqn:Hget.
    + rewrite (EngineFacts.unblock_ip_seen _ _ _ Hget).
      set (ok := SDNController.status_ok
                   (ryu w (List.length (requests w)) (PostUnblock ip0))).
      set (w1 := snd (requests_post (PostUnblock ip0) w)).
      destruct ok eqn:Hok.
      * destruct (IH (with_blocked_ips self
                        (Dict.remove (blocked_ips self) ip0)) w1)
          as (self' & w' & Hrun & Hh & Hc & Hr & Hnone & Hother & Hgone
              & Hnd).
        exists self', w'. cbn [with_blocked_ips mitigation_history config
                                blocked_ips] in *.
        split; [exact Hrun|]. repeat split; auto.
        -- intros ip H. apply Hnone. now apply get_remove_none.
        -- intros ip H. rewrite Hother by (intro; apply H; now right).
           apply DictFacts.get_remove_other.
           intros ->. apply H. now left.
        -- intros ip [<- | Hin] Hall.
           ++ apply Hnone. apply DictFacts.get_remove_same.
           ++ apply Hgone; auto.
        -- intros H. apply Hnd. now apply DictFacts.NoDup_keys_remove.
      * destruct (IH self w1)
          as (self' & w' & Hrun & Hh & Hc & Hr & Hnone & Hother & Hgone
              & Hnd).
        exists self', w'. split; [exact Hrun|]. repeat split; auto.
        -- intros ip H. apply Hother. intro; apply H; now right.
        -- intros ip [<- | Hin] Hall.
           ++ subst ok. rewrite Hall in Hok. discriminate.
           ++ apply Hgone; auto.
    + rewrite (EngineFacts.unblock_ip_unseen _ _ _ Hget).
      destruct (IH self w)
        as (self' & w' & Hrun & Hh & Hc & Hr & Hnone & Hother & Hgone & Hnd).
      exists self', w'. split; [exact Hrun|]. repeat split; auto.
      * intros ip H. apply Hother. intro; apply H; now right.
      * intros ip [<- | Hin] Hall; auto.
Qed.

Lemma slice_from_suffix {A} (i : Z) (l : list A) :
  exists dropped, l = dropped ++ slice_from i l.
Proof.
  unfold slice_from.
  destruct (0 <=? i)%Z; eexists; symmetry; apply firstn_skipn.
Qed.

Lemma slice_from_last {A} (n : Z) (l : list A) :
  (0 < n)%Z -> (n < Z.of_nat (List.length l))%Z ->
  Z.of_nat (List.length (slice_from (- n) l)) = n.
Proof.
  intros Hn Hl. unfold slice_from.
  destruct (0 <=? - n)%Z eqn:E; [apply Z.leb_le in E; lia|].
  rewrite length_skipn. lia.
Qed.

(** The sweep as a whole. *)
Lemma cleanup_run (self : t) (w : World) :
  exists self1 self' w',
    _cleanup_expired_blocks self w = (Ok self', w')
    /\ unblock_all self
         (map fst (filter (fun kv => is_expired self (clock w (ticks w))
                                       (snd kv))
                     (Dict.items (blocked_ips self))))
         (snd (time_time w)) = (Ok self1, w')
    /\ blocked_ips self' = blocked_ips self1
    /\ config self' = config self
    /\ mitigation_history self'
       = (if (max_history (config self)
                <? Z.of_nat (List.length (mitigation_history self)))%Z
          then slice_from (- max_history (config self))
                 (mitigation_history self)
          else mitigation_history self)
    /\ (NoDup (Dict.keys (blocked_ips self)) ->
        NoDup (Dict.keys (blocked_ips self'))).
Proof.
  destruct (unblock_all_run
              (map fst (filter (fun kv => is_expired self
                                            (clock w (ticks w)) (snd kv))
                          (Dict.items (blocked_ips self))))
              self (snd (time_time w)))
    as (self1 & w' & Hrun & Hh & Hc & _ & _ & _ & _ & Hnd).
  exists self1.
  unfold _cleanup_expired_blocks, bind.
  cbn [time_time snd] in *. rewrite Hrun, Hc, Hh.
  destruct (_ <? _)%Z; eexists; eexists;
    (split; [reflexivity|]); cbn; auto.
Qed.

End SweepFacts.

(** C5, as stated, fails in its history clause: a sweep at time 4000
    removes the record created at time 0 with a block duration of 3600, and
    the history gets no EXPIRED entry. *)
Lemma sweep_records_no_expiry :
  exists self' w',
    MitigationEngine._cleanup_expired_blocks engine_one_block (world_at 4000)
    = (Ok self', w')
    /\ Dict.get (MitigationEngine.blocked_ips self') "10.0.0.5" = None
    /\ ~ exists ev, In ev (MitigationEngine.mitigation_history self')
                    /\ MitigationEngine.Event.action ev = "EXPIRED".
Proof.
  eexists. eexists. split; [vm_compute; reflexivity|].
  split; [reflexivity|]. intros (ev & [] & _).
Qed.

(** C5, amended. A BlockRecord created at time T with block duration D is
    removed by the sweep at any check time strictly greater than T+D,
    provided the controller accepts the unblock, and is never removed by
    the sweep at a check time <= T+D. The sweep appends nothing to the
    history (no EXPIRED entry): the history after it is a suffix of the
    history before it. *)
Theorem sweep_expiry
    (self : MitigationEngine.t) (ip : string) (d : MitigationEngine.Block.t)
    (w : World)
    (Hkeys : NoDup (Dict.keys (MitigationEngine.blocked_ips self)))
    (Hrecord : Dict.get (MitigationEngine.blocked_ips self) ip = Some d) :
  let now := clock w (ticks w) in
  let T := MitigationEngine.Block.timestamp d in
  let D := MitigationEngine.block_duration (MitigationEngine.config self) in
  exists self' w' dropped,
    MitigationEngine._cleanup_expired_blocks self w = (Ok self', w')
    /\ MitigationEngine.mitigation_history self
       = dropped ++ MitigationEngine.mitigation_history self'
    /\ (now <= T + D ->
        Dict.get (MitigationEngine.blocked_ips self') ip = Some d)
    /\ (T + D < now ->
        (forall n, SDNController.status_ok (ryu w n (PostUnblock ip)) = true) ->
        Dict.get (MitigationEngine.blocked_ips self') ip = None).
Proof.
  intros now T D.
  destruct (SweepFacts.cleanup_run self w)
    as (self1 & self' & w' & Hrun & Hloop & Hb & Hc & Hh & _).
  match type of Hloop with
  | MitigationEngine.unblock_all _ ?l ?w1 = _ =>
      destruct (SweepFacts.unblock_all_run l self w1)
        as (self1' & w1' & Hloop' & _ & _ & _ & _ & Hother & Hgone & _);
      set (expired := l) in *
  end.
  rewrite Hloop in Hloop'. injection Hloop' as <- <-.
  assert (Hdrop : exists dropped,
             MitigationEngine.mitigation_history self
             = dropped ++ MitigationEngine.mitigation_history self').
  { rewrite Hh. destruct (_ <? _)%Z.
    - apply SweepFacts.slice_from_suffix.
    - now exists []. }
  destruct Hdrop as (dropped & Hdrop).
  exists self', w', dropped. split; [exact Hrun|]. split; [exact Hdrop|].
  rewrite Hb. split.
  - intros Hearly. rewrite Hother; [exact Hrecord|].
    intros Hin. unfold expired in Hin.
    apply in_map_iff in Hin. destruct Hin as ([ip' d'] & Hip & Hin).
    simpl in Hip. subst ip'.
    apply filter_In in Hin. destruct Hin as [Hin Hexp].
    unfold Dict.items in Hin.
    apply SweepFacts.In_get in Hin; [|exact Hkeys].
    rewrite Hrecord in Hin. injection Hin as <-.
    simpl in Hexp. unfold MitigationEngine.is_expired in Hexp.
    apply Qlt_bool_iff in Hexp. fold now T D in Hexp. lra.
  - intros Hlate Hall. apply Hgone.
    + unfold expired. apply in_map_iff. exists (ip, d). split; [reflexivity|].
      apply filter_In. split.
      * now apply SweepFacts.get_In.
      * simpl. unfold MitigationEngine.is_expired.
        apply Qlt_bool_iff. fold now T D. lra.
    + intros n. apply Hall.
Qed.

(** The amended C5 with the one record of [engine_one_block]: kept at time
    3600, removed at time 4000. *)
Lemma sweep_expiry_witness :
  (exists self' w' dropped,
      MitigationEngine._cleanup_expired_blocks engine_one_block
        (world_at 3600) = (Ok self', w')
      /\ MitigationEngine.mitigation_history engine_one_block
         = dropped ++ MitigationEngine.mitigation_history self'
      /\ Dict.get (MitigationEngine.blocked_ips self') "10.0.0.5" <> None)
  /\ (exists self' w' dropped,
      MitigationEngine._cleanup_expired_blocks engine_one_block
        (world_at 4000) = (Ok self', w')
      /\ MitigationEngine.mitigation_history engine_one_block
         = dropped ++ MitigationEngine.mitigation_history self'
      /\ Dict.get (MitigationEngine.blocked_ips self') "10.0.0.5" = None).
Proof.
  assert (Hkeys : NoDup (Dict.keys
                           (MitigationEngine.blocked_ips engine_one_block))).
  { repeat constructor. intros []. }
  split.
  - destruct (@sweep_expiry engine_one_block "10.0.0.5" _ (world_at 3600)
                Hkeys eq_refl)
      as (self' & w' & dropped & Hrun & Hh & Hkeep & _).
    exists self', w', dropped. repeat split; auto.
    rewrite Hkeep; [discriminate|]. vm_compute. discriminate.
  - destruct (@sweep_expiry engine_one_block "10.0.0.5" _ (world_at 4000)
                Hkeys eq_refl)
      as (self' & w' & dropped & Hrun & Hh & _ & Hgone).
    exists self', w', dropped. repeat split; auto.
    apply Hgone; [reflexivity|]. intros n. reflexivity.
Defined.

(** ** The bound on the history *)

Module HistoryFacts.
Import MitigationEngine.

Lemma body_history (self : t) det flow_info w :
  exists r self' w',
    execute_mitigation_body self det flow_info w = (Ok (r, self'), w')
    /\ config self' = config self
    /\ (mitigation_history self' = mitigation_history self
        \/ exists ev,
             mitigation_history self' = mitigation_history self ++ [ev]
             /\ Event.action ev = "BLOCKED")
    /\ (NoDup (Dict.keys (blocked_ips self)) ->
        NoDup (Dict.keys (blocked_ips self'))).
Proof.
  assert (Hset : forall ip d,
             NoDup (Dict.keys (blocked_ips self)) ->
             NoDup (Dict.keys (Dict.set (blocked_ips self) ip d)))
    by (intros; now apply DictFacts.NoDup_keys_set).
  unfold execute_mitigation_body.
  set (src_ip := match Dict.get flow_info "src_ip" with
                 | Some s => s
                 | None => "unknown"
                 end).
  destruct (orb _ _).
  { do 3 eexists. split; [reflexivity|]. auto. }
  unfold bind at 1.
  destruct (Dict.get (blocked_ips self) src_ip) as [d|] eqn:Hget.
  - rewrite (EngineFacts.is_ip_blocked_seen _ _ _ Hget).
    unfold bind, lift, Dict.item. cbn [blocked_ips with_blocked_ips].
    rewrite DictFacts.get_set_same.
    do 3 eexists. split; [reflexivity|]. split; [reflexivity|].
    split; [now left|]. intros H. apply Hset, H.
  - rewrite (EngineFacts.is_ip_blocked_unseen _ _ _ Hget).
    destruct (andb _ _).
    2:{ do 3 eexists. split; [reflexivity|]. auto. }
    unfold bind at 1, block_ip.
    destruct (orb (String.eqb src_ip "") (invalid_ip src_ip)).
    { do 3 eexists. split; [reflexivity|]. auto. }
    unfold SDNController.block_ip, bind, ret. cbn [requests_post].
    destruct (SDNController.status_ok _); cbn.
    + do 3 eexists. split; [reflexivity|]. split; [reflexivity|].
      split; [|intros H; apply Hset, H].
      right. eexists. split; reflexivity.
    + do 3 eexists. split; [reflexivity|]. auto.
Qed.

(** The keys of [blocked_ips] are distinct in a new engine, and remain so
    under [execute_mitigation] and under the sweep: a dict of the engine
    never holds two records for one address. *)
Lemma keys_distinct_invariant (self : t) det flow_info w :
  NoDup (Dict.keys (blocked_ips new_engine))
  /\ (NoDup (Dict.keys (blocked_ips self)) ->
      (forall r self' w',
          execute_mitigation self det flow_info w = (Ok (r, self'), w') ->
          NoDup (Dict.keys (blocked_ips self')))
      /\ (forall self' w',
            _cleanup_expired_blocks self w = (Ok self', w') ->
            NoDup (Dict.keys (blocked_ips self')))).
Proof.
  split; [constructor|]. intros Hnd. split.
  - intros r self' w' Hrun.
    destruct (body_history self det flow_info (snd (time_time w)))
      as (r1 & self1 & w1 & Hbody & _ & _ & Hkeep).
    apply MitigationFacts.execute_mitigation_run in Hbody.
    destruct Hbody as (w2 & Hrun2 & _).
    rewrite Hrun in Hrun2. injection Hrun2 as _ -> _. auto.
  - intros self' w' Hrun.
    destruct (SweepFacts.cleanup_run self w)
      as (self1 & self2 & w2 & Hrun2 & _ & _ & _ & _ & Hkeep).
    rewrite Hrun in Hrun2. injection Hrun2 as -> _. auto.
Qed.

End HistoryFacts.

(** C9, as stated, fails: [execute_mitigation] appends without truncating.
    With 1000 entries in the history and [max_history] at its default of
    1000, blocking one more source leaves 1001 entries. *)
Lemma history_exceeds_bound :
  exists r self' w',
    MitigationEngine.execute_mitigation engine_full_history ddos_verdict
      (flow_of "10.0.0.5") world0 = (Ok (r, self'), w')
    /\ MitigationEngine.max_history (MitigationEngine.config self') = 1000%Z
    /\ List.length (MitigationEngine.mitigation_history self') = 1001%nat.
Proof.
  do 3 eexists. split; [vm_compute; reflexivity|].
  split; vm_compute; reflexivity.
Qed.

(** C9, amended. The history is cut back to its most recent [max_history]
    entries (default 1000; the oldest are dropped, without error) by the
    periodic sweep only: after every [_cleanup_expired_blocks] it holds at
    most [max_history] entries, the kept entries being a suffix of the
    earlier history. [execute_mitigation] appends its BLOCKED entry
    without truncating; it adds at most one entry per call, so that
    between two sweeps the history can exceed [max_history]. *)
Theorem history_bound
    (self : MitigationEngine.t) (det : Detection.t)
    (flow_info : Dict.t string) (w : World)
    (Hmax : (0 < MitigationEngine.max_history
                   (MitigationEngine.config self))%Z) :
  (exists self' w' dropped,
      MitigationEngine._cleanup_expired_blocks self w = (Ok self', w')
      /\ MitigationEngine.mitigation_history self
         = dropped ++ MitigationEngine.mitigation_history self'
      /\ Z.of_nat (List.length (MitigationEngine.mitigation_history self'))
         = Z.min (Z.of_nat
                    (List.length (MitigationEngine.mitigation_history self)))
                 (MitigationEngine.max_history (MitigationEngine.config self)))
  /\ (exists r self' w',
      MitigationEngine.execute_mitigation self det flow_info w
      = (Ok (r, self'), w')
      /\ (MitigationEngine.mitigation_history self'
          = MitigationEngine.mitigation_history self
          \/ exists ev,
               MitigationEngine.mitigation_history self'
               = MitigationEngine.mitigation_history self ++ [ev]
               /\ MitigationEngine.Event.action ev = "BLOCKED")).
Proof.
  split.
  - destruct (SweepFacts.cleanup_run self w)
      as (self1 & self' & w' & Hrun & _ & _ & _ & Hh & _).
    destruct (_ <? _)%Z eqn:Hlen.
    + apply Z.ltb_lt in Hlen.
      destruct (SweepFacts.slice_from_suffix
                  (- MitigationEngine.max_history
                       (MitigationEngine.config self))
                  (MitigationEngine.mitigation_history self))
        as (dropped & Hdrop).
      exists self', w', dropped. split; [exact Hrun|].
      rewrite Hh. split; [exact Hdrop|].
      rewrite SweepFacts.slice_from_last by assumption. lia.
    + apply Z.ltb_ge in Hlen.
      exists self', w', []. split; [exact Hrun|].
      rewrite Hh. split; [reflexivity | lia].
  - destruct (HistoryFacts.body_history self det flow_info
                (snd (time_time w)))
      as (r & self' & w1 & Hbody & _ & Hh & _).
    apply MitigationFacts.execute_mitigation_run in Hbody.
    destruct Hbody as (w' & Hrun & _).
    exists r, self', w'. split; [exact Hrun | exact Hh].
Qed.

(** The amended C9 on the engine with a full history. *)
Lemma history_bound_witness :
  (exists self' w' dropped,
      MitigationEngine._cleanup_expired_blocks engine_full_history world0
      = (Ok self', w')
      /\ MitigationEngine.mitigation_history engine_full_history
         = dropped ++ MitigationEngine.mitigation_history self'
      /\ Z.of_nat (List.length (MitigationEngine.mitigation_history self'))
         = Z.min (Z.of_nat
                    (List.length
                       (MitigationEngine.mitigation_history
                          engine_full_history)))
                 (MitigationEngine.max_history
                    (MitigationEngine.config engine_full_history)))
  /\ (exists r self' w',
      MitigationEngine.execute_mitigation engine_full_history ddos_verdict
        (flow_of "10.0.0.5") world0 = (Ok (r, self'), w')
      /\ (MitigationEngine.mitigation_history self'
          = MitigationEngine.mitigation_history engine_full_history
          \/ exists ev,
               MitigationEngine.mitigation_history self'
               = MitigationEngine.mitigation_history engine_full_history
                   ++ [ev]
               /\ MitigationEngine.Event.action ev = "BLOCKED")).
Proof.
  apply (@history_bound engine_full_history ddos_verdict (flow_of "10.0.0.5")
           world0).
  reflexivity.
Defined.

(** ** The bounded cache *)

Module CacheFacts.

Lemma min_from_spec {A} (f : A -> Res Q) (l : list A) :
  forall best fbest,
    f best = Ok fbest ->
    (forall x, In x l -> exists q, f x = Ok q) ->
    exists e q,
      min_from f best fbest l = Ok e
      /\ (e = best \/ In e l)
      /\ f e = Ok q
      /\ q <= fbest
      /\ (forall y qy, In y l -> f y = Ok qy -> q <= qy).
Proof.
  induction l as [|x l IH]; intros best fbest Hbest Hall.
  - exists best, fbest. simpl. repeat split; auto.
    + apply Qle_refl.
    + intros y qy [].
  - destruct (Hall x) as (fx & Hfx); [now left|].
    simpl. rewrite Hfx.
    destruct (Qlt_bool fx fbest) eqn:Hlt.
    + apply Qlt_bool_iff in Hlt.
      destruct (IH x fx Hfx) as (e & q & Hrun & Hin & Hfe & Hle & Hmin).
      { intros y Hy. apply Hall. now right. }
      exists e, q. split; [exact Hrun|].
      split; [destruct Hin as [-> | Hin]; simpl; auto|].
      split; [exact Hfe|]. split; [lra|].
      intros y qy [<- | Hy] Hfy.
      * rewrite Hfx in Hfy. injection Hfy as <-. exact Hle.
      * eauto.
    + apply Qlt_bool_false_iff in Hlt.
      destruct (IH best fbest Hbest) as (e & q & Hrun & Hin & Hfe & Hle & Hmin).
      { intros y Hy. apply Hall. now right. }
      exists e, q. split; [exact Hrun|].
      split; [destruct Hin as [-> | Hin]; simpl; auto|].
      split; [exact Hfe|]. split; [exact Hle|].
      intros y qy [<- | Hy] Hfy.
      * rewrite Hfx in Hfy. injection Hfy as <-. lra.
      * eauto.
Qed.

(** [min] succeeds on a sequence that is not empty, and returns an
    element whose key is the least. *)
Lemma py_min_spec {A} (f : A -> Res Q) (l : list A) :
  l <> [] ->
  (forall x, In x l -> exists q, f x = Ok q) ->
  exists e q,
    py_min l f = Ok e
    /\ In e l
    /\ f e = Ok q
    /\ (forall y qy, In y l -> f y = Ok qy -> q <= qy).
Proof.
  destruct l as [|x l]; [congruence|]. intros _ Hall.
  destruct (Hall x) as (fx & Hfx); [now left|].
  destruct (@min_from_spec A f l x fx Hfx)
    as (e & q & Hrun & Hin & Hfe & Hle & Hmin).
  { intros y Hy. apply Hall. now right. }
  exists e, q. simpl. rewrite Hfx. split; [exact Hrun|].
  split; [destruct Hin; auto|]. split; [exact Hfe|].
  intros y qy [<- | Hy] Hfy.
  - rewrite Hfx in Hfy. injection Hfy as <-. exact Hle.
  - eauto.
Qed.

Lemma item_of_key {V} (d : Dict.t V) k :
  In k (Dict.keys d) -> exists v, Dict.item d k = Ok v.
Proof.
  intros H. apply DictFacts.get_in_keys in H. unfold Dict.item.
  destruct (Dict.get d k) as [v|]; [now exists v | congruence].
Qed.

Lemma keys_set {V} (d : Dict.t V) k v :
  Dict.keys (Dict.set d k v)
  = if Dict.mem d k then Dict.keys d else Dict.keys d ++ [k].
Proof.
  destruct (Dict.mem d k) eqn:E.
  - apply DictFacts.keys_set_mem. now apply DictFacts.mem_true.
  - apply DictFacts.keys_set_new. rewrite <- DictFacts.mem_true. congruence.
Qed.

Lemma mem_keys {V W} (d : Dict.t V) (d' : Dict.t W) k :
  Dict.keys d = Dict.keys d' -> Dict.mem d k = Dict.mem d' k.
Proof.
  intros H. apply eq_true_iff_eq. now rewrite !DictFacts.mem_true, H.
Qed.

Lemma set_fresh {V} (d : Dict.t V) k v :
  ~ In k (Dict.keys d) -> Dict.set d k v = d ++ [(k, v)].
Proof.
  induction d as [|[k' v'] d IH]; simpl; auto.
  intros H. destruct (String.eqb k' k) eqn:E.
  - apply String.eqb_eq in E. tauto.
  - f_equal. apply IH. tauto.
Qed.

Lemma len_set {V} (d : Dict.t V) k v :
  (Dict.len (Dict.set d k v) <= S (Dict.len d))%nat.
Proof.
  unfold Dict.len. induction d as [|[k' v'] d IH]; simpl; auto.
  destruct (String.eqb k' k); simpl; lia.
Qed.

Lemma len_remove_lt {V} (d : Dict.t V) k :
  In k (Dict.keys d) -> (Dict.len (Dict.remove d k) < Dict.len d)%nat.
Proof.
  unfold Dict.len, Dict.remove.
  induction d as [|[k' v'] d IH]; simpl; [tauto|].
  destruct (String.eqb k' k) eqn:E; simpl.
  - intros _.
    pose proof (filter_length_le
                  (fun kv : string * V => negb (String.eqb (fst kv) k)) d).
    lia.
  - apply String.eqb_neq in E. intros [H | H]; [congruence|].
    apply IH in H. lia.
Qed.

Lemma len_remove_NoDup {V} (d : Dict.t V) k :
  NoDup (Dict.keys d) -> In k (Dict.keys d) ->
  S (Dict.len (Dict.remove d k)) = Dict.len d.
Proof.
  unfold Dict.len, Dict.remove.
  induction d as [|[k' v'] d IH]; simpl; [tauto|].
  intros Hnd Hin. inversion Hnd as [|? ? Hnotin Hnd']; subst.
  destruct (String.eqb k' k) eqn:E; simpl.
  - apply String.eqb_eq in E. subst k'. f_equal.
    clear IH Hnd Hin Hnd'. induction d as [|[k1 v1] d IH]; simpl; auto.
    simpl in Hnotin.
    destruct (String.eqb k1 k) eqn:E1.
    + apply String.eqb_eq in E1. tauto.
    + simpl. f_equal. apply IH. tauto.
  - apply String.eqb_neq in E. f_equal. apply IH; auto.
    destruct Hin; [congruence | auto].
Qed.

End CacheFacts.

Module SetFacts.
Import CacheFacts.

Section OneSet.
Context {V : Type}.
Variables (c : PerformanceCache V) (key : string) (value : V) (w : World).

(** A [set] below capacity stores the entry and evicts nothing. *)
Lemma set_below_capacity :
  (Z.of_nat (Dict.len (cache c)) < max_size c)%Z ->
  set c key value w
  = (Ok (with_cache c (Dict.set (cache c) key value)
           (Dict.set (access_times c) key (clock w (ticks w)))),
     snd (time_time w)).
Proof.
  intros H. unfold set.
  apply Z.leb_gt in H. rewrite H. reflexivity.
Qed.

(** A [set] at capacity first evicts a key whose access time is the
    least. *)
Lemma set_at_capacity :
  Dict.keys (cache c) = Dict.keys (access_times c) ->
  (max_size c <= Z.of_nat (Dict.len (cache c)))%Z ->
  cache c <> [] ->
  exists evicted stored,
    In evicted (Dict.keys (cache c))
    /\ Dict.get (access_times c) evicted = Some stored
    /\ (forall k t, Dict.get (access_times c) k = Some t -> stored <= t)
    /\ set c key value w
       = (Ok (with_cache c
                (Dict.set (Dict.remove (cache c) evicted) key value)
                (Dict.set (Dict.remove (access_times c) evicted) key
                   (clock w (ticks w)))),
          snd (time_time w)).
Proof.
  intros Hkeys Hfull Hne.
  destruct (@py_min_spec string
              (fun k => Dict.item (access_times c) k)
              (Dict.keys (access_times c)))
    as (e & q & Hmin & Hin & Hitem & Hleast).
  { rewrite <- Hkeys. destruct (cache c); [congruence | discriminate]. }
  { intros x Hx. now apply item_of_key. }
  assert (Hget : Dict.get (access_times c) e = Some q).
  { unfold Dict.item in Hitem.
    destruct (Dict.get (access_times c) e); congruence. }
  exists e, q. split; [now rewrite Hkeys|]. split; [exact Hget|]. split.
  - intros k t Hk. apply (Hleast k t).
    + apply DictFacts.get_in_keys. congruence.
    + unfold Dict.item. now rewrite Hk.
  - unfold set. apply Z.leb_le in Hfull. rewrite Hfull.
    unfold bind, lift. rewrite Hmin. unfold Dict.del.
    rewrite (mem_keys (cache c) (access_times c) e Hkeys).
    assert (Hmem : Dict.mem (access_times c) e = true)
      by now apply DictFacts.mem_true.
    rewrite Hmem. reflexivity.
Qed.

(** [set] keeps the invariant of the cache, and does not raise. *)
Lemma set_inv :
  cache_inv c ->
  exists c' w',
    set c key value w = (Ok c', w')
    /\ cache_inv c'
    /\ max_size c' = max_size c
    /\ w' = snd (time_time w).
Proof.
  intros (Hkeys & Hlen & Hcap).
  destruct (Z_lt_le_dec (Z.of_nat (Dict.len (cache c))) (max_size c))
    as [Hbelow | Hfull].
  - rewrite (set_below_capacity Hbelow).
    do 2 eexists. split; [reflexivity|]. split; [|split; reflexivity].
    unfold cache_inv. cbn [with_cache cache access_times max_size].
    split; [|split; [|exact Hcap]].
    + rewrite !keys_set, (mem_keys _ _ key Hkeys), Hkeys. reflexivity.
    + pose proof (len_set (cache c) key value). lia.
  - destruct (set_at_capacity Hkeys Hfull)
      as (e & q & Hin & _ & _ & Hrun).
    { intros E. rewrite E in Hfull. simpl in Hfull. lia. }
    rewrite Hrun.
    do 2 eexists. split; [reflexivity|]. split; [|split; reflexivity].
    unfold cache_inv. cbn [with_cache cache access_times max_size].
    assert (Hkeys' : Dict.keys (Dict.remove (cache c) e)
                     = Dict.keys (Dict.remove (access_times c) e))
      by (rewrite !DictFacts.keys_remove; now rewrite Hkeys).
    split; [|split; [|exact Hcap]].
    + rewrite !keys_set, (mem_keys _ _ key Hkeys'), Hkeys'. reflexivity.
    + pose proof (len_set (Dict.remove (cache c) e) key value).
      pose proof (len_remove_lt (cache c) e Hin). lia.
Qed.

End OneSet.

Lemma set_all_inv {V} (ops : list (string * V)) :
  forall (c : PerformanceCache V) (w : World),
    cache_inv c ->
    exists c' w',
      set_all c ops w = (Ok c', w')
      /\ cache_inv c'
      /\ max_size c' = max_size c.
Proof.
  induction ops as [|[k v] ops IH]; intros c w Hinv.
  - exists c, w. auto.
  - destruct (set_inv k v w Hinv) as (c1 & w1 & Hrun & Hinv1 & Hmax1 & _).
    destruct (IH c1 w1 Hinv1) as (c' & w' & Hrun' & Hinv' & Hmax').
    exists c', w'. cbn [set_all]. unfold bind. rewrite Hrun.
    split; [exact Hrun'|]. split; [exact Hinv' | congruence].
Qed.

(** Distinct new keys stored while there is room are appended in order,
    each with the clock reading of its [set]. *)
Lemma set_all_fill {V} (kvs : list (string * V)) :
  forall (c : PerformanceCache V) (w : World),
    Dict.keys (cache c) = Dict.keys (access_times c) ->
    NoDup (Dict.keys (cache c) ++ map fst kvs) ->
    (Z.of_nat (Dict.len (cache c) + List.length kvs) <= max_size c)%Z ->
    exists c' w',
      set_all c kvs w = (Ok c', w')
      /\ cache c' = cache c ++ kvs
      /\ access_times c'
         = access_times c ++ stamped (clock w) (ticks w) (map fst kvs)
      /\ max_size c' = max_size c
      /\ clock w' = clock w
      /\ ticks w' = (List.length kvs + ticks w)%nat.
Proof.
  induction kvs as [|[k v] kvs IH]; intros c w Hkeys Hnd Hroom.
  - exists c, w. simpl. rewrite !app_nil_r. repeat split; auto.
  - assert (Hfresh : ~ In k (Dict.keys (cache c))).
    { intros Hin. apply NoDup_remove_2 in Hnd. apply Hnd.
      apply in_or_app. now left. }
    cbn [set_all]. unfold bind.
    rewrite set_below_capacity by (simpl in Hroom; lia).
    rewrite (@set_fresh V (cache c) k v Hfresh).
    rewrite (@set_fresh Q (access_times c) k (clock w (ticks w)))
      by (now rewrite <- Hkeys).
    match goal with
    | |- context [set_all ?c1 kvs ?w1] =>
        destruct (IH c1 w1) as (c' & w' & Hrun & Hc & Ha & Hm & Hcl & Ht)
    end.
    + cbn [with_cache cache access_times]. unfold Dict.keys in *.
      rewrite !map_app, Hkeys. reflexivity.
    + cbn [with_cache cache]. unfold Dict.keys in *.
      rewrite map_app. simpl. rewrite <- app_assoc. exact Hnd.
    + cbn [with_cache cache max_size]. unfold Dict.len in *.
      rewrite length_app. simpl in *. lia.
    + exists c', w'. split; [exact Hrun|].
      cbn [with_cache cache access_times max_size time_time snd clock ticks]
        in *.
      rewrite Hc, Ha, <- !app_assoc. simpl. repeat split; auto. lia.
Qed.

End SetFacts.

Lemma keys_stamped (cl : nat -> Q) (ks : list string) :
  forall n, Dict.keys (stamped cl n ks) = ks.
Proof.
  induction ks as [|k ks IH]; intros n; simpl; [reflexivity|].
  f_equal. apply IH.
Qed.

(** C8. A cache of positive capacity [max_size], starting empty, holds at
    most [max_size] entries after every [set], whatever the keys. Once
    [max_size] distinct keys are stored, storing one more distinct key
    evicts one entry and leaves exactly [max_size]: the evicted key is one
    whose insertion time is the earliest among the keys present before the
    insert, every other key stays, and the new key is added. *)
Theorem cache_bound {V : Type}
    (capacity : Z) (ttl : Q) (w : World)
    (ops fill : list (string * V)) (key : string) (value : V)
    (Hcapacity : (1 <= capacity)%Z)
    (Hfill : Z.of_nat (List.length fill) = capacity)
    (Hdistinct : NoDup (map fst fill ++ [key])) :
  (exists c w',
      set_all (new_cache capacity ttl) ops w = (Ok c, w')
      /\ (Z.of_nat (Dict.len (cache c)) <= capacity)%Z)
  /\ (exists c w1 c' w2 evicted stored,
      set_all (new_cache capacity ttl) fill w = (Ok c, w1)
      /\ cache c = fill
      /\ access_times c = stamped (clock w) (ticks w) (map fst fill)
      /\ set c key value w1 = (Ok c', w2)
      /\ Z.of_nat (Dict.len (cache c')) = capacity
      /\ In evicted (map fst fill)
      /\ Dict.get (access_times c) evicted = Some stored
      /\ (forall k t, Dict.get (access_times c) k = Some t -> stored <= t)
      /\ cache c' = Dict.remove fill evicted ++ [(key, value)]
      /\ Dict.get (cache c') evicted = None).
Proof.
  split.
  - destruct (@SetFacts.set_all_inv V ops (new_cache capacity ttl) w)
      as (c & w' & Hrun & (_ & Hlen & _) & Hmax).
    { unfold cache_inv. simpl. repeat split; auto. lia. }
    exists c, w'. split; [exact Hrun|]. rewrite Hmax in Hlen. exact Hlen.
  - assert (Hnd : NoDup (map fst fill)) by (eapply NoDup_app_remove_r; eauto).
    assert (Hfresh : ~ In key (map fst fill)).
    { apply NoDup_remove_2 in Hdistinct. now rewrite app_nil_r in Hdistinct. }
    destruct (@SetFacts.set_all_fill V fill (new_cache capacity ttl) w)
      as (c & w1 & Hrun & Hc & Ha & Hm & _ & _).
    { reflexivity. }
    { exact Hnd. }
    { simpl. lia. }
    simpl in Hc, Ha, Hm.
    assert (Hkeys : Dict.keys (cache c) = Dict.keys (access_times c))
      by (rewrite Hc, Ha, keys_stamped; reflexivity).
    destruct (@SetFacts.set_at_capacity V c key value w1 Hkeys)
      as (e & q & Hin & Hget & Hleast & Hset).
    { rewrite Hm, Hc. unfold Dict.len. lia. }
    { rewrite Hc. intros E. rewrite E in Hfill. simpl in Hfill. lia. }
    rewrite Hc in Hin, Hset.
    assert (Hfresh' : ~ In key (Dict.keys (Dict.remove fill e))).
    { rewrite DictFacts.keys_remove. intros H.
      apply filter_In in H. now destruct H. }
    exists c, w1. do 2 eexists. exists e, q.
    split; [exact Hrun|]. split; [exact Hc|]. split; [exact Ha|].
    split; [exact Hset|]. cbn [with_cache cache].
    rewrite (@CacheFacts.set_fresh V (Dict.remove fill e) key value Hfresh').
    split; [|split; [exact Hin|split; [exact Hget|split; [exact Hleast|]]]].
    + unfold Dict.len. rewrite length_app. simpl.
      pose proof (@CacheFacts.len_remove_NoDup V fill e Hnd Hin) as Hl.
      unfold Dict.len in Hl. lia.
    + split; [reflexivity|].
      rewrite <- (@CacheFacts.set_fresh V (Dict.remove fill e) key value
                    Hfresh').
      rewrite DictFacts.get_set_other.
      * apply DictFacts.get_remove_same.
      * intros ->. contradiction.
Qed.

(** C8 for a cache of capacity 2: four [set]s in a row, and the keys [a],
    [b] followed by [c]. *)
Lemma cache_bound_witness :
  (exists c w',
      set_all (new_cache 2 30) [("a", 1%nat); ("b", 2%nat); ("a", 3%nat);
                                ("d", 4%nat)] world0 = (Ok c, w')
      /\ (Z.of_nat (Dict.len (cache c)) <= 2)%Z)
  /\ (exists c w1 c' w2 evicted stored,
      set_all (new_cache 2 30) [("a", 1%nat); ("b", 2%nat)] world0
      = (Ok c, w1)
      /\ cache c = [("a", 1%nat); ("b", 2%nat)]
      /\ access_times c
         = stamped (clock world0) (ticks world0)
             (map fst [("a", 1%nat); ("b", 2%nat)])
      /\ set c "c" 3%nat w1 = (Ok c', w2)
      /\ Z.of_nat (Dict.len (cache c')) = 2%Z
      /\ In evicted (map fst [("a", 1%nat); ("b", 2%nat)])
      /\ Dict.get (access_times c) evicted = Some stored
      /\ (forall k t, Dict.get (access_times c) k = Some t -> stored <= t)
      /\ cache c' = Dict.remove [("a", 1%nat); ("b", 2%nat)] evicted
                      ++ [("c", 3%nat)]
      /\ Dict.get (cache c') evicted = None).
Proof.
  apply (@cache_bound nat 2 30 world0
           [("a", 1%nat); ("b", 2%nat); ("a", 3%nat); ("d", 4%nat)]
           [("a", 1%nat); ("b", 2%nat)] "c" 3%nat).
  - lia.
  - reflexivity.
  - simpl. repeat constructor; simpl; intuition discriminate.
Defined.

(** ** Failure of the model under the decorators *)

Module DecoratorFacts.

(** On a cache miss [cache_result] runs the call and returns its result;
    here for a call that leaves the world as it found it. *)
Lemma cache_result_miss (ttl : Q) (name key : string)
    (func : M Detection.t) (w : World) (r : Detection.t) :
  Dict.get (cache (performance_cache w)) key = None ->
  cache_inv (performance_cache w) ->
  (forall w0, func w0 = (Ok r, w0)) ->
  exists w',
    cache_result ttl name key func w = (Ok r, w')
    /\ requests w' = requests w.
Proof.
  intros Hmiss Hinv Hfunc.
  unfold cache_result, bind at 1, on_performance_cache at 1, get.
  rewrite Hmiss. cbn [ret].
  unfold bind at 1. cbn [time_time].
  unfold bind at 1. rewrite Hfunc.
  unfold bind at 1. cbn [time_time].
  unfold bind at 1, on_performance_cache at 1, bind at 1.
  cbn [performance_cache clock ticks ryu requests].
  match goal with
  | |- context [set (performance_cache w) key r ?w2] =>
      destruct (SetFacts.set_inv key r w2 Hinv) as (c' & w3 & Hset & _ & _ & ->);
      rewrite Hset
  end.
  cbn [ret].
  unfold bind, on_performance_cache, add_metric, bind, ret, time_time.
  cbn. eexists. split; [reflexivity|].
  reflexivity.
Qed.

(** When the model raises, the body of [detect_ddos] returns the verdict
    [unknown] and reads no clock. *)
Lemma body_model_failure (self : MLDetection.MLDetectionEngine)
    (flow_features : Dict.t Q) (Xs : list Q) (e : Exn) :
  MLDetection.scaler_transform self
    (MLDetection.preprocess_features self flow_features) = Ok Xs ->
  predict_proba (MLDetection.model self) Xs = Raise e
  \/ predict (MLDetection.model self) Xs = Raise e ->
  exists e',
    forall w, MLDetection.detect_ddos_body self flow_features w
              = (Ok (unknown_verdict e'), w).
Proof.
  intros Hscaled Hml.
  unfold MLDetection.detect_ddos_body, try_except, bind, lift.
  rewrite Hscaled.
  destruct Hml as [H | H].
  - rewrite H. now exists e.
  - destruct (predict_proba (MLDetection.model self) Xs) as [proba | e0].
    + rewrite H. now exists e.
    + now exists e0.
Qed.

End DecoratorFacts.

(** C3, amended. When a call to the scoring model raises, the exception is
    caught and the decision is "no threat", whatever the rate:
    [is_ddos_attack] returns [False] (the rule [pps > 50] is applied only
    when no model is configured), and [detect_ddos] - its body, and the
    decorated method on a cache miss - returns the verdict [unknown] with
    confidence 0.0 and threat level [UNKNOWN], carrying the error. Neither
    propagates the exception. *)
Theorem model_failure_is_caught
    (m : Model) (pkt_size : Z) (pps : Q)
    (self : MLDetection.MLDetectionEngine) (flow_features : Dict.t Q)
    (Xs : list Q) (cache_key : Dict.t Q -> string) (w : World) (e e' : Exn)
    (Happ : predict m (App.build_features (Some m) pkt_size pps) = Raise e
            \/ predict_proba m (App.build_features (Some m) pkt_size pps)
               = Raise e)
    (Hscaled : MLDetection.scaler_transform self
                 (MLDetection.preprocess_features self flow_features)
               = Ok Xs)
    (Hml : predict_proba (MLDetection.model self) Xs = Raise e'
           \/ predict (MLDetection.model self) Xs = Raise e')
    (Hcache : cache_inv (performance_cache w))
    (Hmiss : Dict.get (cache (performance_cache w)) (cache_key flow_features)
             = None) :
  App.is_ddos_attack (Some m) pkt_size pps = false
  /\ exists (e'' : Exn) (w' : World),
      MLDetection.detect_ddos_body self flow_features w
      = (Ok (unknown_verdict e''), w)
      /\ MLDetection.detect_ddos cache_key self flow_features w
         = (Ok (unknown_verdict e''), w')
      /\ Detection.prediction (unknown_verdict e'') = Some "unknown"
      /\ Detection.confidence (unknown_verdict e'') = Some 0.0
      /\ Detection.threat_level (unknown_verdict e'') = Some "UNKNOWN".
Proof.
  split.
  - unfold App.is_ddos_attack, App.model_verdict.
    destruct Happ as [H | H]; rewrite H.
    + reflexivity.
    + destruct (predict m _); reflexivity.
  - destruct (DecoratorFacts.body_model_failure self flow_features Hscaled Hml)
      as (e'' & Hbody).
    destruct (@DecoratorFacts.cache_result_miss 10 "detect_ddos"
                (cache_key flow_features)
                (MLDetection.detect_ddos_body self flow_features)
                (snd (time_time w)) (unknown_verdict e''))
      as (w1 & Hrun & _); auto.
    destruct (performance_monitor_run "detect_ddos"
                (cache_result 10 "detect_ddos" (cache_key flow_features)
                   (MLDetection.detect_ddos_body self flow_features)) w)
      as (w' & Hmon & _).
    rewrite Hrun in Hmon.
    exists e'', w'. split; [apply Hbody|]. split; [exact Hmon|].
    repeat split.
Qed.

(** The amended C3 at a concrete input: [broken_model] in both detectors,
    for a source at 1000 packets per second. *)
Lemma model_failure_is_caught_witness :
  App.is_ddos_attack (Some broken_model) 64 1000 = false
  /\ exists (e'' : Exn) (w' : World),
      MLDetection.detect_ddos_body broken_engine
        [("packets_per_second", 1000)] world0
      = (Ok (unknown_verdict e''), world0)
      /\ MLDetection.detect_ddos (fun _ => "detect_ddos:1") broken_engine
           [("packets_per_second", 1000)] world0
         = (Ok (unknown_verdict e''), w')
      /\ Detection.prediction (unknown_verdict e'') = Some "unknown"
      /\ Detection.confidence (unknown_verdict e'') = Some 0.0
      /\ Detection.threat_level (unknown_verdict e'') = Some "UNKNOWN".
Proof.
  apply (@model_failure_is_caught broken_model 64 1000 broken_engine
           [("packets_per_second", 1000)] [1000] (fun _ => "detect_ddos:1")
           world0 OtherError OtherError).
  - left. reflexivity.
  - reflexivity.
  - right. reflexivity.
  - unfold cache_inv. simpl. repeat split; lia.
  - reflexivity.
Defined.


(** * Further properties of the code *)

(** ** Feature vectors and the decision of the model *)

(** X1. [build_features] always returns exactly as many features as the
    model expects: the nine base features are cut at the tail when the
    model expects fewer, and followed by zeros when it expects more. With
    no model the vector is empty. *)
Theorem build_features_length (model : option Model) (pkt_size : Z) (pps : Q) :
  let base := [1; pps; inject_Z pkt_size / 100; 0.5; 0.3; 10.0; 1; 1; 1] in
  let feats := App.build_features model pkt_size pps in
  List.length feats = App.EXPECTED_FEATURES model
  /\ firstn 9 feats = firstn (App.EXPECTED_FEATURES model) base
  /\ skipn 9 feats = repeat 0.0 (App.EXPECTED_FEATURES model - 9)
  /\ App.build_features None pkt_size pps = [].
Proof.
  intros base feats. subst feats. unfold App.build_features.
  fold base. change (List.length base) with 9%nat.
  set (K := App.EXPECTED_FEATURES model).
  split; [|split; [|split; [|reflexivity]]].
  - destruct (Nat.ltb K 9) eqn:E1.
    + apply Nat.ltb_lt in E1. rewrite length_firstn.
      change (List.length base) with 9%nat. lia.
    + apply Nat.ltb_ge in E1. destruct (Nat.ltb 9 K) eqn:E2.
      * rewrite length_app, repeat_length.
        change (List.length base) with 9%nat. lia.
      * apply Nat.ltb_ge in E2.
        change (List.length base) with 9%nat. lia.
  - destruct (Nat.ltb K 9) eqn:E1.
    + apply Nat.ltb_lt in E1. rewrite firstn_firstn.
      f_equal. lia.
    + apply Nat.ltb_ge in E1. destruct (Nat.ltb 9 K) eqn:E2.
      * rewrite firstn_app. change (List.length base) with 9%nat.
        rewrite Nat.sub_diag. simpl firstn at 2. rewrite app_nil_r.
        rewrite (firstn_all2 (n := K)); [reflexivity|].
        change (List.length base) with 9%nat. exact E1.
      * apply Nat.ltb_ge in E2. replace K with 9%nat by lia. reflexivity.
  - destruct (Nat.ltb K 9) eqn:E1.
    + apply Nat.ltb_lt in E1. replace (K - 9)%nat with 0%nat by lia.
      apply skipn_all2. rewrite length_firstn.
      change (List.length base) with 9%nat. lia.
    + apply Nat.ltb_ge in E1. destruct (Nat.ltb 9 K) eqn:E2.
      * rewrite skipn_app. change (List.length base) with 9%nat.
        rewrite Nat.sub_diag. reflexivity.
      * apply Nat.ltb_ge in E2. replace (K - 9)%nat with 0%nat by lia.
        reflexivity.
Qed.

Lemma py_max_spec (l : list Q) (x : Q) :
  py_max l = Ok x -> In x l /\ forall y, In y l -> y <= x.
Proof.
  destruct l as [|a l]; [discriminate|]. simpl. intros [= <-].
  assert (H : forall l m,
             (In (fold_left (fun m y => if Qlt_bool m y then y else m) l m) l
              \/ fold_left (fun m y => if Qlt_bool m y then y else m) l m = m)
             /\ m <= fold_left (fun m y => if Qlt_bool m y then y else m) l m
             /\ forall y, In y l ->
                  y <= fold_left (fun m y => if Qlt_bool m y then y else m)
                         l m).
  { clear. induction l as [|b l IH]; intros m; simpl.
    - split; [now right|]. split; [apply Qle_refl | intros y []].
    - destruct (Qlt_bool m b) eqn:E.
      + apply Qlt_bool_iff in E.
        destruct (IH b) as (Hin & Hle & Hall).
        split; [left; destruct Hin as [Hin | ->]; auto|].
        split; [lra|]. intros y [<- | Hy]; auto.
      + apply Qlt_bool_false_iff in E.
        destruct (IH m) as (Hin & Hle & Hall).
        split; [destruct Hin as [Hin | ->]; auto|].
        split; [exact Hle|]. intros y [<- | Hy]; [lra | auto]. }
  destruct (H l a) as (Hin & Hle & Hall). split.
  - destruct Hin as [Hin | ->]; [now right | now left].
  - intros y [<- | Hy]; auto.
Qed.

(** X2. With a model configured, [is_ddos_attack] reports a threat exactly
    when the model predicts class 1 and gives some class a probability
    above 0.7; the rate alone never decides. *)
Theorem model_decision (m : Model) (pkt_size : Z) (pps : Q) :
  let feats := App.build_features (Some m) pkt_size pps in
  App.is_ddos_attack (Some m) pkt_size pps = true
  <-> predict m feats = Ok 1%Z
      /\ exists proba p,
           predict_proba m feats = Ok proba /\ In p proba /\ 0.7 < p.
Proof.
  intros feats. unfold App.is_ddos_attack, App.model_verdict. fold feats.
  split.
  - destruct (predict m feats) as [pred|]; [|discriminate].
    destruct (predict_proba m feats) as [proba|]; [|discriminate].
    destruct (py_max proba) as [prob|] eqn:Hmax; [|discriminate].
    intros H. apply andb_true_iff in H. destruct H as [Hp Hprob].
    apply Z.eqb_eq in Hp. apply Qlt_bool_iff in Hprob. subst pred.
    split; [reflexivity|]. exists proba, prob.
    apply py_max_spec in Hmax. tauto.
  - intros (Hpred & proba & p & Hproba & Hin & Hp).
    rewrite Hpred, Hproba.
    destruct (py_max proba) as [prob|] eqn:Hmax.
    + apply py_max_spec in Hmax. destruct Hmax as [_ Hall].
      apply andb_true_iff. split; [reflexivity|].
      apply Qlt_bool_iff. specialize (Hall p Hin). lra.
    + destruct proba; [destruct Hin | discriminate].
Qed.

(** X3. Simulated traffic and the sources listed in [FORCE_MALICIOUS_IPS]
    are always reported as attacks, whatever the model, the packet size
    and the rate; for every other source the answer is that of
    [is_ddos_attack]. *)
Theorem forced_sources (model : option Model) (forced : list string)
    (src_ip : string) (pkt_size : Z) (pps : Q) (simulated : bool) :
  App.is_ddos_attack_for_ip model forced src_ip pkt_size pps simulated = true
  <-> simulated = true \/ In src_ip forced
      \/ App.is_ddos_attack model pkt_size pps = true.
Proof.
  unfold App.is_ddos_attack_for_ip.
  destruct simulated; [tauto|].
  destruct (existsb (String.eqb src_ip) forced) eqn:E.
  - apply existsb_exists in E. destruct E as (x & Hin & Hx).
    apply String.eqb_eq in Hx. subst x. tauto.
  - split; [tauto|]. intros [H | [H | H]]; [discriminate | | exact H].
    assert (Hex : existsb (String.eqb src_ip) forced = true).
    { apply existsb_exists. exists src_ip. split; [exact H|].
      apply String.eqb_refl. }
    congruence.
Qed.

(** ** Slice policies *)

(** X4. [apply_slice_policy] does not reject a slice name it does not
    know: it answers with the parameters of eMBB (priority 2, weight 0.50)
    under the name it was given. *)
Theorem unknown_slice_policy (slice_name : string) (w : World)
    (HeMBB : slice_name <> "eMBB")
    (HURLLC : slice_name <> "URLLC")
    (HmMTC : slice_name <> "mMTC") :
  NetworkSlicing.apply_slice_policy slice_name w
  = (Ok {| NetworkSlicing.slice := slice_name;
           NetworkSlicing.policy_priority := 2;
           NetworkSlicing.policy_bandwidth_weight := 0.50;
           NetworkSlicing.policy_description := "Enhanced Mobile Broadband";
           NetworkSlicing.policy_ideal_use :=
             "High-speed data, streaming, big packets";
           NetworkSlicing.timestamp := clock w (ticks w) |},
     snd (time_time w)).
Proof.
  unfold NetworkSlicing.apply_slice_policy, bind, lift.
  assert (Hget : Dict.get NetworkSlicing.SLICE_DEFINITIONS slice_name = None).
  { unfold NetworkSlicing.SLICE_DEFINITIONS. cbn [Dict.get].
    apply not_eq_sym in HeMBB, HURLLC, HmMTC.
    apply String.eqb_neq in HeMBB, HURLLC, HmMTC.
    now rewrite HeMBB, HURLLC, HmMTC. }
  rewrite Hget. reflexivity.
Qed.

(** X4 for the name [best-effort]. *)
Lemma unknown_slice_policy_witness :
  NetworkSlicing.apply_slice_policy "best-effort" world0
  = (Ok {| NetworkSlicing.slice := "best-effort";
           NetworkSlicing.policy_priority := 2;
           NetworkSlicing.policy_bandwidth_weight := 0.50;
           NetworkSlicing.policy_description := "Enhanced Mobile Broadband";
           NetworkSlicing.policy_ideal_use :=
             "High-speed data, streaming, big packets";
           NetworkSlicing.timestamp := clock world0 (ticks world0) |},
     snd (time_time world0)).
Proof.
  apply (@unknown_slice_policy "best-effort" world0); discriminate.
Defined.

(** ** Rounding of the confidence *)

Lemma near_integer (x k : Q) :
  x * 10000 - k <= 0.5 -> k - x * 10000 <= 0.5 ->
  x - 0.00005 <= k / 10000 /\ k / 10000 <= x + 0.00005.
Proof.
  intros Hlo Hhi.
  assert (E : k / 10000 == k * (1 # 10000)) by (unfold Qdiv; reflexivity).
  rewrite E. split; lra.
Qed.

(** [round(x, 4)] is a multiple of 1/10000 and differs from [x] by at most
    0.00005. *)
Lemma round4_error (x : Q) :
  x - 0.00005 <= round4 x
  /\ round4 x <= x + 0.00005
  /\ exists n : Z, round4 x = inject_Z n / 10000.
Proof.
  unfold round4.
  set (y := x * 10000). set (n := Qfloor y).
  pose proof (Qfloor_le y) as Hlo. pose proof (Qlt_floor y) as Hhi.
  fold n in Hlo, Hhi. rewrite inject_Z_plus in Hhi.
  change (inject_Z 1) with 1 in Hhi.
  assert (Hdown : x - 0.00005 <= inject_Z n / 10000
                  /\ inject_Z n / 10000 <= x + 0.00005
                  \/ 0.5 < y - inject_Z n) by
    (destruct (Qlt_le_dec 0.5 (y - inject_Z n));
     [now right | left; apply near_integer; fold y; lra]).
  assert (Hup : y - inject_Z n < 0.5
                \/ x - 0.00005 <= inject_Z (n + 1) / 10000
                   /\ inject_Z (n + 1) / 10000 <= x + 0.00005) by
    (destruct (Qlt_le_dec (y - inject_Z n) 0.5);
     [now left
     | right; rewrite inject_Z_plus; change (inject_Z 1) with 1;
       apply near_integer; fold y; lra]).
  destruct (Qlt_bool (y - inject_Z n) 0.5) eqn:E1.
  - apply Qlt_bool_iff in E1.
    destruct Hdown as [[H1 H2] | H]; [|lra].
    split; [exact H1|]. split; [exact H2 | now exists n].
  - apply Qlt_bool_false_iff in E1.
    destruct (Qlt_bool 0.5 (y - inject_Z n)) eqn:E2.
    + apply Qlt_bool_iff in E2.
      destruct Hup as [H | [H1 H2]]; [lra|].
      split; [exact H1|]. split; [exact H2 | now exists (n + 1)%Z].
    + apply Qlt_bool_false_iff in E2.
      destruct (Z.odd n).
      * destruct Hup as [H | [H1 H2]]; [lra|].
        split; [exact H1|]. split; [exact H2 | now exists (n + 1)%Z].
      * destruct Hdown as [[H1 H2] | H]; [|lra].
        split; [exact H1|]. split; [exact H2 | now exists n].
Qed.

(** ** Inputs that the engine turns away *)

(** X6. A flow without a source address, or with the address [unknown] or
    [0.0.0.0], is rejected by [execute_mitigation] with the result [error]:
    the engine is unchanged and nothing is sent to the controller,
    whatever the verdict. *)
Theorem invalid_source_rejected
    (self : MitigationEngine.t) (det : Detection.t)
    (flow_info : Dict.t string) (w : World)
    (Hsrc : Dict.get flow_info "src_ip" = None
            \/ Dict.get flow_info "src_ip" = Some "unknown"
            \/ Dict.get flow_info "src_ip" = Some "0.0.0.0") :
  exists w',
    MitigationEngine.execute_mitigation self det flow_info w
    = (Ok (MitigationEngine.Error "Invalid IP", self), w')
    /\ MitigationEngine.status (MitigationEngine.Error "Invalid IP") = "error"
    /\ requests w' = requests w.
Proof.
  assert (Hbody : MitigationEngine.execute_mitigation_body self det flow_info
                    (snd (time_time w))
                  = (Ok (MitigationEngine.Error "Invalid IP", self),
                     snd (time_time w))).
  { unfold MitigationEngine.execute_mitigation_body.
    destruct Hsrc as [H | [H | H]]; rewrite H; reflexivity. }
  apply MitigationFacts.execute_mitigation_run in Hbody.
  destruct Hbody as (w' & Hrun & Hreq & _).
  exists w'. repeat split; auto.
Qed.

(** X6 for a flow that carries no source address. *)
Lemma invalid_source_rejected_witness :
  exists w',
    MitigationEngine.execute_mitigation MitigationEngine.new_engine
      ddos_verdict [("dst_ip", "10.0.0.9")] world0
    = (Ok (MitigationEngine.Error "Invalid IP", MitigationEngine.new_engine),
       w')
    /\ MitigationEngine.status (MitigationEngine.Error "Invalid IP") = "error"
    /\ requests w' = requests world0.
Proof.
  apply (@invalid_source_rejected MitigationEngine.new_engine ddos_verdict
           [("dst_ip", "10.0.0.9")] world0).
  left. reflexivity.
Defined.

(** X7. The empty source address passes the test of [execute_mitigation]
    but is refused by [block_ip]: for a verdict [ddos] at or above the
    threshold the result is [block_failed], although no request was made;
    the engine is unchanged. *)
Theorem empty_source_block_failed
    (self : MitigationEngine.t) (det : Detection.t)
    (flow_info : Dict.t string) (p : string) (c : Q) (w : World)
    (Hsrc : Dict.get flow_info "src_ip" = Some "")
    (Hunseen : Dict.get (MitigationEngine.blocked_ips self) "" = None)
    (Hpred : Detection.prediction det = Some p)
    (Hddos : lower p = "ddos")
    (Hconf : Detection.confidence det = Some c)
    (Hthr : MitigationEngine.ddos_threshold (MitigationEngine.config self)
            <= c) :
  exists w',
    MitigationEngine.execute_mitigation self det flow_info w
    = (Ok (MitigationEngine.BlockFailed "", self), w')
    /\ requests w' = requests w.
Proof.
  assert (Hbody : MitigationEngine.execute_mitigation_body self det flow_info
                    (snd (time_time w))
                  = (Ok (MitigationEngine.BlockFailed "", self),
                     snd (time_time w))).
  { unfold MitigationEngine.execute_mitigation_body. rewrite Hsrc.
    cbn [String.eqb orb]. unfold bind at 1.
    rewrite (EngineFacts.is_ip_blocked_unseen _ _ _ Hunseen).
    rewrite Hpred, Hddos, Hconf. cbn [String.eqb Ascii.eqb Bool.eqb andb].
    apply Qge_bool_iff in Hthr. rewrite Hthr. reflexivity. }
  apply MitigationFacts.execute_mitigation_run in Hbody.
  destruct Hbody as (w' & Hrun & Hreq & _).
  exists w'. split; auto.
Qed.

(** X7 on a fresh engine. *)
Lemma empty_source_block_failed_witness :
  exists w',
    MitigationEngine.execute_mitigation MitigationEngine.new_engine
      ddos_verdict (flow_of "") world0
    = (Ok (MitigationEngine.BlockFailed "", MitigationEngine.new_engine), w')
    /\ requests w' = requests world0.
Proof.
  apply (@empty_source_block_failed MitigationEngine.new_engine ddos_verdict
           (flow_of "") "ddos" 0.9 world0); try reflexivity.
  vm_compute. discriminate.
Defined.

(** X8. For a usable source without a record, a verdict that is not
    [ddos], or whose confidence is below the threshold, gives the result
    [normal]: the engine is unchanged and nothing is sent to the
    controller. In particular the verdict [unknown] of a failed detection
    never blocks anybody. *)
Theorem non_threat_is_normal
    (self : MitigationEngine.t) (det : Detection.t)
    (flow_info : Dict.t string) (ip : string) (w : World)
    (Hsrc : Dict.get flow_info "src_ip" = Some ip)
    (Hunknown : ip <> "unknown")
    (Hzero : ip <> "0.0.0.0")
    (Hunseen : Dict.get (MitigationEngine.blocked_ips self) ip = None)
    (Hcalm : lower (match Detection.prediction det with
                    | Some p => p
                    | None => ""
                    end) <> "ddos"
             \/ match Detection.confidence det with
                | Some c => c
                | None => 0.0
                end
                < MitigationEngine.ddos_threshold
                    (MitigationEngine.config self)) :
  exists w',
    MitigationEngine.execute_mitigation self det flow_info w
    = (Ok (MitigationEngine.Normal ip
             match Detection.confidence det with
             | Some c => c
             | None => 0.0
             end, self), w')
    /\ requests w' = requests w.
Proof.
  assert (Hbody : MitigationEngine.execute_mitigation_body self det flow_info
                    (snd (time_time w))
                  = (Ok (MitigationEngine.Normal ip
                           match Detection.confidence det with
                           | Some c => c
                           | None => 0.0
                           end, self),
                     snd (time_time w))).
  { unfold MitigationEngine.execute_mitigation_body. rewrite Hsrc.
    apply String.eqb_neq in Hunknown, Hzero. rewrite Hunknown, Hzero.
    cbn [orb]. unfold bind at 1.
    rewrite (EngineFacts.is_ip_blocked_unseen _ _ _ Hunseen).
    cbv beta iota.
    destruct Hcalm as [H | H].
    - apply String.eqb_neq in H. rewrite H. reflexivity.
    - apply Qlt_bool_iff in H. unfold Qlt_bool in H.
      apply negb_true_iff in H. unfold Qge_bool. rewrite H.
      rewrite andb_false_r. reflexivity. }
  apply MitigationFacts.execute_mitigation_run in Hbody.
  destruct Hbody as (w' & Hrun & Hreq & _).
  exists w'. split; auto.
Qed.

(** X8 for the verdict of a failed detection. *)
Lemma non_threat_is_normal_witness :
  exists w',
    MitigationEngine.execute_mitigation MitigationEngine.new_engine
      (unknown_verdict OtherError) (flow_of "10.0.0.5") world0
    = (Ok (MitigationEngine.Normal "10.0.0.5" 0.0,
           MitigationEngine.new_engine), w')
    /\ requests w' = requests world0.
Proof.
  apply (@non_threat_is_normal MitigationEngine.new_engine
           (unknown_verdict OtherError) (flow_of "10.0.0.5") "10.0.0.5"
           world0); try reflexivity; try discriminate.
  left. discriminate.
Defined.

(** ** Blocking and unblocking *)

Lemma remove_set_fresh {V} (d : Dict.t V) (k : string) (v : V) :
  ~ In k (Dict.keys d) -> Dict.remove (Dict.set d k v) k = d.
Proof.
  intros Hfresh. rewrite (@CacheFacts.set_fresh V d k v Hfresh).
  unfold Dict.remove. rewrite filter_app. simpl.
  rewrite String.eqb_refl. simpl. rewrite app_nil_r.
  clear v. induction d as [|[k' v'] d IH]; simpl; [reflexivity|].
  simpl in Hfresh. destruct (String.eqb k' k) eqn:E.
  - apply String.eqb_eq in E. tauto.
  - simpl. f_equal. apply IH. tauto.
Qed.

(** X9. Block, then unblock. For a usable address without a record and a
    controller that accepts both requests, [block_ip] followed by
    [unblock_ip] both return [True], send one block and one unblock
    request, and give back the engine exactly as it was. *)
Theorem block_then_unblock
    (self : MitigationEngine.t) (ip reason : string) (c : Q) (w : World)
    (Hempty : ip <> "") (Hzero : ip <> "0.0.0.0") (Hunknown : ip <> "unknown")
    (Hunseen : Dict.get (MitigationEngine.blocked_ips self) ip = None)
    (Hblock : SDNController.status_ok
                (ryu w (List.length (requests w)) (PostBlock ip)) = true)
    (Hunblock : SDNController.status_ok
                  (ryu w (S (List.length (requests w))) (PostUnblock ip))
                = true) :
  exists self1 w1 w2,
    MitigationEngine.block_ip self ip reason c w = (Ok (true, self1), w1)
    /\ Dict.mem (MitigationEngine.blocked_ips self1) ip = true
    /\ MitigationEngine.unblock_ip self1 ip w1 = (Ok (true, self), w2)
    /\ requests w2 = requests w ++ [PostBlock ip; PostUnblock ip].
Proof.
  pose proof (EngineFacts.block_ip_run self reason c w Hempty Hzero Hunknown)
    as Hrun1.
  rewrite Hblock in Hrun1.
  match type of Hrun1 with
  | _ = (Ok (true, ?s1), ?w') => set (self1 := s1) in *; set (w1 := w') in *
  end.
  assert (Hget : exists d, Dict.get (MitigationEngine.blocked_ips self1) ip
                           = Some d)
    by (eexists; apply DictFacts.get_set_same).
  destruct Hget as (d & Hget).
  pose proof (EngineFacts.unblock_ip_seen self1 ip w1 Hget) as Hrun2.
  assert (Hreq : requests w1 = requests w ++ [PostBlock ip]) by reflexivity.
  assert (Hryu : ryu w1 = ryu w) by reflexivity.
  rewrite Hryu, Hreq, length_app, Nat.add_comm in Hrun2. simpl plus in Hrun2.
  rewrite Hunblock in Hrun2.
  assert (Hback : MitigationEngine.with_blocked_ips self1
                    (Dict.remove (MitigationEngine.blocked_ips self1) ip)
                  = self).
  { unfold self1. cbn [MitigationEngine.with_blocked_ips
                         MitigationEngine.blocked_ips
                         MitigationEngine.mitigation_history
                         MitigationEngine.config].
    rewrite remove_set_fresh.
    - destruct self; reflexivity.
    - intros Hin. apply DictFacts.get_in_keys in Hin. congruence. }
  rewrite Hback in Hrun2.
  exists self1, w1. eexists.
  split; [exact Hrun1|]. split.
  - unfold Dict.mem. now rewrite Hget.
  - split; [exact Hrun2|]. cbn [requests_post snd requests].
    rewrite Hreq, <- app_assoc. reflexivity.
Qed.

(** X9 on a fresh engine. *)
Lemma block_then_unblock_witness :
  exists self1 w1 w2,
    MitigationEngine.block_ip MitigationEngine.new_engine "10.0.0.5"
      "manual" 0.8 world0 = (Ok (true, self1), w1)
    /\ Dict.mem (MitigationEngine.blocked_ips self1) "10.0.0.5" = true
    /\ MitigationEngine.unblock_ip self1 "10.0.0.5" w1
       = (Ok (true, MitigationEngine.new_engine), w2)
    /\ requests w2
       = requests world0 ++ [PostBlock "10.0.0.5"; PostUnblock "10.0.0.5"].
Proof.
  apply (@block_then_unblock MitigationEngine.new_engine "10.0.0.5" "manual"
           0.8 world0); try discriminate; reflexivity.
Defined.

(** ** What the sweep sends and what it leaves *)

Module SweepMore.
Import MitigationEngine.

Lemma remove_absent {V} (d : Dict.t V) (k : string) :
  Dict.get d k = None -> Dict.remove d k = d.
Proof.
  induction d as [|[k' v'] d IH]; simpl; [reflexivity|].
  destruct (String.eqb k' k) eqn:E; [discriminate|].
  intros H. simpl. f_equal. auto.
Qed.

Lemma filter_filter {A} (f g : A -> bool) (l : list A) :
  filter f (filter g l) = filter (fun x => andb (g x) (f x)) l.
Proof.
  induction l as [|a l IH]; simpl; [reflexivity|].
  destruct (g a); simpl; [destruct (f a)|]; now rewrite IH.
Qed.

(** One request for each listed address that has a record when its turn
    comes. *)
Lemma unblock_all_requests (expired : list string) :
  forall (self : t) (w : World),
    NoDup expired ->
    (forall ip, In ip expired -> Dict.get (blocked_ips self) ip <> None) ->
    exists self' w',
      unblock_all self expired w = (Ok self', w')
      /\ requests w' = requests w ++ map PostUnblock expired.
Proof.
  induction expired as [|ip0 rest IH]; intros self w Hnd Hall.
  - exists self, w. simpl. now rewrite app_nil_r.
  - inversion Hnd as [|? ? Hnotin Hnd']; subst.
    destruct (Dict.get (blocked_ips self) ip0) as [d|] eqn:Hget.
    2:{ exfalso. apply (Hall ip0); [now left | exact Hget]. }
    cbn [unblock_all]. unfold bind at 1.
    rewrite (EngineFacts.unblock_ip_seen _ _ _ Hget).
    set (w1 := snd (requests_post (PostUnblock ip0) w)).
    assert (Hreq : requests w1 = requests w ++ [PostUnblock ip0])
      by reflexivity.
    destruct (SDNController.status_ok _).
    + destruct (IH (with_blocked_ips self
                      (Dict.remove (blocked_ips self) ip0)) w1 Hnd')
        as (self' & w' & Hrun & Hreq').
      { intros ip Hin. cbn [with_blocked_ips blocked_ips].
        rewrite DictFacts.get_remove_other.
        - apply Hall. now right.
        - intros ->. contradiction. }
      exists self', w'. split; [exact Hrun|].
      rewrite Hreq', Hreq, <- app_assoc. reflexivity.
    + destruct (IH self w1 Hnd') as (self' & w' & Hrun & Hreq').
      { intros ip Hin. apply Hall. now right. }
      exists self', w'. split; [exact Hrun|].
      rewrite Hreq', Hreq, <- app_assoc. reflexivity.
Qed.

(** With a controller that accepts every unblock, the records of the
    listed addresses are removed and the others stay, in order. *)
Lemma unblock_all_accepting (expired : list string) :
  forall (self : t) (w : World),
    (forall n ip, SDNController.status_ok (ryu w n (PostUnblock ip)) = true) ->
    exists self' w',
      unblock_all self expired w = (Ok self', w')
      /\ blocked_ips self'
         = filter (fun kv => negb (existsb (String.eqb (fst kv)) expired))
             (blocked_ips self).
Proof.
  induction expired as [|ip0 rest IH]; intros self w Hok.
  - exists self, w. split; [reflexivity|]. simpl.
    induction (blocked_ips self) as [|a l IHl]; simpl; congruence.
  - cbn [unblock_all]. unfold bind at 1.
    assert (Hstep : exists w1,
               unblock_ip self ip0 w
               = (Ok (Dict.mem (blocked_ips self) ip0,
                      with_blocked_ips self
                        (Dict.remove (blocked_ips self) ip0)), w1)
               /\ ryu w1 = ryu w).
    { destruct (Dict.get (blocked_ips self) ip0) as [d|] eqn:Hget.
      - rewrite (EngineFacts.unblock_ip_seen _ _ _ Hget), Hok.
        unfold Dict.mem. rewrite Hget. eexists. split; reflexivity.
      - rewrite (EngineFacts.unblock_ip_unseen _ _ _ Hget).
        unfold Dict.mem. rewrite Hget, (remove_absent _ _ Hget).
        exists w. split; [|reflexivity]. destruct self; reflexivity. }
    destruct Hstep as (w1 & Hstep & Hryu). rewrite Hstep.
    destruct (IH (with_blocked_ips self (Dict.remove (blocked_ips self) ip0))
                w1) as (self' & w' & Hrun & Hb).
    { intros n ip. rewrite Hryu. apply Hok. }
    exists self', w'. split; [exact Hrun|].
    rewrite Hb. cbn [with_blocked_ips blocked_ips]. unfold Dict.remove.
    rewrite filter_filter. apply filter_ext. intros kv. simpl.
    destruct (String.eqb (fst kv) ip0); reflexivity.
Qed.

(** With a controller that refuses every unblock, nothing changes. *)
Lemma unblock_all_refusing (expired : list string) :
  forall (self : t) (w : World),
    (forall n ip, SDNController.status_ok (ryu w n (PostUnblock ip)) = false)
    ->
    exists w', unblock_all self expired w = (Ok self, w').
Proof.
  induction expired as [|ip0 rest IH]; intros self w Hno.
  - now exists w.
  - cbn [unblock_all]. unfold bind at 1.
    destruct (Dict.get (blocked_ips self) ip0) as [d|] eqn:Hget.
    + rewrite (EngineFacts.unblock_ip_seen _ _ _ Hget), Hno.
      apply IH. intros n ip. apply Hno.
    + rewrite (EngineFacts.unblock_ip_unseen _ _ _ Hget). now apply IH.
Qed.

Lemma expired_at_NoDup (self : t) (now : Q) :
  NoDup (Dict.keys (blocked_ips self)) -> NoDup (expired_at self now).
Proof.
  unfold expired_at, Dict.items, Dict.keys.
  induction (blocked_ips self) as [|[k v] d IH]; simpl; [constructor|].
  intros Hnd. inversion Hnd as [|? ? Hnotin Hnd']; subst.
  destruct (is_expired self now v); simpl; auto.
  constructor; auto. intros Hin. apply Hnotin.
  apply in_map_iff in Hin. destruct Hin as (kv & Hk & Hin).
  apply filter_In in Hin. apply in_map_iff. exists kv. tauto.
Qed.

Lemma expired_at_recorded (self : t) (now : Q) (ip : string) :
  In ip (expired_at self now) -> Dict.get (blocked_ips self) ip <> None.
Proof.
  unfold expired_at, Dict.items. intros Hin.
  apply in_map_iff in Hin. destruct Hin as ([k v] & Hk & Hin).
  simpl in Hk. subst k. apply filter_In in Hin.
  apply DictFacts.get_in_keys. unfold Dict.keys.
  apply in_map_iff. exists (ip, v). tauto.
Qed.

End SweepMore.

(** X10. Whatever the controller answers, the sweep sends it exactly one
    unblock request for each record older than [block_duration], in the
    order of the registry, and nothing else; a sweep that finds no expired
    record sends nothing. *)
Theorem sweep_requests (self : MitigationEngine.t) (w : World)
    (Hkeys : NoDup (Dict.keys (MitigationEngine.blocked_ips self))) :
  exists self' w',
    MitigationEngine._cleanup_expired_blocks self w = (Ok self', w')
    /\ requests w'
       = requests w ++ map PostUnblock (expired_at self (clock w (ticks w))).
Proof.
  destruct (SweepFacts.cleanup_run self w)
    as (self1 & self' & w' & Hrun & Hloop & _).
  destruct (@SweepMore.unblock_all_requests
              (expired_at self (clock w (ticks w))) self (snd (time_time w)))
    as (self2 & w2 & Hloop2 & Hreq).
  { now apply SweepMore.expired_at_NoDup. }
  { apply SweepMore.expired_at_recorded. }
  unfold expired_at in Hloop2 at 1. rewrite Hloop in Hloop2.
  injection Hloop2 as _ <-.
  exists self', w'. split; [exact Hrun | exact Hreq].
Qed.

(** X10 on the engine with one record, swept at time 4000. *)
Lemma sweep_requests_witness :
  exists self' w',
    MitigationEngine._cleanup_expired_blocks engine_one_block (world_at 4000)
    = (Ok self', w')
    /\ requests w'
       = requests (world_at 4000)
           ++ map PostUnblock
                (expired_at engine_one_block
                   (clock (world_at 4000) (ticks (world_at 4000)))).
Proof.
  apply (@sweep_requests engine_one_block (world_at 4000)).
  repeat constructor. intros [].
Defined.

(** X11. With a controller that accepts every unblock, the sweep leaves
    exactly the records that are not older than [block_duration], in their
    order. *)
Theorem sweep_result_accepting (self : MitigationEngine.t) (w : World)
    (Hkeys : NoDup (Dict.keys (MitigationEngine.blocked_ips self)))
    (Haccept : forall n ip,
        SDNController.status_ok (ryu w n (PostUnblock ip)) = true) :
  exists self' w',
    MitigationEngine._cleanup_expired_blocks self w = (Ok self', w')
    /\ MitigationEngine.blocked_ips self'
       = filter (fun kv => negb (MitigationEngine.is_expired self
                                   (clock w (ticks w)) (snd kv)))
           (MitigationEngine.blocked_ips self).
Proof.
  destruct (SweepFacts.cleanup_run self w)
    as (self1 & self' & w' & Hrun & Hloop & Hb & _).
  destruct (@SweepMore.unblock_all_accepting
              (expired_at self (clock w (ticks w))) self (snd (time_time w)))
    as (self2 & w2 & Hloop2 & Hres).
  { intros n ip. apply Haccept. }
  unfold expired_at in Hloop2 at 1. rewrite Hloop in Hloop2.
  injection Hloop2 as <- _.
  exists self', w'. split; [exact Hrun|]. rewrite Hb, Hres.
  apply filter_ext_in. intros [k v] Hin. simpl. f_equal.
  destruct (MitigationEngine.is_expired self (clock w (ticks w)) v) eqn:E.
  - apply existsb_exists. exists k. split; [|apply String.eqb_refl].
    unfold expired_at. apply in_map_iff. exists (k, v). split; [reflexivity|].
    apply filter_In. split; [exact Hin | exact E].
  - apply not_true_iff_false. intros H.
    apply existsb_exists in H. destruct H as (ip & Hip & Heq).
    apply String.eqb_eq in Heq. subst ip.
    unfold expired_at in Hip. apply in_map_iff in Hip.
    destruct Hip as ([k' v'] & Hk & Hin'). simpl in Hk. subst k'.
    apply filter_In in Hin'. destruct Hin' as [Hin' E'].
    unfold Dict.items in Hin'.
    apply SweepFacts.In_get in Hin; [|exact Hkeys].
    apply SweepFacts.In_get in Hin'; [|exact Hkeys].
    simpl in E'. congruence.
Qed.

(** X11 on the engine with one record, swept at time 4000. *)
Lemma sweep_result_accepting_witness :
  exists self' w',
    MitigationEngine._cleanup_expired_blocks engine_one_block (world_at 4000)
    = (Ok self', w')
    /\ MitigationEngine.blocked_ips self'
       = filter (fun kv => negb (MitigationEngine.is_expired engine_one_block
                                   (clock (world_at 4000)
                                      (ticks (world_at 4000))) (snd kv)))
           (MitigationEngine.blocked_ips engine_one_block).
Proof.
  apply (@sweep_result_accepting engine_one_block (world_at 4000)).
  - repeat constructor. intros [].
  - intros n ip. reflexivity.
Defined.

(** X12. With a controller that refuses every unblock, the sweep removes
    nothing: every record, expired or not, is still there for the next
    sweep. *)
Theorem sweep_result_refusing (self : MitigationEngine.t) (w : World)
    (Hrefuse : forall n ip,
        SDNController.status_ok (ryu w n (PostUnblock ip)) = false) :
  exists self' w',
    MitigationEngine._cleanup_expired_blocks self w = (Ok self', w')
    /\ MitigationEngine.blocked_ips self' = MitigationEngine.blocked_ips self.
Proof.
  destruct (SweepFacts.cleanup_run self w)
    as (self1 & self' & w' & Hrun & Hloop & Hb & _).
  destruct (@SweepMore.unblock_all_refusing
              (expired_at self (clock w (ticks w))) self (snd (time_time w)))
    as (w2 & Hloop2).
  { intros n ip. apply Hrefuse. }
  unfold expired_at in Hloop2. rewrite Hloop in Hloop2.
  injection Hloop2 as -> _.
  exists self', w'. split; [exact Hrun | exact Hb].
Qed.

(** X12 on the engine with one record, swept at time 4000 while the
    controller is down. *)
Lemma sweep_result_refusing_witness :
  exists self' w',
    MitigationEngine._cleanup_expired_blocks engine_one_block
      (world_down_at 4000) = (Ok self', w')
    /\ MitigationEngine.blocked_ips self'
       = MitigationEngine.blocked_ips engine_one_block.
Proof.
  apply (@sweep_result_refusing engine_one_block (world_down_at 4000)).
  intros n ip. reflexivity.
Defined.

(** ** Reading the history *)

(** X13. [get_mitigation_history(limit)] returns a tail of the history:
    its [limit] most recent entries for a positive [limit] (all of them if
    there are fewer). A [limit] of 0 returns the whole history, not an
    empty list, and a negative [limit] drops that many of the oldest
    entries. *)
Theorem history_limit (self : MitigationEngine.t) (limit : Z) :
  let h := MitigationEngine.get_mitigation_history self limit in
  let all := MitigationEngine.mitigation_history self in
  (exists older, all = older ++ h)
  /\ ((0 < limit)%Z ->
      Z.of_nat (List.length h) = Z.min limit (Z.of_nat (List.length all)))
  /\ (limit = 0%Z -> h = all)
  /\ ((limit < 0)%Z -> h = skipn (Z.to_nat (- limit)) all).
Proof.
  intros h all. subst h. unfold MitigationEngine.get_mitigation_history.
  fold all. split; [apply SweepFacts.slice_from_suffix|].
  unfold slice_from. split; [|split].
  - intros Hpos. destruct (0 <=? - limit)%Z eqn:E.
    + apply Z.leb_le in E. lia.
    + rewrite length_skipn. lia.
  - intros ->. reflexivity.
  - intros Hneg. destruct (0 <=? - limit)%Z eqn:E; [reflexivity|].
    apply Z.leb_gt in E. lia.
Qed.

(** ** Repeated observations of a blocked source *)

(** X14. Every further [execute_mitigation] for a blocked source, whatever
    the verdict, returns [already_blocked] with a counter one higher than
    the call before: after [n] calls the record counts [n] more packets.
    None of them sends a request or touches the history, and the time of
    the block is kept. *)
Theorem repeated_observations (calls : list (Detection.t * Dict.t string)) :
  forall (self : MitigationEngine.t) (ip : string)
         (d : MitigationEngine.Block.t) (w : World)
         (Hunknown : ip <> "unknown") (Hzero : ip <> "0.0.0.0")
         (Hrecord : Dict.get (MitigationEngine.blocked_ips self) ip = Some d)
         (Hsame : forall c, In c calls ->
                            Dict.get (snd c) "src_ip" = Some ip),
  exists results self' w' d',
    execute_all self calls w = (Ok (results, self'), w')
    /\ results
       = map (fun i => MitigationEngine.AlreadyBlocked ip
                         (MitigationEngine.Block.timestamp d)
                         (MitigationEngine.Block.packets_blocked d
                          + Z.of_nat i))
           (seq 1 (List.length calls))
    /\ Dict.get (MitigationEngine.blocked_ips self') ip = Some d'
    /\ MitigationEngine.Block.packets_blocked d'
       = (MitigationEngine.Block.packets_blocked d
          + Z.of_nat (List.length calls))%Z
    /\ MitigationEngine.Block.timestamp d' = MitigationEngine.Block.timestamp d
    /\ MitigationEngine.mitigation_history self'
       = MitigationEngine.mitigation_history self
    /\ requests w' = requests w.
Proof.
  induction calls as [|[det flow_info] rest IH];
    intros self ip d w Hunknown Hzero Hrecord Hsame.
  - exists [], self, w, d. simpl. repeat split; auto. lia.
  - assert (Hsrc : Dict.get flow_info "src_ip" = Some ip)
      by (apply (Hsame (det, flow_info)); now left).
    pose proof (@MitigationFacts.body_already_blocked self det flow_info ip d
                  (snd (time_time w)) Hsrc Hunknown Hzero Hrecord) as Hbody.
    apply MitigationFacts.execute_mitigation_run in Hbody.
    destruct Hbody as (w1 & Hrun & Hreq & _).
    match type of Hrun with
    | _ = (Ok (_, ?s1), _) => set (self1 := s1) in *
    end.
    set (d1 := {| MitigationEngine.Block.timestamp :=
                    MitigationEngine.Block.timestamp d;
                  MitigationEngine.Block.confidence :=
                    MitigationEngine.Block.confidence d;
                  MitigationEngine.Block.packets_blocked :=
                    (MitigationEngine.Block.packets_blocked d + 1)%Z;
                  MitigationEngine.Block.reason :=
                    MitigationEngine.Block.reason d;
                  MitigationEngine.Block.last_seen :=
                    clock (snd (time_time w)) (ticks (snd (time_time w))) |})
      in *.
    assert (Hrecord1 : Dict.get (MitigationEngine.blocked_ips self1) ip
                       = Some d1) by apply DictFacts.get_set_same.
    destruct (IH self1 ip d1 w1 Hunknown Hzero Hrecord1)
      as (results & self' & w' & d' & Hrest & Hres & Hget & Hcount & Htime
          & Hhist & Hreq').
    { intros c Hc. apply Hsame. now right. }
    exists (MitigationEngine.AlreadyBlocked ip
              (MitigationEngine.Block.timestamp d)
              (MitigationEngine.Block.packets_blocked d + 1) :: results),
           self', w', d'.
    split.
    { cbn [execute_all]. unfold bind at 1. rewrite Hrun.
      unfold bind at 1. rewrite Hrest. reflexivity. }
    split.
    { cbn [List.length seq map]. f_equal. rewrite Hres.
      rewrite <- (seq_shift (List.length rest) 1), map_map.
      apply map_ext. intros i.
      cbn [MitigationEngine.Block.timestamp
             MitigationEngine.Block.packets_blocked d1].
      f_equal. lia. }
    split; [exact Hget|]. split.
    { rewrite Hcount. cbn [MitigationEngine.Block.packets_blocked d1
                             List.length]. lia. }
    split; [exact Htime|]. split; [exact Hhist|].
    rewrite Hreq', Hreq. reflexivity.
Qed.

(** X14 for three observations of the one blocked source. *)
Lemma repeated_observations_witness :
  exists results self' w' d',
    execute_all engine_one_block
      [(ddos_verdict, flow_of "10.0.0.5");
       (unknown_verdict OtherError, flow_of "10.0.0.5");
       (ddos_verdict, flow_of "10.0.0.5")] world0
    = (Ok (results, self'), w')
    /\ results
       = map (fun i => MitigationEngine.AlreadyBlocked "10.0.0.5" 0
                         (0 + Z.of_nat i)) (seq 1 3)
    /\ Dict.get (MitigationEngine.blocked_ips self') "10.0.0.5" = Some d'
    /\ MitigationEngine.Block.packets_blocked d' = (0 + Z.of_nat 3)%Z
    /\ MitigationEngine.Block.timestamp d' = 0
    /\ MitigationEngine.mitigation_history self'
       = MitigationEngine.mitigation_history engine_one_block
    /\ requests w' = requests world0.
Proof.
  refine (@repeated_observations
            [(ddos_verdict, flow_of "10.0.0.5");
             (unknown_verdict OtherError, flow_of "10.0.0.5");
             (ddos_verdict, flow_of "10.0.0.5")]
            engine_one_block "10.0.0.5"
            {| MitigationEngine.Block.timestamp := 0;
               MitigationEngine.Block.confidence := 0.9;
               MitigationEngine.Block.packets_blocked := 0;
               MitigationEngine.Block.reason := "DDoS detected";
               MitigationEngine.Block.last_seen := 0 |}
            world0 _ _ _ _).
  - discriminate.
  - discriminate.
  - reflexivity.
  - intros c [<- | [<- | [<- | []]]]; reflexivity.
Defined.

(** ** Reading the cache *)

Module GetFacts.

Section OneCache.
Context {V : Type}.
Variables (c : PerformanceCache V) (key : string).

(** [set] stores the value under the key, with the time of the call. *)
Lemma set_stores (value : V) (w : World) :
  cache_inv c ->
  exists c1,
    set c key value w = (Ok c1, snd (time_time w))
    /\ cache_inv c1
    /\ Dict.get (cache c1) key = Some value
    /\ Dict.get (access_times c1) key = Some (clock w (ticks w))
    /\ ttl c1 = ttl c.
Proof.
  intros Hinv.
  destruct (SetFacts.set_inv key value w Hinv)
    as (c1 & w1 & Hrun & Hinv1 & _ & ->).
  exists c1. split; [exact Hrun|]. split; [exact Hinv1|].
  destruct Hinv as (Hkeys & Hlen & Hcap).
  destruct (Z_lt_le_dec (Z.of_nat (Dict.len (cache c))) (max_size c))
    as [Hbelow | Hfull].
  - rewrite (SetFacts.set_below_capacity c key value w Hbelow) in Hrun.
    injection Hrun as <-. cbn [with_cache cache access_times ttl].
    rewrite !DictFacts.get_set_same. auto.
  - destruct (@SetFacts.set_at_capacity V c key value w Hkeys Hfull)
      as (e & q & _ & _ & _ & Hrun').
    { intros E. rewrite E in Hfull. simpl in Hfull. lia. }
    rewrite Hrun' in Hrun. injection Hrun as <-.
    cbn [with_cache cache access_times ttl].
    rewrite !DictFacts.get_set_same. auto.
Qed.

(** A [get] within the time to live returns the value and changes
    nothing. *)
Lemma get_fresh (value : V) (stored : Q) (w : World) :
  Dict.get (cache c) key = Some value ->
  Dict.get (access_times c) key = Some stored ->
  clock w (ticks w) - stored < ttl c ->
  get c key w = (Ok (Some value, c), snd (time_time w)).
Proof.
  intros Hc Ha Hfresh. unfold get, bind, lift, Dict.item.
  rewrite Hc, Ha. cbn [time_time].
  apply Qlt_bool_iff in Hfresh. now rewrite Hfresh.
Qed.

(** A [get] at or after the time to live removes the entry and misses. *)
Lemma get_expired (value : V) (stored : Q) (w : World) :
  Dict.get (cache c) key = Some value ->
  Dict.get (access_times c) key = Some stored ->
  ttl c <= clock w (ticks w) - stored ->
  get c key w
  = (Ok (None, with_cache c (Dict.remove (cache c) key)
                 (Dict.remove (access_times c) key)),
     snd (time_time w)).
Proof.
  intros Hc Ha Hold. unfold get, bind, lift, Dict.item, Dict.del, Dict.mem.
  rewrite Hc, Ha. cbn [time_time].
  apply Qlt_bool_false_iff in Hold. now rewrite Hold.
Qed.

Lemma remove_inv :
  cache_inv c ->
  cache_inv (with_cache c (Dict.remove (cache c) key)
               (Dict.remove (access_times c) key)).
Proof.
  intros (Hkeys & Hlen & Hcap). unfold cache_inv.
  cbn [with_cache cache access_times max_size].
  split; [now rewrite !DictFacts.keys_remove, Hkeys|].
  split; [|exact Hcap].
  unfold Dict.len, Dict.remove in *.
  pose proof (filter_length_le
                (fun kv : string * V => negb (String.eqb (fst kv) key))
                (cache c)).
  lia.
Qed.

End OneCache.

End GetFacts.

(** X15. Store, then read. On a consistent cache [set] succeeds, and a
    later [get] of the same key returns the stored value, leaving the cache
    as it is, as long as less than [ttl] has passed since the [set]; from
    [ttl] on it misses and removes the entry from both dicts. *)
Theorem get_after_set {V : Type}
    (c : PerformanceCache V) (key : string) (value : V) (w later : World)
    (Hinv : cache_inv c) :
  exists c1,
    set c key value w = (Ok c1, snd (time_time w))
    /\ (clock later (ticks later) - clock w (ticks w) < ttl c ->
        get c1 key later = (Ok (Some value, c1), snd (time_time later)))
    /\ (ttl c <= clock later (ticks later) - clock w (ticks w) ->
        exists c2,
          get c1 key later = (Ok (None, c2), snd (time_time later))
          /\ Dict.get (cache c2) key = None
          /\ Dict.get (access_times c2) key = None
          /\ cache_inv c2).
Proof.
  destruct (@GetFacts.set_stores V c key value w Hinv)
    as (c1 & Hset & Hinv1 & Hc & Ha & Httl).
  exists c1. split; [exact Hset|]. split.
  - intros Hfresh.
    apply (@GetFacts.get_fresh V c1 key value (clock w (ticks w)) later Hc Ha).
    now rewrite Httl.
  - intros Hold. eexists. split.
    + apply (@GetFacts.get_expired V c1 key value (clock w (ticks w)) later
               Hc Ha).
      now rewrite Httl.
    + cbn [with_cache cache access_times].
      rewrite !DictFacts.get_remove_same.
      split; [reflexivity|]. split; [reflexivity|].
      now apply (@GetFacts.remove_inv V c1 key).
Qed.

(** X15 for a value stored at time 0 in a cache that keeps entries for 30:
    read at time 29, and at time 30. *)
Lemma get_after_set_witness :
  (exists c1,
      set (new_cache 2 30) "k" 7%nat (world_at 0)
      = (Ok c1, snd (time_time (world_at 0)))
      /\ get c1 "k" (world_at 29)
         = (Ok (Some 7%nat, c1), snd (time_time (world_at 29))))
  /\ (exists c1 c2,
      set (new_cache 2 30) "k" 7%nat (world_at 0)
      = (Ok c1, snd (time_time (world_at 0)))
      /\ get c1 "k" (world_at 30) = (Ok (None, c2), snd (time_time (world_at 30)))
      /\ Dict.get (cache c2) "k" = None).
Proof.
  assert (Hinv : cache_inv (new_cache (V := nat) 2 30))
    by (unfold cache_inv; simpl; repeat split; lia).
  split.
  - destruct (@get_after_set nat (new_cache 2 30) "k" 7%nat (world_at 0)
                (world_at 29) Hinv) as (c1 & Hset & Hfresh & _).
    exists c1. split; [exact Hset|]. apply Hfresh. reflexivity.
  - destruct (@get_after_set nat (new_cache 2 30) "k" 7%nat (world_at 0)
                (world_at 30) Hinv) as (c1 & Hset & _ & Hold).
    destruct Hold as (c2 & Hget & Hgone & _); [vm_compute; discriminate|].
    exists c1, c2. auto.
Defined.

(** X16. On a consistent cache [get] never raises, for any key and at any
    time; the cache stays consistent and does not grow; and a value that
    [get] returns is the one stored under the key, the cache being left
    untouched. *)
Theorem get_keeps_invariant {V : Type}
    (c : PerformanceCache V) (key : string) (w : World)
    (Hinv : cache_inv c) :
  exists r c',
    get c key w = (Ok (r, c'), if Dict.mem (cache c) key
                               then snd (time_time w) else w)
    /\ cache_inv c'
    /\ (Dict.len (cache c') <= Dict.len (cache c))%nat
    /\ (r = None -> Dict.get (cache c') key = None)
    /\ (forall v, r = Some v -> Dict.get (cache c) key = Some v /\ c' = c).
Proof.
  unfold Dict.mem.
  destruct (Dict.get (cache c) key) as [v|] eqn:Hc.
  - assert (Ha : exists stored, Dict.get (access_times c) key = Some stored).
    { destruct Hinv as (Hkeys & _).
      assert (Hin : In key (Dict.keys (access_times c))).
      { rewrite <- Hkeys. apply DictFacts.get_in_keys. congruence. }
      apply DictFacts.get_in_keys in Hin.
      destruct (Dict.get (access_times c) key) as [s|]; [now exists s|].
      congruence. }
    destruct Ha as (stored & Ha).
    destruct (Qlt_le_dec (clock w (ticks w) - stored) (ttl c)) as [Hf | Ho].
    + exists (Some v), c.
      rewrite (@GetFacts.get_fresh V c key v stored w Hc Ha Hf).
      split; [reflexivity|]. split; [exact Hinv|]. split; [lia|].
      split; [discriminate|]. intros v' [= <-]. auto.
    + eexists None, _.
      rewrite (@GetFacts.get_expired V c key v stored w Hc Ha Ho).
      split; [reflexivity|].
      split; [now apply (@GetFacts.remove_inv V c key)|].
      cbn [with_cache cache]. split.
      * unfold Dict.len, Dict.remove. apply filter_length_le.
      * split; [intros _; apply DictFacts.get_remove_same | discriminate].
  - exists None, c. unfold get. rewrite Hc.
    split; [reflexivity|]. split; [exact Hinv|]. split; [lia|].
    split; [auto | discriminate].
Qed.

(** X16 on an empty cache. *)
Lemma get_keeps_invariant_witness :
  exists r c',
    get (new_cache (V := nat) 2 30) "k" world0
    = (Ok (r, c'), if Dict.mem (cache (new_cache (V := nat) 2 30)) "k"
                   then snd (time_time world0) else world0)
    /\ cache_inv c'
    /\ (Dict.len (cache c') <= Dict.len (cache (new_cache (V := nat) 2 30)))%nat
    /\ (r = None -> Dict.get (cache c') "k" = None)
    /\ (forall v, r = Some v ->
                  Dict.get (cache (new_cache (V := nat) 2 30)) "k" = Some v
                  /\ c' = new_cache 2 30).
Proof.
  apply (@get_keeps_invariant nat (new_cache 2 30) "k" world0).
  unfold cache_inv. simpl. repeat split; lia.
Defined.

(** ** The metrics *)

Module MetricFacts.

Lemma last_n_last_n {A} (n : nat) (a b : list A) :
  last_n n (last_n n a ++ b) = last_n n (a ++ b).
Proof.
  unfold last_n. rewrite !length_app, length_skipn.
  set (k := (List.length a - n)%nat).
  assert (E : skipn k a ++ b = skipn k (a ++ b)).
  { rewrite skipn_app. replace (k - List.length a)%nat with 0%nat by lia.
    reflexivity. }
  rewrite E, skipn_skipn. f_equal. lia.
Qed.

(** Appending one sample and dropping the oldest beyond 100 keeps the last
    100. *)
Lemma trim_is_last {A} (q : list A) (x : A) :
  (List.length q <= 100)%nat ->
  (if Nat.ltb 100 (List.length (q ++ [x])) then tl (q ++ [x]) else q ++ [x])
  = last_n 100 (q ++ [x]).
Proof.
  intros Hlen. unfold last_n. rewrite length_app. simpl List.length.
  destruct (Nat.ltb 100 (List.length q + 1)) eqn:E.
  - apply Nat.ltb_lt in E.
    replace (List.length q + 1 - 100)%nat with 1%nat by lia.
    destruct q; reflexivity.
  - apply Nat.ltb_ge in E.
    replace (List.length q + 1 - 100)%nat with 0%nat by lia. reflexivity.
Qed.

Lemma map_last_n {A B} (f : A -> B) (n : nat) (l : list A) :
  map f (last_n n l) = last_n n (map f l).
Proof.
  unfold last_n. rewrite length_map. symmetry. apply skipn_map.
Qed.

Lemma add_metric_run {V} (c : PerformanceCache V) (endpoint : string)
    (d : Q) (w : World) :
  add_metric c endpoint d w
  = (Ok (tt, with_metrics c
               (Dict.set (metrics c) endpoint
                  (let q := metrics_of c endpoint ++ [(clock w (ticks w), d)]
                   in if Nat.ltb 100 (List.length q) then tl q else q))),
     snd (time_time w)).
Proof. reflexivity. Qed.

End MetricFacts.

(** X17. The samples of an endpoint are a rolling window of 100: after any
    number of [add_metric] calls the durations kept are the last 100 of
    those recorded, in order. The samples of the other endpoints and the
    cached entries are not touched. *)
Theorem metrics_window {V : Type} (durations : list Q) :
  forall (c : PerformanceCache V) (endpoint : string) (w : World)
         (Hwindow : (List.length (metrics_of c endpoint) <= 100)%nat),
  exists c' w',
    add_metrics c endpoint durations w = (Ok c', w')
    /\ map snd (metrics_of c' endpoint)
       = last_n 100 (map snd (metrics_of c endpoint) ++ durations)
    /\ (List.length (metrics_of c' endpoint) <= 100)%nat
    /\ (forall other, other <> endpoint ->
                      metrics_of c' other = metrics_of c other)
    /\ cache c' = cache c
    /\ access_times c' = access_times c.
Proof.
  induction durations as [|d rest IH]; intros c endpoint w Hwindow.
  - exists c, w. simpl. rewrite app_nil_r.
    split; [reflexivity|]. split.
    + unfold last_n. rewrite length_map.
      replace (List.length (metrics_of c endpoint) - 100)%nat with 0%nat
        by lia.
      reflexivity.
    + auto.
  - cbn [add_metrics]. unfold bind at 1.
    rewrite MetricFacts.add_metric_run. cbv zeta.
    rewrite (MetricFacts.trim_is_last _ _ Hwindow).
    set (c1 := with_metrics c _).
    assert (Hq1 : metrics_of c1 endpoint
                  = last_n 100 (metrics_of c endpoint
                                  ++ [(clock w (ticks w), d)])).
    { unfold metrics_of at 1, c1. cbn [with_metrics metrics].
      now rewrite DictFacts.get_set_same. }
    assert (Hlen1 : (List.length (metrics_of c1 endpoint) <= 100)%nat).
    { rewrite Hq1. unfold last_n. rewrite length_skipn. lia. }
    destruct (IH c1 endpoint (snd (time_time w)) Hlen1)
      as (c' & w' & Hrun & Hsnd & Hlen & Hother & Hc & Ha).
    exists c', w'. split; [exact Hrun|]. split.
    { rewrite Hsnd, Hq1, MetricFacts.map_last_n, map_app.
      rewrite MetricFacts.last_n_last_n, <- app_assoc. reflexivity. }
    split; [exact Hlen|]. split; [|split; [exact Hc | exact Ha]].
    intros other Hne. rewrite (Hother other Hne).
    unfold metrics_of, c1. cbn [with_metrics metrics].
    rewrite DictFacts.get_set_other by congruence. reflexivity.
Qed.

(** X17 for 102 samples recorded in a new cache. *)
Lemma metrics_window_witness :
  exists c' w',
    add_metrics (new_cache (V := nat) 1000 30) "detect_ddos"
      (map (fun i => inject_Z (Z.of_nat i)) (seq 0 102)) world0
    = (Ok c', w')
    /\ map snd (metrics_of c' "detect_ddos")
       = last_n 100
           (map snd (metrics_of (new_cache (V := nat) 1000 30) "detect_ddos")
              ++ map (fun i => inject_Z (Z.of_nat i)) (seq 0 102))
    /\ (List.length (metrics_of c' "detect_ddos") <= 100)%nat
    /\ (forall other, other <> "detect_ddos" ->
                      metrics_of c' other
                      = metrics_of (new_cache (V := nat) 1000 30) other)
    /\ cache c' = cache (new_cache (V := nat) 1000 30)
    /\ access_times c' = access_times (new_cache (V := nat) 1000 30).
Proof.
  apply (@metrics_window nat
           (map (fun i => inject_Z (Z.of_nat i)) (seq 0 102))
           (new_cache 1000 30) "detect_ddos" world0).
  simpl. lia.
Defined.

(** ** The decorators at work *)

Module MonitorFacts.

Lemma suffixed_differs (name suffix : string) :
  suffix <> ""%string -> (name ++ suffix)%string <> name.
Proof.
  intros Hs. induction name as [|c name IH]; cbn; [exact Hs|].
  intros H. apply IH. now inversion H.
Qed.

Lemma metrics_of_set_same {V} (c : PerformanceCache V) (endpoint : string)
    (q : list (Q * Q)) :
  metrics_of (with_metrics c (Dict.set (metrics c) endpoint q)) endpoint = q.
Proof.
  unfold metrics_of. cbn [with_metrics metrics].
  now rewrite DictFacts.get_set_same.
Qed.

Lemma metrics_of_set_other {V} (c : PerformanceCache V)
    (endpoint other : string) (q : list (Q * Q)) :
  endpoint <> other ->
  metrics_of (with_metrics c (Dict.set (metrics c) endpoint q)) other
  = metrics_of c other.
Proof.
  intros H. unfold metrics_of. cbn [with_metrics metrics].
  now rewrite DictFacts.get_set_other.
Qed.

End MonitorFacts.

(** X19. What [performance_monitor] returns. It reads the clock before and
    after the call and records the elapsed time, in milliseconds, as the
    newest sample of the endpoint named after the function when the call
    returned, and of the endpoint with the suffix [_error] when it raised.
    After a call that returned it prints a line when the elapsed time is
    above 200 or below 50. When there is no line to print, or [print]
    returns, the wrapper returns what the call returned. When [print]
    raises, the wrapper raises that exception although the call returned,
    and records a second sample, under the endpoint with the suffix
    [_error]. The requests sent and the cached entries are those the call
    left. *)
Theorem performance_monitor_outcome {A : Type}
    (print : Notice -> Res unit) (name : string) (func : M A) (w : World) :
  let r := fst (func (snd (time_time w))) in
  let w1 := snd (func (snd (time_time w))) in
  let duration := (clock w1 (ticks w1) - clock w (ticks w)) * 1000 in
  let printed :=
    if Qlt_bool 200 duration then print (SlowOperation name duration)
    else if Qlt_bool duration 50 then print (FastOperation name duration)
    else Ok tt in
  let sample := (clock w1 (S (ticks w1)), duration) in
  let late_sample :=
    (clock w1 (3 + ticks w1)%nat,
     (clock w1 (2 + ticks w1)%nat - clock w (ticks w)) * 1000) in
  let pushed (q : list (Q * Q)) (s : Q * Q) :=
    if Nat.ltb 100 (List.length (q ++ [s])) then tl (q ++ [s])
    else q ++ [s] in
  let errors := (name ++ "_error")%string in
  exists w',
    performance_monitor_on print name func w
    = (match r, printed with
       | Ok x, Ok _ => Ok x
       | Ok _, Raise e => Raise e
       | Raise e, _ => Raise e
       end, w')
    /\ requests w' = requests w1
    /\ cache (performance_cache w') = cache (performance_cache w1)
    /\ match r, printed with
       | Ok _, Ok _ =>
           ticks w' = (2 + ticks w1)%nat
           /\ metrics_of (performance_cache w') name
              = pushed (metrics_of (performance_cache w1) name) sample
           /\ metrics_of (performance_cache w') errors
              = metrics_of (performance_cache w1) errors
       | Ok _, Raise _ =>
           ticks w' = (4 + ticks w1)%nat
           /\ metrics_of (performance_cache w') name
              = pushed (metrics_of (performance_cache w1) name) sample
           /\ metrics_of (performance_cache w') errors
              = pushed (metrics_of (performance_cache w1) errors)
                  late_sample
       | Raise _, _ =>
           ticks w' = (2 + ticks w1)%nat
           /\ metrics_of (performance_cache w') name
              = metrics_of (performance_cache w1) name
           /\ metrics_of (performance_cache w') errors
              = pushed (metrics_of (performance_cache w1) errors) sample
       end.
Proof.
  intros r w1 duration printed sample late_sample pushed errors.
  subst r w1 duration printed sample late_sample pushed errors.
  assert (Hne : (name ++ "_error")%string <> name)
    by (apply MonitorFacts.suffixed_differs; discriminate).
  unfold performance_monitor_on, bind, try_except.
  cbn [time_time fst snd].
  destruct (func _) as [[a | e] w1]; cbn [fst snd].
  - unfold on_performance_cache, add_metric, bind, ret, lift, raise,
      time_time.
    cbn [fst snd performance_cache clock ticks ryu requests].
    set (duration := (clock w1 (ticks w1) - clock w (ticks w)) * 1000).
    destruct (Qlt_bool 200 duration);
      [|destruct (Qlt_bool duration 50)].
    + destruct (print (SlowOperation name duration)) as [u|e];
        (eexists; split; [reflexivity|]);
        cbn [performance_cache clock ticks ryu requests with_metrics
               metrics cache];
        repeat split;
        rewrite ?MonitorFacts.metrics_of_set_same,
          ?MonitorFacts.metrics_of_set_other,
          ?MonitorFacts.metrics_of_set_same by congruence;
        reflexivity.
    + destruct (print (FastOperation name duration)) as [u|e];
        (eexists; split; [reflexivity|]);
        cbn [performance_cache clock ticks ryu requests with_metrics
               metrics cache];
        repeat split;
        rewrite ?MonitorFacts.metrics_of_set_same,
          ?MonitorFacts.metrics_of_set_other,
          ?MonitorFacts.metrics_of_set_same by congruence;
        reflexivity.
    + eexists; split; [reflexivity|].
      cbn [performance_cache clock ticks ryu requests with_metrics
             metrics cache].
      repeat split;
        rewrite ?MonitorFacts.metrics_of_set_same,
          ?MonitorFacts.metrics_of_set_other by congruence;
        reflexivity.
  - unfold on_performance_cache, add_metric, bind, ret, raise, time_time.
    cbn [fst snd performance_cache clock ticks ryu requests].
    eexists. split; [reflexivity|].
    cbn [performance_cache clock ticks ryu requests with_metrics metrics
           cache].
    repeat split;
      rewrite ?MonitorFacts.metrics_of_set_same,
        ?MonitorFacts.metrics_of_set_other by congruence;
      reflexivity.
Qed.

(** X19 where [print] raises: the call returned 7 after one second, and
    the wrapper raises and records a sample under both endpoints. *)
Lemma performance_monitor_outcome_witness :
  exists w',
    performance_monitor_on (fun _ => Raise ValueError) "execute_mitigation"
      (ret 7%Z) world0
    = (Raise ValueError, w')
    /\ ticks w' = 5%nat
    /\ metrics_of (performance_cache w') "execute_mitigation"
       = [(2, 1000)]
    /\ metrics_of (performance_cache w') "execute_mitigation_error"
       = [(4, 3000)].
Proof.
  pose proof (@performance_monitor_outcome Z (fun _ => Raise ValueError)
                "execute_mitigation" (ret 7%Z) world0) as H.
  cbv zeta in H. destruct H as (w' & Hrun & _ & _ & H).
  exists w'. split; [exact Hrun|]. exact H.
Defined.

Module MemoFacts.

(** A hit: the cached value is returned and the call is not made. *)
Lemma cache_result_hit (ttl' : Q) (name key : string) (func : M Detection.t)
    (w : World) (r : Detection.t) (stored : Q) :
  Dict.get (cache (performance_cache w)) key = Some r ->
  Dict.get (access_times (performance_cache w)) key = Some stored ->
  clock w (ticks w) - stored < ttl (performance_cache w) ->
  cache_result ttl' name key func w
  = (Ok r, {| clock := clock w; ticks := S (ticks w); ryu := ryu w;
              requests := requests w;
              performance_cache := performance_cache w |}).
Proof.
  intros Hc Ha Hfresh.
  unfold cache_result, bind at 1, on_performance_cache at 1.
  rewrite (@GetFacts.get_fresh Detection.t (performance_cache w) key r stored
             w Hc Ha Hfresh).
  reflexivity.
Qed.

(** A miss: the call is made and its result stored with the time of the
    [set]. *)
Lemma cache_result_miss_state (ttl' : Q) (name key : string)
    (func : M Detection.t) (w wf : World) (r : Detection.t) :
  Dict.get (cache (performance_cache w)) key = None ->
  cache_inv (performance_cache w) ->
  func (snd (time_time w)) = (Ok r, wf) ->
  performance_cache wf = performance_cache w ->
  clock wf = clock w ->
  exists w1,
    cache_result ttl' name key func w = (Ok r, w1)
    /\ Dict.get (cache (performance_cache w1)) key = Some r
    /\ Dict.get (access_times (performance_cache w1)) key
       = Some (clock w (S (ticks wf)))
    /\ ttl (performance_cache w1) = ttl (performance_cache w)
    /\ clock w1 = clock w
    /\ ticks w1 = (3 + ticks wf)%nat
    /\ requests w1 = requests wf
    /\ ryu w1 = ryu wf.
Proof.
  intros Hmiss Hinv Hfunc Hkept Hclock.
  unfold cache_result, bind at 1, on_performance_cache at 1, get.
  rewrite Hmiss. cbn [ret].
  unfold bind at 1. cbn [time_time].
  unfold bind at 1.
  cbn [clock ticks ryu requests performance_cache].
  cbn [time_time snd] in Hfunc. rewrite Hfunc.
  unfold bind at 1. cbn [time_time].
  unfold bind at 1, on_performance_cache at 1, bind at 1.
  cbn [performance_cache clock ticks ryu requests].
  rewrite <- Hkept in Hinv.
  match goal with
  | |- context [set (performance_cache wf) key r ?w2] =>
      destruct (@GetFacts.set_stores Detection.t (performance_cache wf) key r
                  w2 Hinv) as (c1 & Hset & _ & Hc & Ha & Httl);
      rewrite Hset
  end.
  cbn [ret time_time snd clock ticks] in *.
  unfold bind, on_performance_cache, add_metric, bind, ret, time_time.
  cbn [fst snd performance_cache clock ticks ryu requests].
  eexists. split; [reflexivity|].
  cbn [performance_cache clock ticks ryu requests with_metrics cache
         access_times ttl].
  rewrite Hclock, Hkept in *. repeat split; auto.
Qed.

End MemoFacts.

(** X20. Memoisation. When the key is not cached, [cache_result] makes the
    call, returns its result and stores it; a second decorated call with
    the same key, made while the entry is younger than the [ttl] of the
    module-level cache, returns that result without making any call -
    whatever the function, and whatever [ttl] the decorator was given. *)
Theorem memoized_result
    (ttl1 : Q) (name key : string) (func : M Detection.t)
    (w wf : World) (r : Detection.t)
    (Hmiss : Dict.get (cache (performance_cache w)) key = None)
    (Hinv : cache_inv (performance_cache w))
    (Hfunc : func (snd (time_time w)) = (Ok r, wf))
    (Hkept : performance_cache wf = performance_cache w)
    (Hclock : clock wf = clock w)
    (Hfresh : clock w (3 + ticks wf) - clock w (1 + ticks wf)
              < ttl (performance_cache w)) :
  exists w1 w2,
    cache_result ttl1 name key func w = (Ok r, w1)
    /\ requests w1 = requests wf
    /\ (forall (ttl2 : Q) (name2 : string) (func2 : M Detection.t),
          cache_result ttl2 name2 key func2 w1 = (Ok r, w2))
    /\ requests w2 = requests w1
    /\ performance_cache w2 = performance_cache w1.
Proof.
  destruct (@MemoFacts.cache_result_miss_state ttl1 name key func w wf r
              Hmiss Hinv Hfunc Hkept Hclock)
    as (w1 & Hrun & Hc & Ha & Httl & Hcl & Hticks & Hreq & _).
  exists w1. eexists. split; [exact Hrun|]. split; [exact Hreq|]. split.
  - intros ttl2 name2 func2.
    apply (@MemoFacts.cache_result_hit ttl2 name2 key func2 w1 r
             (clock w (S (ticks wf))) Hc Ha).
    rewrite Httl, Hcl, Hticks. exact Hfresh.
  - split; reflexivity.
Qed.

(** X20 for a call that returns the verdict [ddos], with a clock that
    advances by one per reading. *)
Lemma memoized_result_witness :
  exists w1 w2,
    cache_result 10 "detect_ddos" "detect_ddos:1" (returning ddos_verdict)
      world0 = (Ok ddos_verdict, w1)
    /\ requests w1 = requests (snd (time_time world0))
    /\ (forall (ttl2 : Q) (name2 : string) (func2 : M Detection.t),
          cache_result ttl2 name2 "detect_ddos:1" func2 w1
          = (Ok ddos_verdict, w2))
    /\ requests w2 = requests w1
    /\ performance_cache w2 = performance_cache w1.
Proof.
  apply (@memoized_result 10 "detect_ddos" "detect_ddos:1"
           (returning ddos_verdict) world0 (snd (time_time world0))
           ddos_verdict); try reflexivity.
  unfold cache_inv. simpl. repeat split; lia.
Defined.

(** ** The sliding window of the rate tracker *)

Module WindowFacts.

Lemma nondecreasing_app (a b : list Q) :
  nondecreasing (a ++ b)
  <-> nondecreasing a /\ nondecreasing b
      /\ forall x y, In x a -> In y b -> x <= y.
Proof.
  induction a as [|t a IH]; simpl.
  - split; [intros H; repeat split; auto; intros x y [] | tauto].
  - rewrite IH. split.
    + intros (Ht & Ha & Hb & Hab). repeat split; auto.
      * intros u Hu. apply Ht. apply in_or_app. now left.
      * intros x y [<- | Hx] Hy; [|auto].
        apply Ht. apply in_or_app. now right.
    + intros ((Ht & Ha) & Hb & Hab). repeat split; auto.
      intros u Hu. apply in_app_or in Hu. destruct Hu; auto.
Qed.

Lemma nondecreasing_filter (f : Q -> bool) (l : list Q) :
  nondecreasing l -> nondecreasing (filter f l).
Proof.
  induction l as [|t l IH]; simpl; [auto|]. intros [Ht Hl].
  destruct (f t); simpl; auto. split; auto.
  intros u Hu. apply filter_In in Hu. apply Ht. tauto.
Qed.

(** On timestamps in order, purging from the front keeps exactly those
    within the window. *)
Lemma purge_is_filter (w now : Q) (q : list Q) :
  nondecreasing q -> App.purge w now q = filter (within w now) q.
Proof.
  induction q as [|q0 q IH]; simpl; [reflexivity|]. intros [Hq0 Hq].
  unfold within at 1, Qlt_bool.
  destruct (Qle_bool (float_sub now q0) w) eqn:E; simpl; [|auto].
  f_equal. symmetry. apply Qle_bool_iff in E.
  clear IH Hq. induction q as [|t q IH]; simpl; [reflexivity|].
  assert (Ht : within w now t = true).
  { apply Qle_bool_iff. assert (q0 <= t) by (apply Hq0; now left).
    apply Qle_trans with (float_sub now q0); [|exact E].
    apply Rounding.float_sub_mono; [apply Qle_refl | assumption]. }
  rewrite Ht. f_equal. apply IH. intros u Hu. apply Hq0. now right.
Qed.

Lemma last_cons_default {A} (l : list A) :
  forall (a d d' : A), last (a :: l) d = last (a :: l) d'.
Proof.
  induction l as [|b l IH]; intros a d d'; [reflexivity|].
  change (last (a :: b :: l) d) with (last (b :: l) d).
  change (last (a :: b :: l) d') with (last (b :: l) d').
  apply IH.
Qed.

Lemma last_cons_In {A} (l : list A) :
  forall (a d : A), In (last (a :: l) d) (a :: l).
Proof.
  induction l as [|b l IH]; intros a d; [now left|].
  right. change (last (a :: b :: l) d) with (last (b :: l) d). apply IH.
Qed.

Lemma sliding (rest : list Q) (src : string) :
  forall (ts : Q) (tr : App.RateTracker),
    0 <= App.window tr ->
    nondecreasing (App.deque_of tr src ++ ts :: rest) ->
    App.deque_of (add_all tr src (ts :: rest)) src
    = filter (within (App.window tr) (last (ts :: rest) ts))
        (App.deque_of tr src ++ ts :: rest).
Proof.
  induction rest as [|t2 rest IH]; intros ts tr Hw Hsorted.
  - change (add_all tr src [ts]) with (App.add tr src ts).
    rewrite RateFacts.deque_of_add. apply purge_is_filter. exact Hsorted.
  - change (add_all tr src (ts :: t2 :: rest))
      with (add_all (App.add tr src ts) src (t2 :: rest)).
    set (tr1 := App.add tr src ts).
    assert (Hq1 : App.deque_of tr1 src
                  = filter (within (App.window tr) ts)
                      (App.deque_of tr src ++ [ts])).
    { unfold tr1. rewrite RateFacts.deque_of_add. apply purge_is_filter.
      change (ts :: t2 :: rest) with ([ts] ++ t2 :: rest) in Hsorted.
      rewrite app_assoc in Hsorted.
      apply nondecreasing_app in Hsorted. tauto. }
    change (ts :: t2 :: rest) with ([ts] ++ t2 :: rest) in Hsorted.
    rewrite app_assoc in Hsorted.
    apply nondecreasing_app in Hsorted.
    destruct Hsorted as (Hpre & Hpost & Hcross).
    rewrite IH.
    + change (App.window tr1) with (App.window tr).
      change (last (ts :: t2 :: rest) ts) with (last (t2 :: rest) ts).
      rewrite (last_cons_default rest t2 t2 ts).
      set (L := last (t2 :: rest) ts).
      change (App.deque_of tr src ++ ts :: t2 :: rest)
        with (App.deque_of tr src ++ [ts] ++ t2 :: rest).
      rewrite app_assoc.
      rewrite (filter_app (within (App.window tr) L) (App.deque_of tr1 src)),
        (filter_app (within (App.window tr) L)
           (App.deque_of tr src ++ [ts])).
      f_equal.
      rewrite Hq1, SweepMore.filter_filter. apply filter_ext_in.
      intros x Hx.
      destruct (within (App.window tr) L x) eqn:E;
        [|now rewrite andb_false_r].
      rewrite andb_true_r. apply Qle_bool_iff in E. apply Qle_bool_iff.
      assert (HL : In L (t2 :: rest)) by apply last_cons_In.
      assert (ts <= L).
      { apply Hcross; [|exact HL]. apply in_or_app. right. now left. }
      apply Qle_trans with (float_sub L x); [|exact E].
      apply Rounding.float_sub_mono; [assumption | apply Qle_refl].
    + exact Hw.
    + rewrite Hq1. apply nondecreasing_app. split; [|split].
      * now apply nondecreasing_filter.
      * exact Hpost.
      * intros x y Hx Hy. apply filter_In in Hx. apply Hcross; tauto.
Qed.

End WindowFacts.

(** X21. When the timestamps recorded for a source come in order, the
    deque of the source holds exactly those that are no more than [window]
    older than the latest one, so [pps] is the number of events in the
    trailing window divided by the window. How much older a timestamp is,
    is decided as [add] does it: by the difference of the two floats,
    rounded to double precision. *)
Theorem sliding_window
    (tr0 : App.RateTracker) (src_ip : string) (events : list Q)
    (Hwindow : 0 < App.window tr0)
    (Hfresh : App.deque_of tr0 src_ip = [])
    (Hordered : nondecreasing events) :
  let tr := add_all tr0 src_ip events in
  let recent := filter (within (App.window tr0) (last events 0)) events in
  App.deque_of tr src_ip = recent
  /\ returns (fst (App.pps tr src_ip)) (Qlen recent / App.window tr0).
Proof.
  intros tr recent.
  assert (Hq : App.deque_of tr src_ip = recent).
  { unfold tr, recent. destruct events as [|ts rest]; [exact Hfresh|].
    rewrite WindowFacts.sliding.
    - rewrite Hfresh. simpl app.
      now rewrite (WindowFacts.last_cons_default rest ts ts 0).
    - now apply Qlt_le_weak.
    - now rewrite Hfresh. }
  split; [exact Hq|].
  assert (Hw : App.window tr = App.window tr0)
    by apply RateFacts.window_add_all.
  rewrite <- Hq, <- Hw. apply RateFacts.pps_value. now rewrite Hw.
Qed.

(** X21 for the doubles 0.1 and 1.1 in a window of 1.0: their difference
    in double precision is 1.0, so both are kept and the rate is 2. *)
Lemma sliding_window_witness :
  App.deque_of (add_all (App.new_tracker 1) "10.0.0.5"
                  [round64 0.1; round64 1.1]) "10.0.0.5"
  = [round64 0.1; round64 1.1]
  /\ returns
       (fst (App.pps
               (add_all (App.new_tracker 1) "10.0.0.5"
                  [round64 0.1; round64 1.1]) "10.0.0.5"))
       (Qlen [round64 0.1; round64 1.1] / 1).
Proof.
  refine (@sliding_window (App.new_tracker 1) "10.0.0.5"
            [round64 0.1; round64 1.1] _ _ _).
  - reflexivity.
  - reflexivity.
  - simpl. repeat split; intros u Hu;
      repeat (destruct Hu as [<- | Hu]; [vm_compute; discriminate|]);
      destruct Hu.
Defined.

(** X22. The sources are tracked independently: recording events for one
    source, and reading its rate, change neither the timestamps kept for
    another source nor the rate read for it. *)
Theorem sources_independent
    (tr : App.RateTracker) (src_ip other : string) (events : list Q)
    (Hother : other <> src_ip) :
  let tr' := snd (App.pps (add_all tr src_ip events) src_ip) in
  App.deque_of tr' other = App.deque_of tr other
  /\ fst (App.pps tr' other) = fst (App.pps tr other).
Proof.
  intros tr'.
  assert (Hadd : forall events tr,
             App.deque_of (add_all tr src_ip events) other
             = App.deque_of tr other).
  { clear events tr tr'. induction events as [|ts events IH]; intros tr.
    - reflexivity.
    - change (add_all tr src_ip (ts :: events))
        with (add_all (App.add tr src_ip ts) src_ip events).
      rewrite IH. unfold App.add, App.deque_of. cbn [App.timestamps].
      rewrite DictFacts.get_set_other by congruence. reflexivity. }
  assert (Hq : App.deque_of tr' other = App.deque_of tr other).
  { unfold tr'. rewrite <- (Hadd events tr).
    unfold App.pps.
    destruct (App.deque_of (add_all tr src_ip events) src_ip);
      cbn [snd]; unfold App.deque_of at 1; cbn [App.timestamps];
      rewrite DictFacts.get_set_other by congruence; reflexivity. }
  split; [exact Hq|].
  assert (Hw : App.window tr' = App.window tr).
  { unfold tr'.
    destruct (RateFacts.deque_of_pps (add_all tr src_ip events) src_ip)
      as [_ ->].
    apply RateFacts.window_add_all. }
  unfold App.pps. rewrite Hq, Hw.
  destruct (App.deque_of tr other); reflexivity.
Qed.

(** X22 for two sources. *)
Lemma sources_independent_witness :
  App.deque_of
    (snd (App.pps (add_all (add_all (App.new_tracker 1) "10.0.0.9" [0; 0.2])
                     "10.0.0.5" [0.1; 0.3; 0.4]) "10.0.0.5")) "10.0.0.9"
  = App.deque_of (add_all (App.new_tracker 1) "10.0.0.9" [0; 0.2]) "10.0.0.9"
  /\ fst (App.pps
            (snd (App.pps (add_all (add_all (App.new_tracker 1) "10.0.0.9"
                                      [0; 0.2])
                             "10.0.0.5" [0.1; 0.3; 0.4]) "10.0.0.5"))
            "10.0.0.9")
     = fst (App.pps (add_all (App.new_tracker 1) "10.0.0.9" [0; 0.2])
              "10.0.0.9").
Proof.
  apply (@sources_independent
           (add_all (App.new_tracker 1) "10.0.0.9" [0; 0.2])
           "10.0.0.5" "10.0.0.9" [0.1; 0.3; 0.4]).
  discriminate.
Defined.

(** X23. A tracker built with a window of 0 cannot report a rate for a
    source it has seen: every [add] keeps at least the timestamp just
    recorded, and [pps] then raises [ZeroDivisionError]. A source never
    seen reads as 0.0 all the same. *)
Theorem zero_window_raises
    (tr : App.RateTracker) (src_ip : string) (ts : Q)
    (Hzero : App.window tr == 0) :
  fst (App.pps (App.add tr src_ip ts) src_ip) = Raise ZeroDivisionError
  /\ forall unseen, App.deque_of tr unseen = [] ->
                    fst (App.pps tr unseen) = Ok 0.0.
Proof.
  split.
  - assert (Hne : App.deque_of (App.add tr src_ip ts) src_ip <> []).
    { rewrite RateFacts.deque_of_add.
      induction (App.deque_of tr src_ip) as [|q0 q IH]; simpl.
      - assert (E : Qlt_bool (App.window tr) (float_sub ts ts) = false)
          by (apply Qlt_bool_false_iff;
              rewrite Hzero, Rounding.float_sub_self; apply Qle_refl).
        rewrite E. discriminate.
      - destruct (Qlt_bool (App.window tr) (float_sub ts q0)); [exact IH|].
        discriminate. }
    unfold App.pps.
    destruct (App.deque_of (App.add tr src_ip ts) src_ip) as [|q0 q];
      [congruence|].
    cbn [fst]. unfold py_div. cbn [App.add App.window].
    apply Qeq_bool_iff in Hzero. now rewrite Hzero.
  - intros unseen Hq. unfold App.pps. now rewrite Hq.
Qed.

(** X23 for the first packet of a source. *)
Lemma zero_window_raises_witness :
  fst (App.pps (App.add (App.new_tracker 0) "10.0.0.5" 12) "10.0.0.5")
  = Raise ZeroDivisionError
  /\ forall unseen, App.deque_of (App.new_tracker 0) unseen = [] ->
                    fst (App.pps (App.new_tracker 0) unseen) = Ok 0.0.
Proof.
  apply (@zero_window_raises (App.new_tracker 0) "10.0.0.5" 12).
  reflexivity.
Defined.

(** ** From detection to mitigation *)

Module PipelineFacts.

(** The verdict that the body of [detect_ddos] builds when the scaler and
    the model answer. *)
Lemma detect_ddos_body_run (self : MLDetection.MLDetectionEngine)
    (flow_features : Dict.t Q) (Xs proba : list Q) (pred : Z) (conf : Q)
    (w : World) :
  MLDetection.scaler_transform self
    (MLDetection.preprocess_features self flow_features) = Ok Xs ->
  predict_proba (MLDetection.model self) Xs = Ok proba ->
  predict (MLDetection.model self) Xs = Ok pred ->
  py_max proba = Ok conf ->
  MLDetection.detect_ddos_body self flow_features w
  = (Ok {| Detection.prediction :=
             Some (if (pred =? 1)%Z then "ddos" else "normal");
           Detection.confidence := Some (round4 conf);
           Detection.threat_level :=
             Some (if Qlt_bool 0.85 conf then "HIGH"
                   else if Qlt_bool 0.6 conf then "MEDIUM" else "LOW");
           Detection.timestamp := Some (clock w (ticks w));
           Detection.model_version := Some "3.0.0";
           Detection.error := None |},
     snd (time_time w)).
Proof.
  intros Hs Hp Hc Hm.
  unfold MLDetection.detect_ddos_body, try_except, bind, lift.
  now rewrite Hs, Hp, Hc, Hm.
Qed.

End PipelineFacts.

(** X5. When the scaler and the model answer, the body of [detect_ddos]
    returns a verdict without error: [ddos] exactly when the model
    predicts class 1; a confidence that is a multiple of 1/10000 within
    0.00005 of the highest class probability; and a threat level read off
    the probability before rounding: HIGH above 0.85, LOW up to 0.6,
    MEDIUM in between. *)
Theorem detect_ddos_verdict
    (self : MLDetection.MLDetectionEngine) (flow_features : Dict.t Q)
    (Xs proba : list Q) (pred : Z) (conf : Q) (w : World)
    (Hscaled : MLDetection.scaler_transform self
                 (MLDetection.preprocess_features self flow_features)
               = Ok Xs)
    (Hproba : predict_proba (MLDetection.model self) Xs = Ok proba)
    (Hpred : predict (MLDetection.model self) Xs = Ok pred)
    (Hmax : py_max proba = Ok conf) :
  exists det c level,
    MLDetection.detect_ddos_body self flow_features w
    = (Ok det, snd (time_time w))
    /\ Detection.error det = None
    /\ (Detection.prediction det = Some "ddos" <-> pred = 1%Z)
    /\ Detection.confidence det = Some c
    /\ conf - 0.00005 <= c /\ c <= conf + 0.00005
    /\ (exists n : Z, c = inject_Z n / 10000)
    /\ Detection.threat_level det = Some level
    /\ (level = "HIGH" <-> 0.85 < conf)
    /\ (level = "LOW" <-> conf <= 0.6)
    /\ (level = "MEDIUM" <-> 0.6 < conf /\ conf <= 0.85).
Proof.
  rewrite (PipelineFacts.detect_ddos_body_run self flow_features w
             Hscaled Hproba Hpred Hmax).
  destruct (round4_error conf) as (Hlo & Hhi & Hn).
  eexists. exists (round4 conf). eexists.
  split; [reflexivity|]. split; [reflexivity|]. split.
  { cbn [Detection.prediction]. destruct (pred =? 1)%Z eqn:E.
    - apply Z.eqb_eq in E. tauto.
    - apply Z.eqb_neq in E. split; [discriminate | contradiction]. }
  split; [reflexivity|]. split; [exact Hlo|]. split; [exact Hhi|].
  split; [exact Hn|]. split; [reflexivity|].
  destruct (Qlt_bool 0.85 conf) eqn:E1.
  - apply Qlt_bool_iff in E1.
    repeat split; try discriminate; try tauto; intros; lra.
  - apply Qlt_bool_false_iff in E1.
    destruct (Qlt_bool 0.6 conf) eqn:E2.
    + apply Qlt_bool_iff in E2.
      repeat split; try discriminate; try tauto; intros; lra.
    + apply Qlt_bool_false_iff in E2.
      repeat split; try discriminate; try tauto; intros; lra.
Qed.

(** X5 for a model that is 90% sure. *)
Lemma detect_ddos_verdict_witness :
  exists det c level,
    MLDetection.detect_ddos_body sure_engine [("packets_per_second", 1000)]
      world0 = (Ok det, snd (time_time world0))
    /\ Detection.error det = None
    /\ (Detection.prediction det = Some "ddos" <-> 1%Z = 1%Z)
    /\ Detection.confidence det = Some c
    /\ 0.9 - 0.00005 <= c /\ c <= 0.9 + 0.00005
    /\ (exists n : Z, c = inject_Z n / 10000)
    /\ Detection.threat_level det = Some level
    /\ (level = "HIGH" <-> 0.85 < 0.9)
    /\ (level = "LOW" <-> 0.9 <= 0.6)
    /\ (level = "MEDIUM" <-> 0.6 < 0.9 /\ 0.9 <= 0.85).
Proof.
  refine (@detect_ddos_verdict sure_engine [("packets_per_second", 1000)]
            [1000] [0.1; 0.9] 1 0.9 world0 _ _ _ _); reflexivity.
Defined.

(** X24. From detection to mitigation. When the model answers class 1 with
    a confidence above 0.6, [detect_ddos] (on a cache miss) returns a
    verdict [ddos] of level MEDIUM or HIGH, and an engine whose threshold
    is at most 0.5 (the default) acts on that verdict: for a usable source
    without a record and a controller that accepts the request,
    [execute_mitigation] blocks the source. The rounding of the confidence
    to four decimals cannot take it below the threshold. *)
Theorem confident_verdict_is_blocked
    (self : MLDetection.MLDetectionEngine) (flow_features : Dict.t Q)
    (cache_key : Dict.t Q -> string) (Xs proba : list Q) (conf : Q)
    (engine : MitigationEngine.t) (flow_info : Dict.t string) (ip : string)
    (w : World)
    (Hscaled : MLDetection.scaler_transform self
                 (MLDetection.preprocess_features self flow_features)
               = Ok Xs)
    (Hproba : predict_proba (MLDetection.model self) Xs = Ok proba)
    (Hpred : predict (MLDetection.model self) Xs = Ok 1%Z)
    (Hmax : py_max proba = Ok conf)
    (Hconf : 0.6 < conf)
    (Hcache : cache_inv (performance_cache w))
    (Hmiss : Dict.get (cache (performance_cache w)) (cache_key flow_features)
             = None)
    (Hthreshold : MitigationEngine.ddos_threshold
                    (MitigationEngine.config engine) <= 0.5)
    (Hsrc : Dict.get flow_info "src_ip" = Some ip)
    (Hempty : ip <> "") (Hunknown : ip <> "unknown") (Hzero : ip <> "0.0.0.0")
    (Hunseen : Dict.get (MitigationEngine.blocked_ips engine) ip = None)
    (Haccept : SDNController.status_ok
                 (ryu w (List.length (requests w)) (PostBlock ip)) = true) :
  exists det w1 stamp engine' w2,
    MLDetection.detect_ddos cache_key self flow_features w = (Ok det, w1)
    /\ Detection.prediction det = Some "ddos"
    /\ (Detection.threat_level det = Some "MEDIUM"
        \/ Detection.threat_level det = Some "HIGH")
    /\ Detection.confidence det = Some (round4 conf)
    /\ MitigationEngine.execute_mitigation engine det flow_info w1
       = (Ok (MitigationEngine.Blocked ip (round4 conf) stamp, engine'), w2)
    /\ Dict.mem (MitigationEngine.blocked_ips engine') ip = true
    /\ requests w2 = requests w ++ [PostBlock ip].
Proof.
  set (w0 := snd (time_time w)).
  pose proof (PipelineFacts.detect_ddos_body_run self flow_features
                (snd (time_time w0)) Hscaled Hproba Hpred Hmax) as Hbody.
  match type of Hbody with
  | _ = (Ok ?d, _) => set (det := d) in *
  end.
  destruct (@MemoFacts.cache_result_miss_state 10 "detect_ddos"
              (cache_key flow_features)
              (MLDetection.detect_ddos_body self flow_features)
              w0 _ det Hmiss Hcache Hbody eq_refl eq_refl)
    as (wc & Hrun & _ & _ & _ & _ & _ & Hreqc & Hryuc).
  destruct (performance_monitor_run "detect_ddos"
              (cache_result 10 "detect_ddos" (cache_key flow_features)
                 (MLDetection.detect_ddos_body self flow_features)) w)
    as (w1 & Hmon & Hreq1 & Hryu1 & _).
  fold w0 in Hmon, Hreq1, Hryu1. rewrite Hrun in Hmon, Hreq1, Hryu1.
  cbn [fst snd] in Hmon, Hreq1, Hryu1.
  assert (Hreq : requests w1 = requests w) by (rewrite Hreq1, Hreqc; reflexivity).
  assert (Hryu : ryu w1 = ryu w) by (rewrite Hryu1, Hryuc; reflexivity).
  assert (Hround : 0.5 <= round4 conf).
  { destruct (round4_error conf) as [Hlo _]. lra. }
  assert (Hthreat : threat_for engine det flow_info ip (round4 conf)).
  { constructor; auto.
    - exists "ddos". split; reflexivity.
    - lra. }
  pose proof (MitigationFacts.body_threat (snd (time_time w1)) Hthreat Hunseen)
    as Hexec.
  assert (Hok : SDNController.status_ok
                  (ryu (snd (time_time w1))
                     (List.length (requests (snd (time_time w1))))
                     (PostBlock ip)) = true)
    by (cbn [time_time snd requests ryu]; rewrite Hryu, Hreq; exact Haccept).
  rewrite Hok in Hexec.
  apply MitigationFacts.execute_mitigation_run in Hexec.
  destruct Hexec as (w2 & Hexec & Hreq2 & _).
  cbn [time_time snd requests] in Hreq2. rewrite Hreq in Hreq2.
  exists det, w1. do 2 eexists. exists w2.
  split; [exact Hmon|]. split; [reflexivity|]. split.
  { unfold det. cbn [Detection.threat_level].
    apply Qlt_bool_iff in Hconf. rewrite Hconf.
    destruct (Qlt_bool 0.85 conf); auto. }
  split; [reflexivity|]. split; [exact Hexec|]. split.
  - unfold Dict.mem. cbn [MitigationEngine.blocked_ips
                            MitigationEngine.with_history
                            MitigationEngine.with_blocked_ips].
    now rewrite DictFacts.get_set_same.
  - exact Hreq2.
Qed.

(** X24 for a model that is 90% sure, and a fresh mitigation engine. *)
Lemma confident_verdict_is_blocked_witness :
  exists det w1 stamp engine' w2,
    MLDetection.detect_ddos (fun _ => "detect_ddos:1") sure_engine
      [("packets_per_second", 1000)] world0 = (Ok det, w1)
    /\ Detection.prediction det = Some "ddos"
    /\ (Detection.threat_level det = Some "MEDIUM"
        \/ Detection.threat_level det = Some "HIGH")
    /\ Detection.confidence det = Some (round4 0.9)
    /\ MitigationEngine.execute_mitigation MitigationEngine.new_engine det
         (flow_of "10.0.0.5") w1
       = (Ok (MitigationEngine.Blocked "10.0.0.5" (round4 0.9) stamp,
              engine'), w2)
    /\ Dict.mem (MitigationEngine.blocked_ips engine') "10.0.0.5" = true
    /\ requests w2 = requests world0 ++ [PostBlock "10.0.0.5"].
Proof.
  refine (@confident_verdict_is_blocked sure_engine
            [("packets_per_second", 1000)] (fun _ => "detect_ddos:1")
            [1000] [0.1; 0.9] 0.9 MitigationEngine.new_engine
            (flow_of "10.0.0.5") "10.0.0.5" world0
            _ _ _ _ _ _ _ _ _ _ _ _ _ _); try reflexivity; try discriminate.
  unfold cache_inv. simpl. repeat split; lia.
Defined.

(** ** The Ryu calls of app.py *)

Module LiveFacts.

Lemma set_mem_In (ip : string) (s : list string) :
  Live.set_mem ip s = true <-> In ip s.
Proof.
  unfold Live.set_mem. rewrite existsb_exists. split.
  - intros (x & Hin & Hx). apply String.eqb_eq in Hx. now subst.
  - intros H. exists ip. split; [exact H | apply String.eqb_refl].
Qed.

Lemma set_add_In (ip : string) (s : list string) : In ip (Live.set_add ip s).
Proof.
  unfold Live.set_add. destruct (Live.set_mem ip s) eqn:E.
  - now apply set_mem_In.
  - apply in_or_app. right. now left.
Qed.

Lemma discard_add (ip : string) (s : list string) :
  ~ In ip s -> Live.set_discard ip (Live.set_add ip s) = s.
Proof.
  intros Hnew. unfold Live.set_add.
  assert (E : Live.set_mem ip s = false)
    by (apply not_true_iff_false; now rewrite set_mem_In).
  rewrite E. unfold Live.set_discard. rewrite filter_app. simpl.
  rewrite String.eqb_refl. simpl. rewrite app_nil_r.
  clear E. induction s as [|x s IH]; simpl; [reflexivity|].
  destruct (String.eqb x ip) eqn:Ex.
  - apply String.eqb_eq in Ex. subst. exfalso. apply Hnew. now left.
  - simpl. f_equal. apply IH. intros H. apply Hnew. now right.
Qed.

Lemma block_ip_new (st : Live.State) (ip : string) :
  Live.set_mem ip (Live.BLOCKED_IPS st) = false ->
  Live.block_ip st ip
  = match Live.http st (List.length (Live.posts st)) (Live.FlowAdd ip) with
    | Response code =>
        if Live.ok code
        then (true,
              Live.with_blocked
                (Live.with_posts st (Live.posts st ++ [Live.FlowAdd ip]))
                (Live.set_add ip (Live.BLOCKED_IPS st)))
        else (false,
              Live.with_posts st (Live.posts st ++ [Live.FlowAdd ip]))
    | Failed =>
        (false, Live.with_posts st (Live.posts st ++ [Live.FlowAdd ip]))
    end.
Proof.
  intros E. unfold Live.block_ip. rewrite E. cbn [Live.requests_post].
  destruct (Live.http st _ _) as [code|]; [destruct (Live.ok code)|];
    reflexivity.
Qed.

Lemma block_ip_posts (st : Live.State) (ip : string) :
  Live.set_mem ip (Live.BLOCKED_IPS st) = false ->
  Live.posts (snd (Live.block_ip st ip))
  = Live.posts st ++ [Live.FlowAdd ip].
Proof.
  intros E. rewrite (block_ip_new st ip E).
  destruct (Live.http st _ _) as [code|]; [destruct (Live.ok code)|];
    reflexivity.
Qed.

End LiveFacts.

(** X25. [block_ip] of [app.py] is idempotent: for an address already in
    [BLOCKED_IPS] it returns [True] without posting. A call that returns
    [True] leaves the address in the set, so that a second call posts
    nothing; a call that returns [False] has posted one flow rule and left
    the set as it was, so that the next call tries again. *)
Theorem live_block_ip (st : Live.State) (ip : string) :
  let st1 := snd (Live.block_ip st ip) in
  (In ip (Live.BLOCKED_IPS st) -> Live.block_ip st ip = (true, st))
  /\ (fst (Live.block_ip st ip) = true ->
      In ip (Live.BLOCKED_IPS st1) /\ Live.block_ip st1 ip = (true, st1))
  /\ (fst (Live.block_ip st ip) = false ->
      Live.BLOCKED_IPS st1 = Live.BLOCKED_IPS st
      /\ Live.posts st1 = Live.posts st ++ [Live.FlowAdd ip]
      /\ Live.posts (snd (Live.block_ip st1 ip))
         = Live.posts st ++ [Live.FlowAdd ip; Live.FlowAdd ip]).
Proof.
  intros st1.
  assert (Hagain : forall s, In ip (Live.BLOCKED_IPS s) ->
                             Live.block_ip s ip = (true, s)).
  { intros s H. apply LiveFacts.set_mem_In in H.
    unfold Live.block_ip. now rewrite H. }
  split; [apply Hagain|].
  destruct (Live.set_mem ip (Live.BLOCKED_IPS st)) eqn:E.
  - apply LiveFacts.set_mem_In in E.
    subst st1. rewrite (Hagain st E). cbn [fst snd].
    split; [auto | discriminate].
  - pose proof (LiveFacts.block_ip_posts st ip E) as Hposts.
    fold st1 in Hposts. subst st1.
    rewrite (LiveFacts.block_ip_new st ip E) in *.
    destruct (Live.http st _ _) as [code|];
      [destruct (Live.ok code)|]; cbn [fst snd] in *.
    + split; [|discriminate]. intros _.
      assert (H : In ip (Live.BLOCKED_IPS
                           (Live.with_blocked
                              (Live.with_posts st
                                 (Live.posts st ++ [Live.FlowAdd ip]))
                              (Live.set_add ip (Live.BLOCKED_IPS st)))))
        by apply LiveFacts.set_add_In.
      split; [exact H | now apply Hagain].
    + split; [discriminate|]. intros _.
      split; [reflexivity|]. split; [reflexivity|].
      rewrite LiveFacts.block_ip_posts by exact E.
      cbn [Live.with_posts Live.posts]. now rewrite <- app_assoc.
    + split; [discriminate|]. intros _.
      split; [reflexivity|]. split; [reflexivity|].
      rewrite LiveFacts.block_ip_posts by exact E.
      cbn [Live.with_posts Live.posts]. now rewrite <- app_assoc.
Qed.

(** X26. [unblock_ip] of [app.py] answers [True] for an address that is not
    blocked, without posting. After a block that Ryu accepted, an unblock
    that Ryu accepts returns [True] too and restores [BLOCKED_IPS]; the
    two calls post one flow rule each. *)
Theorem live_block_then_unblock
    (st : Live.State) (ip : string) (added deleted : Z)
    (Hnew : ~ In ip (Live.BLOCKED_IPS st))
    (Hadd : Live.http st (List.length (Live.posts st)) (Live.FlowAdd ip)
            = Response added)
    (Hadded : (added < 400)%Z)
    (Hdelete : Live.http st (S (List.length (Live.posts st)))
                 (Live.FlowDelete ip) = Response deleted)
    (Hdeleted : (deleted < 400)%Z) :
  exists st1 st2,
    Live.unblock_ip st ip = (true, st)
    /\ Live.block_ip st ip = (true, st1)
    /\ In ip (Live.BLOCKED_IPS st1)
    /\ Live.unblock_ip st1 ip = (true, st2)
    /\ Live.BLOCKED_IPS st2 = Live.BLOCKED_IPS st
    /\ Live.posts st2
       = Live.posts st ++ [Live.FlowAdd ip; Live.FlowDelete ip].
Proof.
  assert (E : Live.set_mem ip (Live.BLOCKED_IPS st) = false)
    by (apply not_true_iff_false; now rewrite LiveFacts.set_mem_In).
  assert (Hok1 : Live.ok added = true)
    by (unfold Live.ok; apply negb_true_iff, andb_false_iff; left;
        apply Z.leb_gt; exact Hadded).
  assert (Hok2 : Live.ok deleted = true)
    by (unfold Live.ok; apply negb_true_iff, andb_false_iff; left;
        apply Z.leb_gt; exact Hdeleted).
  do 2 eexists.
  split; [unfold Live.unblock_ip; now rewrite E|].
  split.
  { unfold Live.block_ip. rewrite E. cbn [Live.requests_post].
    rewrite Hadd, Hok1. reflexivity. }
  split; [apply LiveFacts.set_add_In|].
  split.
  { unfold Live.unblock_ip.
    cbn [Live.with_blocked Live.with_posts Live.BLOCKED_IPS Live.posts
           Live.http Live.requests_post].
    assert (Hmem : Live.set_mem ip (Live.set_add ip (Live.BLOCKED_IPS st))
                   = true)
      by (apply LiveFacts.set_mem_In, LiveFacts.set_add_In).
    rewrite Hmem. cbn [negb].
    rewrite length_app, Nat.add_comm. cbn [List.length plus].
    rewrite Hdelete, Hok2. reflexivity. }
  cbn [Live.with_blocked Live.with_posts Live.BLOCKED_IPS Live.posts].
  split; [now apply LiveFacts.discard_add|].
  now rewrite <- app_assoc.
Qed.

(** X26 for the first block of a capture. *)
Lemma live_block_then_unblock_witness :
  exists st1 st2,
    Live.unblock_ip (live_at 0) "10.0.0.5" = (true, live_at 0)
    /\ Live.block_ip (live_at 0) "10.0.0.5" = (true, st1)
    /\ In "10.0.0.5" (Live.BLOCKED_IPS st1)
    /\ Live.unblock_ip st1 "10.0.0.5" = (true, st2)
    /\ Live.BLOCKED_IPS st2 = Live.BLOCKED_IPS (live_at 0)
    /\ Live.posts st2
       = Live.posts (live_at 0)
           ++ [Live.FlowAdd "10.0.0.5"; Live.FlowDelete "10.0.0.5"].
Proof.
  refine (@live_block_then_unblock (live_at 0) "10.0.0.5" 200 200
            _ _ _ _ _); try reflexivity.
  intros [].
Defined.

(** X27. The live posts are throttled: once a post to the Node backend has
    been answered, a further [throttled_live_post] made less than 0.1
    later posts nothing. *)
Theorem live_throttle
    (st : Live.State) (first second : Live.LivePayload) (code : Z)
    (Hdue : 0.1 <= clock (Live.world st) (ticks (Live.world st))
                   - Live.last_live_ts st)
    (Hanswered : Live.http st (List.length (Live.posts st))
                   (Live.LivePacket first) = Response code)
    (Hsoon : clock (Live.world st) (S (ticks (Live.world st)))
             - clock (Live.world st) (ticks (Live.world st)) < 0.1) :
  let st1 := Live.throttled_live_post st first in
  let st2 := Live.throttled_live_post st1 second in
  Live.posts st1 = Live.posts st ++ [Live.LivePacket first]
  /\ Live.last_live_ts st1 = clock (Live.world st) (ticks (Live.world st))
  /\ Live.posts st2 = Live.posts st1
  /\ Live.last_live_ts st2 = Live.last_live_ts st1.
Proof.
  intros st1 st2.
  assert (H1 : st1
               = Live.with_last_live
                   (Live.with_posts
                      (Live.with_world st (snd (time_time (Live.world st))))
                      (Live.posts st ++ [Live.LivePacket first]))
                   (clock (Live.world st) (ticks (Live.world st)))).
  { unfold st1, Live.throttled_live_post, Live.time_now.
    cbn [Live.with_world Live.last_live_ts].
    apply Qge_bool_iff in Hdue. unfold Live.LIVE_POST_INTERVAL.
    rewrite Hdue. unfold Live.requests_post.
    cbn [Live.with_world Live.http Live.posts]. now rewrite Hanswered. }
  assert (H2 : st2 = Live.with_world st1 (snd (time_time (Live.world st1)))).
  { unfold st2, Live.throttled_live_post, Live.time_now.
    assert (Hno : Qge_bool
                    (clock (Live.world st1) (ticks (Live.world st1))
                     - Live.last_live_ts
                         (Live.with_world st1
                            (snd (time_time (Live.world st1)))))
                    Live.LIVE_POST_INTERVAL = false).
    { rewrite H1.
      cbn [Live.with_last_live Live.with_posts Live.with_world Live.world
             Live.last_live_ts time_time snd clock ticks].
      unfold Qge_bool. apply not_true_iff_false. rewrite Qle_bool_iff.
      unfold Live.LIVE_POST_INTERVAL. lra. }
    now rewrite Hno. }
  rewrite H2, H1. repeat split.
Qed.

(** X27 on a clock that stands still at time 5. *)
Lemma live_throttle_witness :
  Live.posts (Live.throttled_live_post (live_at 5)
                {| Live.srcIP := "10.0.0.5"; Live.dstIP := "10.0.0.1";
                   Live.protocol := "UDP"; Live.packetSize := 64;
                   Live.timestamp := 5000; Live.network_slice := "eMBB";
                   Live.slice_priority := 2 |})
  = Live.posts (live_at 5)
      ++ [Live.LivePacket
            {| Live.srcIP := "10.0.0.5"; Live.dstIP := "10.0.0.1";
               Live.protocol := "UDP"; Live.packetSize := 64;
               Live.timestamp := 5000; Live.network_slice := "eMBB";
               Live.slice_priority := 2 |}]
  /\ Live.last_live_ts
       (Live.throttled_live_post (live_at 5)
          {| Live.srcIP := "10.0.0.5"; Live.dstIP := "10.0.0.1";
             Live.protocol := "UDP"; Live.packetSize := 64;
             Live.timestamp := 5000; Live.network_slice := "eMBB";
             Live.slice_priority := 2 |})
     = clock (Live.world (live_at 5)) (ticks (Live.world (live_at 5)))
  /\ Live.posts
       (Live.throttled_live_post
          (Live.throttled_live_post (live_at 5)
             {| Live.srcIP := "10.0.0.5"; Live.dstIP := "10.0.0.1";
                Live.protocol := "UDP"; Live.packetSize := 64;
                Live.timestamp := 5000; Live.network_slice := "eMBB";
                Live.slice_priority := 2 |})
          {| Live.srcIP := "10.0.0.6"; Live.dstIP := "10.0.0.1";
             Live.protocol := "UDP"; Live.packetSize := 64;
             Live.timestamp := 5000; Live.network_slice := "eMBB";
             Live.slice_priority := 2 |})
     = Live.posts
         (Live.throttled_live_post (live_at 5)
            {| Live.srcIP := "10.0.0.5"; Live.dstIP := "10.0.0.1";
               Live.protocol := "UDP"; Live.packetSize := 64;
               Live.timestamp := 5000; Live.network_slice := "eMBB";
               Live.slice_priority := 2 |})
  /\ Live.last_live_ts
       (Live.throttled_live_post
          (Live.throttled_live_post (live_at 5)
             {| Live.srcIP := "10.0.0.5"; Live.dstIP := "10.0.0.1";
                Live.protocol := "UDP"; Live.packetSize := 64;
                Live.timestamp := 5000; Live.network_slice := "eMBB";
                Live.slice_priority := 2 |})
          {| Live.srcIP := "10.0.0.6"; Live.dstIP := "10.0.0.1";
             Live.protocol := "UDP"; Live.packetSize := 64;
             Live.timestamp := 5000; Live.network_slice := "eMBB";
             Live.slice_priority := 2 |})
     = Live.last_live_ts
         (Live.throttled_live_post (live_at 5)
            {| Live.srcIP := "10.0.0.5"; Live.dstIP := "10.0.0.1";
               Live.protocol := "UDP"; Live.packetSize := 64;
               Live.timestamp := 5000; Live.network_slice := "eMBB";
               Live.slice_priority := 2 |}).
Proof.
  refine (@live_throttle (live_at 5) _ _ 200 _ _ _).
  - vm_compute. discriminate.
  - reflexivity.
  - reflexivity.
Defined.

(** ** A flood seen by the capture loop *)

Module FloodFacts.

Lemma get_network_slice_run (size : Z) (name : string) (pps : Q) (w : World) :
  exists info,
    NetworkSlicing.get_network_slice size name pps w
    = (Ok info, snd (time_time w)).
Proof.
  unfold NetworkSlicing.get_network_slice, NetworkSlicing.apply_slice_policy.
  unfold bind, lift. cbn [Dict.item Dict.get NetworkSlicing.SLICE_DEFINITIONS
                            String.eqb Ascii.eqb Bool.eqb].
  eexists. reflexivity.
Qed.

(** What [throttled_live_post] leaves alone. *)
Lemma throttled_frame (st : Live.State) (payload : Live.LivePayload) :
  let st' := Live.throttled_live_post st payload in
  Live.running st' = Live.running st
  /\ Live.model st' = Live.model st
  /\ Live.FORCE_MALICIOUS_IPS st' = Live.FORCE_MALICIOUS_IPS st
  /\ Live.BLOCKED_IPS st' = Live.BLOCKED_IPS st
  /\ Live.http st' = Live.http st
  /\ clock (Live.world st') = clock (Live.world st)
  /\ Live.rate_tracker st' = Live.rate_tracker st
  /\ filter is_flow_rule (Live.posts st') = filter is_flow_rule (Live.posts st).
Proof.
  unfold Live.throttled_live_post, Live.time_now.
  destruct (Qge_bool _ _); [|cbn; repeat split].
  unfold Live.requests_post.
  destruct (Live.http _ _ _); cbn; repeat split;
    rewrite filter_app; cbn; now rewrite app_nil_r.
Qed.

Section Step.
Variables (st0 st : Live.State) (src_ip : string) (k : nat)
          (pkt : Live.Packet).
Hypothesis Hseen : seen st0 st src_ip k.
Hypothesis Hwindow : App.window (Live.rate_tracker st0) == 1.
Hypothesis Hclock : forall n m,
    clock (Live.world st0) n - clock (Live.world st0) m <= 1.
Hypothesis Hforced : ~ In src_ip (Live.FORCE_MALICIOUS_IPS st0).
Hypothesis Hpkt : from_source src_ip pkt.

(** The handler up to the decision: the packet is counted, and the rest
    depends on whether the count exceeds 50. *)
Lemma handler_counts :
  exists (st5 : Live.State) (report : Q -> Live.BlockedPayload),
    seen st0 st5 src_ip (S k)
    /\ Live.packet_handler st pkt
       = if Nat.ltb 50 (S k)
         then
           let '(blocked, st6) := Live.block_ip st5 src_ip in
           if blocked then
             let '(stamp, st7) := Live.time_now st6 in
             let '(_, st8) :=
               Live.requests_post st7 (Live.EmitBlockedIp (report stamp)) in
             (Ok tt, st8)
           else (Ok tt, st6)
         else (Ok tt, st5).
Proof.
  destruct Hseen as [Hrun Hmodel Hf Hb Hh Hc Hw Hk Hread Hrules].
  destruct Hpkt as (dst_ip & proto & Hip).
  unfold Live.packet_handler. rewrite Hrun, Hip. cbn [negb].
  unfold Live.time_now at 1.
  set (now := clock (Live.world st) (ticks (Live.world st))).
  set (st1 := Live.with_world st (snd (time_time (Live.world st)))).
  set (tr2 := App.add (Live.rate_tracker st1) src_ip now).
  assert (Hnow : exists n, now = clock (Live.world st0) n)
    by (exists (ticks (Live.world st)); unfold now; now rewrite Hc).
  assert (Hq2 : App.deque_of tr2 src_ip
                = App.deque_of (Live.rate_tracker st) src_ip ++ [now]).
  { unfold tr2. rewrite RateFacts.deque_of_add.
    cbn [st1 Live.with_world Live.rate_tracker].
    apply RateFacts.purge_keeps. intros a Ha. rewrite Hw, Hwindow.
    assert (Hone : forall x, x <= 1 -> round64 x <= 1).
    { intros x Hx. apply Qle_trans with (round64 1).
      - now apply Rounding.round64_mono.
      - vm_compute. discriminate. }
    destruct Hnow as (n & ->). apply Hone.
    apply in_app_or in Ha. destruct Ha as [Ha | [<- | []]].
    - destruct (Hread a Ha) as (m & ->). apply Hclock.
    - apply Hclock. }
  assert (Hw2 : App.window tr2 = App.window (Live.rate_tracker st0))
    by exact Hw.
  cbn [Live.with_tracker Live.rate_tracker].
  pose proof (RateFacts.pps_value tr2 src_ip) as Hval.
  destruct (RateFacts.deque_of_pps tr2 src_ip) as [Hq3 Hw3].
  destruct (App.pps tr2 src_ip) as [r tr3] eqn:Hpps. cbn [fst snd] in *.
  assert (Hpos : 0 < App.window tr2) by (rewrite Hw2, Hwindow; reflexivity).
  specialize (Hval Hpos).
  destruct r as [pps|e]; [|destruct Hval].
  cbn [returns] in Hval.
  assert (Hrate : pps == inject_Z (Z.of_nat (S k))).
  { rewrite Hval, Hw2, Hwindow, Hq2. unfold Qlen.
    rewrite length_app, Hk, Nat.add_comm. cbn [List.length plus].
    field. }
  cbn [Live.with_tracker Live.with_world Live.world].
  destruct (get_network_slice_run (Live.len pkt) (Live.protocol_name proto)
              pps (snd (time_time (Live.world st)))) as (info & Hslice).
  cbn [st1 Live.with_world Live.world]. rewrite Hslice.
  match goal with
  | |- context [Live.throttled_live_post ?s ?p] =>
      set (st4 := s); set (payload := p);
      destruct (throttled_frame st4 payload)
        as (Hrun5 & Hmodel5 & Hf5 & Hb5 & Hh5 & Hc5 & Htr5 & Hrules5);
      set (st5 := Live.throttled_live_post st4 payload) in *
  end.
  assert (Hdecide : App.is_ddos_attack_for_ip (Live.model st5)
                      (Live.FORCE_MALICIOUS_IPS st5) src_ip (Live.len pkt)
                      pps false
                    = Nat.ltb 50 (S k)).
  { rewrite Hmodel5, Hf5. unfold st4, st1.
    cbn [Live.with_world Live.with_tracker
         Live.model Live.FORCE_MALICIOUS_IPS].
    rewrite Hmodel, Hf. unfold App.is_ddos_attack_for_ip.
    assert (E : existsb (String.eqb src_ip) (Live.FORCE_MALICIOUS_IPS st0)
                = false).
    { apply not_true_iff_false. intros H. apply Hforced.
      now apply LiveFacts.set_mem_In. }
    rewrite E. unfold App.is_ddos_attack.
    apply eq_true_iff_eq. rewrite Qlt_bool_iff, Nat.ltb_lt, Hrate.
    change 50 with (inject_Z 50). rewrite <- Zlt_Qlt. lia. }
  rewrite Hdecide.
  exists st5. eexists (fun stamp => _). split; [|reflexivity].
  constructor.
  - rewrite Hrun5. exact Hrun.
  - rewrite Hmodel5. exact Hmodel.
  - rewrite Hf5. exact Hf.
  - rewrite Hb5. exact Hb.
  - rewrite Hh5. exact Hh.
  - rewrite Hc5. exact Hc.
  - rewrite Htr5. unfold st4, st1.
    cbn [Live.with_world Live.with_tracker Live.rate_tracker].
    rewrite Hw3. exact Hw2.
  - rewrite Htr5. unfold st4, st1.
    cbn [Live.with_world Live.with_tracker Live.rate_tracker].
    rewrite Hq3, Hq2, length_app, Hk. cbn [List.length]. lia.
  - rewrite Htr5. unfold st4, st1.
    cbn [Live.with_world Live.with_tracker Live.rate_tracker].
    rewrite Hq3, Hq2. intros t Ht. apply in_app_or in Ht.
    destruct Ht as [Ht | [<- | []]]; [now apply Hread | exact Hnow].
  - rewrite Hrules5. exact Hrules.
Qed.

End Step.

End FloodFacts.

Module FloodRun.

Lemma quiet_run (st0 : Live.State) (src_ip : string) :
  App.window (Live.rate_tracker st0) == 1 ->
  (forall n m, clock (Live.world st0) n - clock (Live.world st0) m <= 1) ->
  ~ In src_ip (Live.FORCE_MALICIOUS_IPS st0) ->
  forall (pkts : list Live.Packet) (st : Live.State) (k : nat),
    seen st0 st src_ip k ->
    (k + List.length pkts <= 50)%nat ->
    Forall (from_source src_ip) pkts ->
    exists st',
      handle_all st pkts = (Ok tt, st')
      /\ seen st0 st' src_ip (k + List.length pkts).
Proof.
  intros Hwindow Hclock Hforced.
  induction pkts as [|pkt rest IH]; intros st k Hseen Hk Hall.
  - exists st. cbn [handle_all List.length]. rewrite Nat.add_0_r. now split.
  - cbn [List.length] in *. inversion Hall as [|? ? Hpkt Hrest]; subst.
    destruct (@FloodFacts.handler_counts st0 st src_ip k pkt Hseen Hwindow
                Hclock Hforced Hpkt) as (st5 & report & Hseen5 & Hrun).
    assert (E : Nat.ltb 50 (S k) = false) by (apply Nat.ltb_ge; lia).
    rewrite E in Hrun.
    destruct (IH st5 (S k) Hseen5 ltac:(lia) Hrest) as (st' & Hrun' & Hseen').
    exists st'. cbn [handle_all]. rewrite Hrun. split; [exact Hrun'|].
    replace (k + S (List.length rest))%nat
      with (S k + List.length rest)%nat by lia.
    exact Hseen'.
Qed.

End FloodRun.

(** X28. The capture loop without a model blocks a flood at its 51st
    packet. Let the window be one second, let every reading of the clock lie
    within one second of every other, and let the source be neither forced
    nor blocked, with an empty deque. Then [packet_handler] handles 50
    packets of the source without posting a flow rule and without changing
    [BLOCKED_IPS]; on the next packet of the source it posts exactly one
    flow rule, the block of the source. The source is in [BLOCKED_IPS]
    afterwards if Ryu answered that post with a status for which [r.ok]
    holds; if the status was one from 400 to 599, or the post raised,
    [BLOCKED_IPS] is unchanged. *)
Theorem flood_is_blocked (st : Live.State) (src_ip : string)
    (quiet : list Live.Packet) (last : Live.Packet) (answer : HttpOutcome)
    (Hrunning : Live.running st = true)
    (Hmodel : Live.model st = None)
    (Hforced : ~ In src_ip (Live.FORCE_MALICIOUS_IPS st))
    (Hblocked : ~ In src_ip (Live.BLOCKED_IPS st))
    (Hwindow : App.window (Live.rate_tracker st) == 1)
    (Hfresh : App.deque_of (Live.rate_tracker st) src_ip = [])
    (Hclock : forall n m,
        clock (Live.world st) n - clock (Live.world st) m <= 1)
    (Hquiet : Forall (from_source src_ip) quiet)
    (Hfifty : List.length quiet = 50%nat)
    (Hlast : from_source src_ip last)
    (Hryu : forall n, Live.http st n (Live.FlowAdd src_ip) = answer) :
  exists st50 st51,
    handle_all st quiet = (Ok tt, st50)
    /\ Live.BLOCKED_IPS st50 = Live.BLOCKED_IPS st
    /\ filter is_flow_rule (Live.posts st50)
       = filter is_flow_rule (Live.posts st)
    /\ Live.packet_handler st50 last = (Ok tt, st51)
    /\ filter is_flow_rule (Live.posts st51)
       = filter is_flow_rule (Live.posts st) ++ [Live.FlowAdd src_ip]
    /\ (accepted answer = true -> In src_ip (Live.BLOCKED_IPS st51))
    /\ (accepted answer = false ->
        Live.BLOCKED_IPS st51 = Live.BLOCKED_IPS st).
Proof.
  assert (Hseen0 : seen st st src_ip 0).
  { constructor; try reflexivity; try assumption.
    - now rewrite Hfresh.
    - rewrite Hfresh. intros t []. }
  destruct (@FloodRun.quiet_run st src_ip Hwindow Hclock Hforced quiet st 0%nat
              Hseen0 ltac:(lia) Hquiet) as (st50 & Hrun50 & Hseen50).
  rewrite Hfifty in Hseen50. cbn [plus] in Hseen50.
  destruct (@FloodFacts.handler_counts st st50 src_ip 50 last Hseen50 Hwindow
              Hclock Hforced Hlast) as (st5 & report & Hseen5 & Hrun).
  change (Nat.ltb 50 51) with true in Hrun.
  destruct Hseen5 as [_ _ _ Hb5 Hh5 _ _ _ _ Hrules5].
  assert (E : Live.set_mem src_ip (Live.BLOCKED_IPS st5) = false).
  { apply not_true_iff_false. rewrite LiveFacts.set_mem_In, Hb5.
    exact Hblocked. }
  rewrite (LiveFacts.block_ip_new st5 src_ip E), Hh5, Hryu in Hrun.
  exists st50.
  assert (Hrefused :
            Live.packet_handler st50 last
            = (Ok tt,
               Live.with_posts st5 (Live.posts st5 ++ [Live.FlowAdd src_ip]))
            -> accepted answer = false ->
            exists st51,
              handle_all st quiet = (Ok tt, st50)
              /\ Live.BLOCKED_IPS st50 = Live.BLOCKED_IPS st
              /\ filter is_flow_rule (Live.posts st50)
                 = filter is_flow_rule (Live.posts st)
              /\ Live.packet_handler st50 last = (Ok tt, st51)
              /\ filter is_flow_rule (Live.posts st51)
                 = filter is_flow_rule (Live.posts st)
                   ++ [Live.FlowAdd src_ip]
              /\ (accepted answer = true ->
                  In src_ip (Live.BLOCKED_IPS st51))
              /\ (accepted answer = false ->
                  Live.BLOCKED_IPS st51 = Live.BLOCKED_IPS st)).
  { intros Hlast51 Hno. eexists. split; [exact Hrun50|].
    split; [apply (seen_blocked Hseen50)|].
    split; [apply (seen_rules Hseen50)|].
    split; [exact Hlast51|].
    cbn [Live.with_posts Live.posts Live.BLOCKED_IPS].
    split; [|split; [congruence|]].
    + rewrite filter_app, Hrules5. reflexivity.
    + intros _. exact Hb5. }
  destruct answer as [code|]; [destruct (Live.ok code) eqn:Hok|].
  - unfold Live.time_now, Live.requests_post in Hrun.
    eexists. split; [exact Hrun50|].
    split; [apply (seen_blocked Hseen50)|].
    split; [apply (seen_rules Hseen50)|].
    split; [exact Hrun|].
    cbn [Live.with_posts Live.with_world Live.with_blocked Live.posts
         Live.BLOCKED_IPS accepted].
    split; [|split; [|congruence]].
    + rewrite !filter_app, Hrules5. cbn [filter is_flow_rule].
      now rewrite app_nil_r.
    + intros _. apply LiveFacts.set_add_In.
  - apply Hrefused; [exact Hrun | exact Hok].
  - apply Hrefused; [exact Hrun | reflexivity].
Qed.

(** X28 for a Ryu that answers 200. *)
Lemma flood_is_blocked_witness :
  exists st50 st51,
    handle_all (live_at 0) (repeat (udp_from "10.0.0.5") 50) = (Ok tt, st50)
    /\ Live.BLOCKED_IPS st50 = Live.BLOCKED_IPS (live_at 0)
    /\ filter is_flow_rule (Live.posts st50)
       = filter is_flow_rule (Live.posts (live_at 0))
    /\ Live.packet_handler st50 (udp_from "10.0.0.5") = (Ok tt, st51)
    /\ filter is_flow_rule (Live.posts st51)
       = filter is_flow_rule (Live.posts (live_at 0))
         ++ [Live.FlowAdd "10.0.0.5"]
    /\ (accepted (Response 200) = true ->
        In "10.0.0.5" (Live.BLOCKED_IPS st51))
    /\ (accepted (Response 200) = false ->
        Live.BLOCKED_IPS st51 = Live.BLOCKED_IPS (live_at 0)).
Proof.
  refine (@flood_is_blocked (live_at 0) "10.0.0.5"
            (repeat (udp_from "10.0.0.5") 50) (udp_from "10.0.0.5")
            (Response 200) _ _ _ _ _ _ _ _ _ _ _).
  - reflexivity.
  - reflexivity.
  - intros [].
  - intros [].
  - reflexivity.
  - reflexivity.
  - intros n m. cbn. discriminate.
  - apply Forall_forall. intros pkt Hin. apply repeat_spec in Hin. subst.
    exists "10.0.0.1", 17%Z. reflexivity.
  - apply repeat_length.
  - exists "10.0.0.1", 17%Z. reflexivity.
  - intros n. reflexivity.
Defined.

(** X29. A packet from a source that is already blocked never reaches Ryu:
    whatever the model, the rate and the servers, [packet_handler] posts
    no flow rule for it and leaves [BLOCKED_IPS] as it is. *)
Theorem blocked_source_posts_no_rule (st : Live.State) (pkt : Live.Packet)
    (src_ip : string)
    (Hpkt : from_source src_ip pkt)
    (Hblocked : In src_ip (Live.BLOCKED_IPS st)) :
  let st' := snd (Live.packet_handler st pkt) in
  filter is_flow_rule (Live.posts st') = filter is_flow_rule (Live.posts st)
  /\ Live.BLOCKED_IPS st' = Live.BLOCKED_IPS st.
Proof.
  destruct Hpkt as (dst_ip & proto & Hip).
  unfold Live.packet_handler.
  destruct (negb (Live.running st)); [now split|].
  rewrite Hip. unfold Live.time_now.
  cbn [Live.with_tracker Live.with_world Live.rate_tracker Live.world].
  destruct (App.pps _ src_ip) as [[pps|e] tr]; [|cbn; now split].
  destruct (NetworkSlicing.get_network_slice _ _ _ _) as [slice_info w].
  assert (Hafter : forall payload st4,
             Live.BLOCKED_IPS st4 = Live.BLOCKED_IPS st ->
             Live.posts st4 = Live.posts st ->
             let st5 := Live.throttled_live_post st4 payload in
             forall report,
               let st' :=
                 snd (if App.is_ddos_attack_for_ip (Live.model st5)
                           (Live.FORCE_MALICIOUS_IPS st5) src_ip
                           (Live.len pkt) pps false
                      then
                        let '(blocked, st6) := Live.block_ip st5 src_ip in
                        if blocked then
                          let '(stamp, st7) := Live.time_now st6 in
                          let '(_, st8) :=
                            Live.requests_post st7
                              (Live.EmitBlockedIp (report stamp)) in
                          (Ok tt, st8)
                        else (Ok tt, st6)
                      else (@Ok unit tt, st5)) in
               filter is_flow_rule (Live.posts st')
               = filter is_flow_rule (Live.posts st)
               /\ Live.BLOCKED_IPS st' = Live.BLOCKED_IPS st).
  { intros payload st4 Hb4 Hp4 st5 report.
    destruct (FloodFacts.throttled_frame st4 payload)
      as (_ & _ & _ & Hb5 & _ & _ & _ & Hrules5).
    fold st5 in Hb5, Hrules5. rewrite Hb4 in Hb5. rewrite Hp4 in Hrules5.
    destruct (App.is_ddos_attack_for_ip _ _ _ _ _ _); [|now split].
    assert (E : Live.set_mem src_ip (Live.BLOCKED_IPS st5) = true)
      by (apply LiveFacts.set_mem_In; now rewrite Hb5).
    unfold Live.block_ip. rewrite E.
    unfold Live.time_now, Live.requests_post.
    cbn [snd Live.with_posts Live.with_world Live.posts Live.BLOCKED_IPS].
    split; [|exact Hb5].
    rewrite filter_app, Hrules5. cbn [filter is_flow_rule].
    now rewrite app_nil_r. }
  destruct slice_info as [info|e];
    match goal with
    | |- context [Live.throttled_live_post ?s ?p] =>
        exact (Hafter p s eq_refl eq_refl
                 (fun stamp =>
                    {| Live.ip := src_ip; Live.reason_pps := pps;
                       Live.reason_protocol := Live.protocol_name proto;
                       Live.threatLevel := "high";
                       Live.blocked_at := stamp;
                       Live.isSimulated := false;
                       Live.blocked_slice := Live.network_slice p;
                       Live.blocked_priority := Live.slice_priority p |}))
    end.
Qed.

Lemma blocked_source_posts_no_rule_witness :
  let st := Live.with_blocked (live_at 0) ["10.0.0.5"] in
  let st' := snd (Live.packet_handler st (udp_from "10.0.0.5")) in
  filter is_flow_rule (Live.posts st') = filter is_flow_rule (Live.posts st)
  /\ Live.BLOCKED_IPS st' = Live.BLOCKED_IPS st.
Proof.
  refine (@blocked_source_posts_no_rule
            (Live.with_blocked (live_at 0) ["10.0.0.5"])
            (udp_from "10.0.0.5") "10.0.0.5" _ _).
  - exists "10.0.0.1", 17%Z. reflexivity.
  - left. reflexivity.
Defined.
